(** * Sport_Data: the query-intent parser and the query-result cache

    A shallow embedding of [QueryParser] (src/voice_query_system.py) and of
    [QueryCache] (src/query_cache.py), with the properties of the
    specification stated and proved over it; and of what calls them and
    what they lead to: the dispatch of a parsed query to the backends and
    [process_query_text] of [VoiceQuerySystem], and the table that
    resolves the name of an NBA team (src/backend/nba_team_ids.py).

    Layout: the Python values and primitives the classes rely on ([Py]),
    the parser ([QueryParser]), the cache ([QueryCache]), the query system
    ([VoiceQuerySystem]) and the table of the teams ([NbaTeamIds]),
    written after the source line by line; the vocabulary of the
    statements ([PySpec], [ParserSpec], [CacheSpec], [RuleSpec],
    [CoverageSpec], [SystemSpec]); then the lemmas ([PyFacts],
    [ParserFacts], [CacheFacts], and, on the behaviour around the
    specification, [StoreFacts], [ListingFacts], [ExpiryFacts],
    [RuleFacts], [SystemFacts], [TeamFacts]).

    Where the source reads the clock, the function takes the reading as an
    argument.  Confidence is a rational number, so that its sums and maxima
    are exact; the source adds binary floating-point numbers, and a
    statement that depends on the difference says so.  A text is kept as
    its UTF-8 encoding; the regular expressions and [int] read its code
    points, with the decimal digits of every script and the limit of
    CPython on the length of a number.  A backend is a record of its
    methods, each giving what the call returns or the message of what it
    raises: the network behind it is not modelled. *)

From Stdlib Require Import String Ascii List ZArith Lia Bool Arith.
From Stdlib Require Import QArith Qminmax DecimalString.
From Stdlib Require Import Sorting.Sorted Sorting.Permutation.
Import ListNotations.

Close Scope Q_scope.
#[global] Set Warnings "-register-all".
Local Open Scope string_scope.
Local Open Scope list_scope.

(* ================================================================== *)
(** ** Python values and primitives *)
(* ================================================================== *)

Module Py.

(** Exceptions raised by the primitives used below. *)
Inductive exn : Type := KeyError | TypeError | AttributeError | ValueError.

(** A computation either returns a value or raises. *)
Inductive exc (A : Type) : Type :=
| Ok (a : A)
| Raise (e : exn).
Arguments Ok {A} a.
Arguments Raise {A} e.

Definition bind {A B} (m : exc A) (f : A -> exc B) : exc B :=
  match m with
  | Ok a => f a
  | Raise e => Raise e
  end.

Notation "x <- m ;; k" := (bind m (fun x => k))
  (at level 61, m at next level, right associativity).

(** [for x in l: acc = body(acc, x)], stopping at the first exception. *)
Fixpoint foldM {A B} (body : B -> A -> exc B) (l : list A) (acc : B) : exc B :=
  match l with
  | [] => Ok acc
  | x :: l' => acc' <- body acc x ;; foldM body l' acc'
  end.

(** The JSON fragment of Python's values: what [json.load] produces and
    what the cache stores, floating-point numbers left out.  A [str] is its
    UTF-8 encoding, so that substring tests and the order of strings agree
    with Python's, which are on code points. *)
Inductive pyval : Type :=
| PNone
| PBool (b : bool)
| PInt (z : Z)
| PStr (s : string)
| PList (l : list pyval)
| PDict (d : list (string * pyval)).

(** A [dict] with [str] keys, in insertion order.  Python keeps the keys
    unique; the lemmas that need it ask for [dict_wf]. *)
Definition dict (A : Type) : Type := list (string * A).

Definition keys {A} (d : dict A) : list string := map fst d.

Definition dict_wf {A} (d : dict A) : Prop := NoDup (keys d).

(** [d.get(k)] *)
Fixpoint dict_get {A} (k : string) (d : dict A) : option A :=
  match d with
  | [] => None
  | (k', v) :: d' => if String.eqb k k' then Some v else dict_get k d'
  end.

(** [k in d] *)
Definition dict_mem {A} (k : string) (d : dict A) : bool :=
  match dict_get k d with Some _ => true | None => false end.

(** [d[k]] *)
Definition dict_getitem {A} (k : string) (d : dict A) : exc A :=
  match dict_get k d with Some v => Ok v | None => Raise KeyError end.

(** [d[k] = v]: an existing key keeps its place, a new one goes last. *)
Fixpoint dict_set {A} (k : string) (v : A) (d : dict A) : dict A :=
  match d with
  | [] => [(k, v)]
  | (k', v') :: d' =>
      if String.eqb k k' then (k, v) :: d' else (k', v') :: dict_set k v d'
  end.

Fixpoint dict_remove {A} (k : string) (d : dict A) : dict A :=
  match d with
  | [] => []
  | (k', v') :: d' =>
      if String.eqb k k' then d' else (k', v') :: dict_remove k d'
  end.

(** [del d[k]] *)
Definition dict_del {A} (k : string) (d : dict A) : exc (dict A) :=
  if dict_mem k d then Ok (dict_remove k d) else Raise KeyError.

(** *** Strings *)

Definition is_upper (c : ascii) : bool :=
  let n := nat_of_ascii c in (65 <=? n)%nat && (n <=? 90)%nat.

(** [str.lower], on the ASCII letters; the bytes of other characters are
    left as they are.  Python also lowers the capitals of other scripts;
    [plain] below says on which strings that makes no difference.  The
    keyword tables and the patterns of the parser hold the letters [f],
    [n], [b], [a], digits and Chinese characters only, no other capital
    lowers to one of these, and a digit has no case: the keyword tests and
    the searches come out as in Python on every text. *)
Definition lower_char (c : ascii) : ascii :=
  if is_upper c then ascii_of_nat (nat_of_ascii c + 32) else c.

Fixpoint lower (s : string) : string :=
  match s with
  | EmptyString => EmptyString
  | String c s' => String (lower_char c) (lower s')
  end.

(** ASCII white space as [str.strip] sees it.  The spaces beyond ASCII,
    several bytes long in UTF-8, are not stripped here ([plain] below
    excludes them); no keyword and no pattern of the parser has a space,
    so only [original_text] could tell. *)
Definition is_space (c : ascii) : bool :=
  let n := nat_of_ascii c in
  ((9 <=? n)%nat && (n <=? 13)%nat) || ((28 <=? n)%nat && (n <=? 32)%nat).

Fixpoint lstrip (s : string) : string :=
  match s with
  | EmptyString => EmptyString
  | String c s' => if is_space c then lstrip s' else s
  end.

Fixpoint rstrip (s : string) : string :=
  match s with
  | EmptyString => EmptyString
  | String c s' =>
      match rstrip s' with
      | EmptyString => if is_space c then EmptyString else String c EmptyString
      | r => String c r
      end
  end.

Definition strip (s : string) : string := rstrip (lstrip s).

(** [needle in hay] for two strings. *)
Fixpoint contains (needle hay : string) : bool :=
  String.prefix needle hay ||
  match hay with
  | EmptyString => false
  | String _ hay' => contains needle hay'
  end.

(** [sep.join(parts)] *)
Definition join (sep : string) (parts : list string) : string :=
  String.concat sep parts.

(** An ASCII digit and its value, as the reader of timestamps takes
    them. *)
Definition is_digit (c : ascii) : bool :=
  let n := nat_of_ascii c in (48 <=? n)%nat && (n <=? 57)%nat.

Definition digit_val (c : ascii) : Z := Z.of_nat (nat_of_ascii c) - 48.

(** *** Code points

    A [str] is a sequence of code points, and the regular expressions and
    [int] work on them.  [code_points] decodes the UTF-8 encoding; a byte
    that begins no well-formed sequence, which no [str] gives, stands for
    itself beyond the code space. *)
Definition byte (c : ascii) : N := N_of_ascii c.

Definition continuation (c : ascii) : bool :=
  let n := byte c in ((0x80 <=? n) && (n <=? 0xBF))%N.

Definition tail_bits (c : ascii) : N := (byte c - 0x80)%N.

Definition stray (c : ascii) : N := (0x110000 + byte c)%N.

Fixpoint code_points (s : string) : list N :=
  match s with
  | EmptyString => []
  | String a s1 =>
      let n := byte a in
      if (n <? 0x80)%N then n :: code_points s1
      else if ((0xC0 <=? n) && (n <? 0xE0))%N then
        match s1 with
        | String b s2 =>
            if continuation b
            then ((n - 0xC0) * 0x40 + tail_bits b)%N :: code_points s2
            else stray a :: code_points s1
        | EmptyString => stray a :: code_points s1
        end
      else if ((0xE0 <=? n) && (n <? 0xF0))%N then
        match s1 with
        | String b (String c s3) =>
            if continuation b && continuation c
            then (((n - 0xE0) * 0x40 + tail_bits b) * 0x40 + tail_bits c)%N
                 :: code_points s3
            else stray a :: code_points s1
        | _ => stray a :: code_points s1
        end
      else if ((0xF0 <=? n) && (n <? 0xF8))%N then
        match s1 with
        | String b (String c (String d s4)) =>
            if continuation b && continuation c && continuation d
            then ((((n - 0xF0) * 0x40 + tail_bits b) * 0x40 + tail_bits c) * 0x40
                  + tail_bits d)%N :: code_points s4
            else stray a :: code_points s1
        | _ => stray a :: code_points s1
        end
      else stray a :: code_points s1
  end.

(** The digit zero of every script that has decimal digits (the category
    Nd of Unicode 14.0, which is the table of CPython 3.11); the nine other
    digits of the script follow it.  These are the characters that [\d]
    matches in a [str] pattern and that [int] reads. *)
Definition decimal_zeros : list N :=
  [ 0x30; 0x660; 0x6F0; 0x7C0; 0x966; 0x9E6; 0xA66; 0xAE6; 0xB66; 0xBE6; 0xC66;
    0xCE6; 0xD66; 0xDE6; 0xE50; 0xED0; 0xF20; 0x1040; 0x1090; 0x17E0; 0x1810;
    0x1946; 0x19D0; 0x1A80; 0x1A90; 0x1B50; 0x1BB0; 0x1C40; 0x1C50; 0xA620;
    0xA8D0; 0xA900; 0xA9D0; 0xA9F0; 0xAA50; 0xABF0; 0xFF10; 0x104A0; 0x10D30;
    0x11066; 0x110F0; 0x11136; 0x111D0; 0x112F0; 0x11450; 0x114D0; 0x11650;
    0x116C0; 0x11730; 0x118E0; 0x11950; 0x11C50; 0x11D50; 0x11DA0; 0x16A60;
    0x16AC0; 0x16B50; 0x1D7CE; 0x1D7D8; 0x1D7E2; 0x1D7EC; 0x1D7F6; 0x1E140;
    0x1E2F0; 0x1E950; 0x1FBF0 ]%N.

(** The value of a decimal digit. *)
Definition decimal_value (c : N) : option Z :=
  option_map (fun zero => Z.of_N (c - zero))
    (find (fun zero => ((zero <=? c) && (c <=? zero + 9))%N) decimal_zeros).

Definition is_decimal (c : N) : bool :=
  match decimal_value c with Some _ => true | None => false end.

Definition decimal_or_zero (c : N) : Z :=
  match decimal_value c with Some v => v | None => 0 end.

Fixpoint int_of_digits (acc : Z) (digits : list N) : Z :=
  match digits with
  | [] => acc
  | c :: digits' => int_of_digits (10 * acc + decimal_or_zero c) digits'
  end.

(** [sys.get_int_max_str_digits()], as the interpreter starts: the longest
    string of digits that [int] converts (CPython 3.11, and the earlier
    releases that took the limit over). *)
Definition int_max_str_digits : Z := 4300.

(** [int(s)] for a string of decimal digits, which is all the parser feeds
    it; anything else raises [ValueError], and so does a string of more
    digits than the limit.  Integers themselves are unbounded. *)
Definition py_int (digits : list N) : exc Z :=
  match digits with
  | [] => Raise ValueError
  | _ =>
      if forallb is_decimal digits then
        if (Z.of_nat (length digits) <=? int_max_str_digits)%Z
        then Ok (int_of_digits 0 digits)
        else Raise ValueError
      else Raise ValueError
  end.

(** A character on which [lower] and [strip] above do what Python does:
    an ASCII character, or one of the blocks of Chinese text, none of
    which has a case or is white space: general punctuation from U+2010 to
    U+2027, U+3001 to U+9FFF (punctuation, kana, ideographs), and the
    full-width forms other than the capitals (U+FF01 to U+FF20, U+FF3B to
    U+FFEF). *)
Definition plain_point (c : N) : bool :=
  ((c <? 0x80)
   || ((0x2010 <=? c) && (c <=? 0x2027))
   || ((0x3001 <=? c) && (c <=? 0x9FFF))
   || ((0xFF01 <=? c) && (c <=? 0xFF20))
   || ((0xFF3B <=? c) && (c <=? 0xFFEF)))%N.

(** A text of such characters: on it [s.lower()] is [lower s] and
    [s.strip()] is [strip s]. *)
Definition plain (s : string) : bool := forallb plain_point (code_points s).

(** [str(z)] for an integer. *)
Definition str_of_Z (z : Z) : string := NilZero.string_of_int (Z.to_int z).

(** [repr(s)] for a string: single quotes unless the string has a single
    quote and no double quote; backslash, the chosen quote, tab, newline
    and carriage return escaped.  Other control characters, which CPython
    writes as hexadecimal escapes, are kept verbatim here, and so is every
    non-ASCII byte. *)
Fixpoint escape (q : ascii) (s : string) : string :=
  match s with
  | EmptyString => EmptyString
  | String c s' =>
      let rest := escape q s' in
      if Ascii.eqb c "\" then String "\" (String "\" rest)
      else if Ascii.eqb c q then String "\" (String c rest)
      else if Ascii.eqb c "009" then String "\" (String "t" rest)
      else if Ascii.eqb c "010" then String "\" (String "n" rest)
      else if Ascii.eqb c "013" then String "\" (String "r" rest)
      else String c rest
  end.

Definition repr_str (s : string) : string :=
  let dq : ascii := ascii_of_nat 34 in
  let q : ascii :=
    if contains "'" s && negb (contains (String dq EmptyString) s)
    then dq else "'"%char in
  String q (escape q s ++ String q EmptyString)%string.

(** [repr(v)] *)
Fixpoint py_repr (v : pyval) : string :=
  match v with
  | PNone => "None"
  | PBool true => "True"
  | PBool false => "False"
  | PInt z => str_of_Z z
  | PStr s => repr_str s
  | PList l => ("[" ++ join ", " (map py_repr l) ++ "]")%string
  | PDict d =>
      ("{" ++ join ", "
                (map (fun kv => repr_str (fst kv) ++ ": " ++ py_repr (snd kv)) d)
           ++ "}")%string
  end.

(** [str(v)], which is what an f-string field [{v}] inserts. *)
Definition py_str (v : pyval) : string :=
  match v with
  | PStr s => s
  | _ => py_repr v
  end.

(** Truth value of a value in a condition. *)
Definition py_truthy (v : pyval) : bool :=
  match v with
  | PNone => false
  | PBool b => b
  | PInt z => negb (z =? 0)%Z
  | PStr s => match s with EmptyString => false | _ => true end
  | PList l => match l with [] => false | _ => true end
  | PDict d => match d with [] => false | _ => true end
  end.

(** [v == s] for a string [s]. *)
Definition py_eq_str (v : pyval) (s : string) : bool :=
  match v with
  | PStr t => String.eqb t s
  | _ => false
  end.

(** The integer a value is, if any; [bool] is a subclass of [int]. *)
Definition as_int (v : pyval) : option Z :=
  match v with
  | PInt z => Some z
  | PBool b => Some (if b then 1 else 0)%Z
  | _ => None
  end.

(** [isinstance(v, int)] *)
Definition is_int (v : pyval) : bool :=
  match as_int v with Some _ => true | None => false end.

(** [v.get(k, default)] *)
Definition py_get (v : pyval) (k : string) (default : pyval) : exc pyval :=
  match v with
  | PDict d => Ok (match dict_get k d with Some x => x | None => default end)
  | _ => Raise AttributeError
  end.

(** [k in v] for a string [k] *)
Definition py_contains (k : string) (v : pyval) : exc bool :=
  match v with
  | PDict d => Ok (dict_mem k d)
  | PList l => Ok (existsb (fun x => py_eq_str x k) l)
  | PStr s => Ok (contains k s)
  | _ => Raise TypeError
  end.

(** [v[k]] for a string [k] *)
Definition py_getitem (v : pyval) (k : string) : exc pyval :=
  match v with
  | PDict d => dict_getitem k d
  | _ => Raise TypeError
  end.

(** [v[k] = x] for a string [k] *)
Definition py_setitem (v : pyval) (k : string) (x : pyval) : exc pyval :=
  match v with
  | PDict d => Ok (PDict (dict_set k x d))
  | _ => Raise TypeError
  end.

(** [del v[k]] for a string [k] *)
Definition py_delitem (v : pyval) (k : string) : exc pyval :=
  match v with
  | PDict d => d' <- dict_del k d ;; Ok (PDict d')
  | _ => Raise TypeError
  end.

(** [v.items()] *)
Definition py_items (v : pyval) : exc (list (string * pyval)) :=
  match v with
  | PDict d => Ok d
  | _ => Raise AttributeError
  end.

(** *** Ordering and [list.sort] *)

(** [a < b]: numbers with numbers, strings with strings (byte-wise, which
    on UTF-8 is the code-point order); [None], a [dict] or a mixed pair
    raises [TypeError].  Python also orders lists element by element; that
    is left out and reported as [TypeError]. *)
Definition py_lt (a b : pyval) : exc bool :=
  match as_int a, as_int b with
  | Some x, Some y => Ok (x <? y)%Z
  | _, _ =>
      match a, b with
      | PStr s, PStr t => Ok (String.ltb s t)
      | _, _ => Raise TypeError
      end
  end.

Definition comparable (a b : pyval) : bool :=
  match py_lt a b with Ok _ => true | Raise _ => false end.

Definition lt_or_false (a b : pyval) : bool :=
  match py_lt a b with Ok r => r | Raise _ => false end.

(** Stable insertion for a descending order: [x], which stood before every
    element of [l], moves right only past strictly greater keys. *)
Fixpoint insert_desc {A} (key : A -> pyval) (x : A) (l : list A) : list A :=
  match l with
  | [] => [x]
  | y :: l' =>
      if lt_or_false (key x) (key y) then y :: insert_desc key x l'
      else x :: l
  end.

Definition sort_desc {A} (key : A -> pyval) (l : list A) : list A :=
  fold_right (insert_desc key) [] l.

(** [l.sort(key=key, reverse=True)]: a stable sort into descending order.
    With fewer than two elements nothing is compared.  Otherwise every
    element takes part in a comparison, and the first one that cannot be
    ordered against its predecessors raises [TypeError]. *)
Definition py_sort_reverse {A} (key : A -> pyval) (l : list A) : exc (list A) :=
  match l with
  | [] => Ok l
  | [_] => Ok l
  | x :: _ =>
      if forallb (fun y => comparable (key x) (key y)) l
      then Ok (sort_desc key l)
      else Raise TypeError
  end.

(** [max(l, key=key)] after its first element [best] has been taken: a
    later element wins only with a strictly greater key. *)
Fixpoint max_from {A} (key : A -> nat) (best : A) (l : list A) : A :=
  match l with
  | [] => best
  | x :: l' => max_from key (if (key best <? key x)%nat then x else best) l'
  end.

(** [max(l, key=key)]; [ValueError] on an empty sequence. *)
Definition py_max {A} (key : A -> nat) (l : list A) : exc A :=
  match l with
  | [] => Raise ValueError
  | x :: l' => Ok (max_from key x l')
  end.

(** *** Methods: state and exceptions

    A method runs on the object's state and returns or raises; what it
    wrote before raising stays written. *)
Definition M (S A : Type) : Type := S -> exc A * S.

Definition ret {S A} (a : A) : M S A := fun s => (Ok a, s).

Definition bindM {S A B} (m : M S A) (f : A -> M S B) : M S B :=
  fun s =>
    match m s with
    | (Ok a, s') => f a s'
    | (Raise e, s') => (Raise e, s')
    end.

Definition get {S} : M S S := fun s => (Ok s, s).

Definition put {S} (s' : S) : M S unit := fun _ => (Ok tt, s').

Definition lift {S A} (m : exc A) : M S A := fun s => (m, s).

(** [try: body  except Exception: handler] *)
Definition try_except {S A} (body : M S A) (handler : exn -> M S A) : M S A :=
  fun s =>
    match body s with
    | (Ok a, s') => (Ok a, s')
    | (Raise e, s') => handler e s'
    end.

(** [for x in l: body(x)] *)
Fixpoint for_each {S A} (l : list A) (body : A -> M S unit) : M S unit :=
  match l with
  | [] => ret tt
  | x :: l' => bindM (body x) (fun _ => for_each l' body)
  end.

Notation "x <~ m ;; k" := (bindM m (fun x => k))
  (at level 61, m at next level, right associativity).
Notation "m ;;; k" := (bindM m (fun _ => k))
  (at level 61, right associativity).

End Py.

(* ================================================================== *)
(** ** QueryParser (src/voice_query_system.py) *)
(* ================================================================== *)

Module QueryParser.
Import Py.

(** The dictionary [parse_query] builds and returns.  The confidence is
    kept as the exact sum of the decimal constants of the source; the
    source holds it as a float, the sum rounded at each step. *)
Record ParseResult : Type := mkResult {
  sport : option string;
  query_type : option string;
  parameters : dict pyval;
  confidence : Q;
  original_text : string
}.

Definition set_sport (s : string) (r : ParseResult) : ParseResult :=
  mkResult (Some s) (query_type r) (parameters r) (confidence r) (original_text r).

Definition set_query_type (q : string) (r : ParseResult) : ParseResult :=
  mkResult (sport r) (Some q) (parameters r) (confidence r) (original_text r).

Definition set_parameters (p : dict pyval) (r : ParseResult) : ParseResult :=
  mkResult (sport r) (query_type r) p (confidence r) (original_text r).

Definition set_confidence (c : Q) (r : ParseResult) : ParseResult :=
  mkResult (sport r) (query_type r) (parameters r) c (original_text r).

(** [max(a, b)] on two numbers: [b] only when it is strictly greater. *)
Definition max2 (a b : Q) : Q := if Qle_bool b a then a else b.

(** *** The fixed tables of [__init__] *)

Definition sport_keywords : dict (list string) :=
  [ ("f1", ["f1"; "F1"; "一级方程式"; "赛车"; "车手"; "车队"; "积分榜"; "比赛结果"; "排位赛"]);
    ("football", ["足球"; "英超"; "西甲"; "德甲"; "意甲"; "法甲"; "联赛"; "积分榜"; "比赛";
                  "球队"; "射手榜"]);
    ("nba", ["nba"; "NBA"; "篮球"; "球队"; "球员"; "赛程"; "湖人"; "勇士"; "凯尔特人";
             "库里"; "詹姆斯"; "杜兰特"]) ].

Definition query_types : dict (list string) :=
  [ ("schedule", ["赛程"; "比赛安排"; "日程"; "时间表"]);
    ("standings", ["积分榜"; "排名"; "排行榜"; "榜单"]);
    ("results", ["结果"; "比分"; "成绩"]);
    ("teams", ["球队"; "队伍"; "车队"]);
    ("players", ["球员"; "车手"; "选手"; "名单"; "阵容"]);
    ("today", ["今天"; "今日"; "当天"]);
    ("live", ["实时"; "直播"; "现场"]);
    ("top_scorers", ["射手榜"; "射手"; "进球榜"; "得分榜"]);
    ("player_stats", ["数据"; "统计"; "表现"]) ].

Definition player_names : dict (dict string) :=
  [ ("nba",
     [ ("库里", "Stephen Curry"); ("斯蒂芬库里", "Stephen Curry");
       ("詹姆斯", "LeBron James"); ("勒布朗詹姆斯", "LeBron James");
       ("杜兰特", "Kevin Durant"); ("凯文杜兰特", "Kevin Durant");
       ("字母哥", "Giannis Antetokounmpo"); ("安特托昆博", "Giannis Antetokounmpo");
       ("东契奇", "Luka Doncic"); ("卢卡东契奇", "Luka Doncic");
       ("塔图姆", "Jayson Tatum"); ("杰森塔图姆", "Jayson Tatum");
       ("约基奇", "Nikola Jokic"); ("尼古拉约基奇", "Nikola Jokic");
       ("恩比德", "Joel Embiid"); ("乔尔恩比德", "Joel Embiid") ]) ].

Definition team_names : dict (dict pyval) :=
  [ ("nba",
     [ ("湖人", PStr "Lakers"); ("湖人队", PStr "Lakers"); ("洛杉矶湖人", PStr "Lakers");
       ("勇士", PStr "Warriors"); ("勇士队", PStr "Warriors"); ("金州勇士", PStr "Warriors");
       ("凯尔特人", PStr "Celtics"); ("凯尔特人队", PStr "Celtics");
       ("波士顿凯尔特人", PStr "Celtics");
       ("公牛", PStr "Bulls"); ("公牛队", PStr "Bulls"); ("芝加哥公牛", PStr "Bulls");
       ("热火", PStr "Heat"); ("热火队", PStr "Heat"); ("迈阿密热火", PStr "Heat");
       ("马刺", PStr "Spurs"); ("马刺队", PStr "Spurs"); ("圣安东尼奥马刺", PStr "Spurs");
       ("火箭", PStr "Rockets"); ("火箭队", PStr "Rockets"); ("休斯顿火箭", PStr "Rockets");
       ("雷霆", PStr "Thunder"); ("雷霆队", PStr "Thunder");
       ("俄克拉荷马雷霆", PStr "Thunder");
       ("快船", PStr "Clippers"); ("快船队", PStr "Clippers"); ("洛杉矶快船", PStr "Clippers");
       ("尼克斯", PStr "Knicks"); ("尼克斯队", PStr "Knicks"); ("纽约尼克斯", PStr "Knicks");
       ("篮网", PStr "Nets"); ("篮网队", PStr "Nets"); ("布鲁克林篮网", PStr "Nets");
       ("76人", PStr "76ers"); ("76人队", PStr "76ers"); ("费城76人", PStr "76ers");
       ("雄鹿", PStr "Bucks"); ("雄鹿队", PStr "Bucks"); ("密尔沃基雄鹿", PStr "Bucks") ]);
    ("football",
     [ ("英超", PInt 2021); ("西甲", PInt 2014); ("德甲", PInt 2002);
       ("意甲", PInt 2019); ("法甲", PInt 2015) ]) ].

(** *** Regular expressions

    The patterns are matched against the code points of the text. *)

(** [l] without the prefix [p], when it has it. *)
Fixpoint strip_prefix (p l : list N) : option (list N) :=
  match p, l with
  | [], _ => Some l
  | a :: p', b :: l' => if (a =? b)%N then strip_prefix p' l' else None
  | _ :: _, [] => None
  end.

(** The longest run of decimal digits at the head of [l], and what
    follows. *)
Fixpoint span_digits (l : list N) : list N * list N :=
  match l with
  | [] => ([], [])
  | c :: l' =>
      if is_decimal c
      then let (ds, rest) := span_digits l' in (c :: ds, rest)
      else ([], l)
  end.

(** [(\d{4})年?] anchored at the head of [l]: group 1. *)
Definition match_year (l : list N) : option (list N) :=
  match l with
  | a :: b :: c :: d :: _ =>
      if is_decimal a && is_decimal b && is_decimal c && is_decimal d
      then Some [a; b; c; d]
      else None
  | _ => None
  end.

(** [(\d+)轮] anchored at the head of [l]: group 1.  The run of digits is
    the whole run, since the character after it must be [轮]. *)
Definition match_digits_round (l : list N) : option (list N) :=
  let (ds, rest) := span_digits l in
  match ds with
  | [] => None
  | _ =>
      match strip_prefix (code_points "轮") rest with
      | Some _ => Some ds
      | None => None
      end
  end.

(** [第?(\d+)轮] anchored at the head of [l]: group 1. *)
Definition match_round (l : list N) : option (list N) :=
  match strip_prefix (code_points "第") l with
  | Some l' =>
      match match_digits_round l' with
      | Some g => Some g
      | None => match_digits_round l
      end
  | None => match_digits_round l
  end.

(** [re.search]: the match at the leftmost position that has one. *)
Fixpoint re_search (anchored : list N -> option (list N)) (l : list N)
    : option (list N) :=
  match anchored l with
  | Some g => Some g
  | None =>
      match l with
      | [] => None
      | _ :: l' => re_search anchored l'
      end
  end.

(** *** Keyword scoring *)

(** [sum(1 for keyword in keywords if norm(keyword) in text)] *)
Definition count_keywords (norm : string -> string) (keywords : list string)
    (text : string) : nat :=
  length (filter (fun keyword => contains (norm keyword) text) keywords).

(** The loop that fills [sport_scores] (and [query_scores]): the names with
    a positive score, in the order of the table. *)
Definition score_table (norm : string -> string) (table : dict (list string))
    (text : string) : dict nat :=
  fold_left
    (fun scores entry =>
       let score := count_keywords norm (snd entry) text in
       if (0 <? score)%nat then dict_set (fst entry) score scores else scores)
    table [].

(** [scores.get(k)], an integer for every key of [scores]. *)
Definition score_of (scores : dict nat) (k : string) : nat :=
  match dict_get k scores with Some n => n | None => 0%nat end.

(** [max(scores, key=scores.get)] *)
Definition best_key (scores : dict nat) : exc string :=
  py_max (score_of scores) (keys scores).

Definition id_norm (s : string) : string := s.

(** Lines 180-189. *)
Definition detect_sport (text : string) (result : ParseResult) : exc ParseResult :=
  let sport_scores := score_table lower sport_keywords text in
  match sport_scores with
  | [] => Ok result
  | _ =>
      s <- best_key sport_scores ;;
      Ok (set_confidence (confidence result + (3 # 10))%Q (set_sport s result))
  end.

(** Lines 191-200. *)
Definition detect_query_type (text : string) (result : ParseResult) : exc ParseResult :=
  let query_scores := score_table id_norm query_types text in
  match query_scores with
  | [] => Ok result
  | _ =>
      q <- best_key query_scores ;;
      Ok (set_confidence (confidence result + (3 # 10))%Q (set_query_type q result))
  end.

Definition stat_words : list string :=
  ["得分"; "数据"; "统计"; "表现"; "平均"; "场均"].

(** [sport in table] for the value of [result['sport']], which may be
    [None]. *)
Definition sport_in {A} (s : option string) (table : dict A) : bool :=
  match s with
  | Some name => dict_mem name table
  | None => false
  end.

(** [table[sport]] *)
Definition sport_getitem {A} (s : option string) (table : dict A) : exc A :=
  match s with
  | Some name => dict_getitem name table
  | None => Raise KeyError
  end.

(** Lines 202-212: the first player alias found in the text decides. *)
Definition player_override (text : string) (result : ParseResult) : exc ParseResult :=
  if sport_in (sport result) player_names then
    names <- sport_getitem (sport result) player_names ;;
    match find (fun player_cn => contains player_cn text) (keys names) with
    | Some _ =>
        let q :=
          if existsb (fun keyword => contains keyword text) stat_words
          then "player_stats" else "players" in
        Ok (set_confidence (max2 (confidence result) (8 # 10)%Q) (set_query_type q result))
    | None => Ok result
    end
  else Ok result.

(** [sport == name] for a value that may be [None]. *)
Definition sport_eq (s : option string) (name : string) : bool :=
  match s with
  | Some s' => String.eqb s' name
  | None => false
  end.

Definition sport_is (name : string) (result : ParseResult) : bool :=
  sport_eq (sport result) name.

(** Lines 214-217. *)
Definition football_scorers_rule (text : string) (result : ParseResult) : ParseResult :=
  if sport_is "football" result && (contains "射手" text || contains "进球" text)
  then set_confidence (max2 (confidence result) (7 # 10)%Q)
         (set_query_type "top_scorers" result)
  else result.

(** Lines 219-222. *)
Definition f1_teams_rule (text : string) (result : ParseResult) : ParseResult :=
  if sport_is "f1" result && contains "车队" text && contains "积分榜" text
  then set_confidence (max2 (confidence result) (9 # 10)%Q) (set_query_type "teams" result)
  else result.

(** Lines 224-227. *)
Definition f1_drivers_rule (text : string) (result : ParseResult) : ParseResult :=
  if sport_is "f1" result && contains "车手" text && contains "积分榜" text
  then set_confidence (max2 (confidence result) (9 # 10)%Q)
         (set_query_type "standings" result)
  else result.

(** [_extract_parameters] *)
Definition _extract_parameters (text : string) (sport : option string)
    : exc (dict pyval) :=
  let params : dict pyval := [] in
  params <-
    match re_search match_year (code_points text) with
    | Some g => y <- py_int g ;; Ok (dict_set "year" (PInt y) params)
    | None => Ok params
    end ;;
  params <-
    (if sport_in sport player_names then
       names <- sport_getitem sport player_names ;;
       match find (fun kv => contains (fst kv) text) names with
       | Some (_, player_en) => Ok (dict_set "player" (PStr player_en) params)
       | None => Ok params
       end
     else Ok params) ;;
  params <-
    (if sport_in sport team_names then
       names <- sport_getitem sport team_names ;;
       match find (fun kv => contains (fst kv) text) names with
       | Some (_, team_en) =>
           if sport_eq sport "football" && is_int team_en
           then Ok (dict_set "league_id" team_en params)
           else Ok (dict_set "team" team_en params)
       | None => Ok params
       end
     else Ok params) ;;
  match re_search match_round (code_points text) with
  | Some g => n <- py_int g ;; Ok (dict_set "round" (PInt n) params)
  | None => Ok params
  end.

(** Lines 229-232. *)
Definition add_parameter_bonus (result : ParseResult) : ParseResult :=
  match parameters result with
  | [] => result
  | _ => set_confidence (confidence result + (4 # 10))%Q result
  end.

(** [text.lower().strip()]; what [lower] and [strip] leave out beyond
    ASCII shows in [original_text] only, and not on a [plain] text. *)
Definition normalize (text : string) : string := strip (lower text).

Definition initial_result (text : string) : ParseResult :=
  mkResult None None [] 0%Q text.

(** [parse_query] up to the rule for the F1 drivers' standings
    (lines 169-222), on the normalized text. *)
Definition recognise (text : string) : exc ParseResult :=
  let result := initial_result text in
  result <- detect_sport text result ;;
  result <- detect_query_type text result ;;
  result <- player_override text result ;;
  let result := football_scorers_rule text result in
  Ok (f1_teams_rule text result).

(** [parse_query] *)
Definition parse_query (text : string) : exc ParseResult :=
  let text := normalize text in
  result <- recognise text ;;
  let result := f1_drivers_rule text result in
  params <- _extract_parameters text (sport result) ;;
  Ok (add_parameter_bonus (set_parameters params result)).

End QueryParser.

(* ================================================================== *)
(** ** QueryCache (src/query_cache.py) *)
(* ================================================================== *)

Module QueryCache.
Import Py.

(** A [datetime]: an instant in microseconds, and whether it carries a UTC
    offset.  [datetime.now()] has none. *)
Record datetime : Type := mkDatetime {
  aware : bool;
  micros : Z
}.

(** [a < b]: a [datetime] with an offset cannot be compared with one
    without. *)
Definition dt_lt (a b : datetime) : exc bool :=
  if Bool.eqb (aware a) (aware b) then Ok (micros a <? micros b)%Z
  else Raise TypeError.

(** [t - timedelta(days=n)] *)
Definition minus_days (t : datetime) (n : Z) : datetime :=
  mkDatetime (aware t) (micros t - n * 86400000000)%Z.

(** The option dictionaries that [get_available_options] returns. *)
Record OptionView : Type := mkOption {
  value : pyval;
  label : string;
  cache_key : string;
  original_text : pyval;
  timestamp : pyval
}.

(** The store of a new cache (and of a cleared one). *)
Definition empty_cache (now : string) : dict pyval :=
  [ ("f1", PDict []);
    ("football", PDict []);
    ("nba", PDict []);
    ("metadata", PDict [("last_updated", PStr now); ("version", PStr "1.0")]) ].

Definition sports : list string := ["f1"; "football"; "nba"].

Definition key_params : list string := ["league_id"; "team"; "year"; "round"].

(** [_generate_cache_key] *)
Definition _generate_cache_key (query_type : string) (parameters : dict pyval) : string :=
  let key_parts :=
    fold_left
      (fun key_parts param =>
         match dict_get param parameters with
         | Some v => key_parts ++ [(param ++ "_" ++ py_str v)%string]
         | None => key_parts
         end)
      key_params [query_type] in
  join "_" key_parts.

Definition league_names : list (Z * string) :=
  [ (2021, "英超"); (2014, "西甲"); (2002, "德甲"); (2019, "意甲");
    (2015, "法甲"); (2017, "葡超"); (2003, "荷甲"); (2013, "巴甲") ]%Z.

Fixpoint assoc_Z (z : Z) (l : list (Z * string)) : option string :=
  match l with
  | [] => None
  | (z', s) :: l' => if (z =? z')%Z then Some s else assoc_Z z l'
  end.

(** [_get_league_name]: a list or a dictionary cannot be looked up in a
    dictionary ([TypeError]); a number is found by its value. *)
Definition _get_league_name (league_id : pyval) : exc string :=
  let default := ("联赛" ++ py_str league_id)%string in
  match league_id with
  | PList _ | PDict _ => Raise TypeError
  | _ =>
      match as_int league_id with
      | Some z => Ok (match assoc_Z z league_names with Some n => n | None => default end)
      | None => Ok default
      end
  end.

(** The body of the loop of [get_available_options] for one entry: the
    option it appends, if any. *)
Definition option_of (sport query_type : string) (current_year : Z)
    (item : string * pyval) : exc (list OptionView) :=
  let (cache_key, cache_entry) := item in
  qt <- py_get cache_entry "query_type" PNone ;;
  if py_eq_str qt query_type then
    success <- py_get cache_entry "success" PNone ;;
    if py_truthy success then
      parameters <- py_get cache_entry "parameters" (PDict []) ;;
      if String.eqb query_type "standings" && String.eqb sport "football" then
        league_id <- py_get parameters "league_id" PNone ;;
        if py_truthy league_id then
          league_name <- _get_league_name league_id ;;
          original <- py_get cache_entry "original_text" (PStr EmptyString) ;;
          ts <- py_get cache_entry "timestamp" PNone ;;
          Ok [mkOption league_id league_name cache_key original ts]
        else Ok []
      else if String.eqb query_type "schedule" && String.eqb sport "nba" then
        team <- py_get parameters "team" PNone ;;
        if py_truthy team then
          original <- py_get cache_entry "original_text" (PStr EmptyString) ;;
          ts <- py_get cache_entry "timestamp" PNone ;;
          Ok [mkOption team (py_str team ++ " 赛程")%string cache_key original ts]
        else Ok []
      else if String.eqb query_type "standings" && String.eqb sport "f1" then
        year <- py_get parameters "year" (PInt current_year) ;;
        original <- py_get cache_entry "original_text" (PStr EmptyString) ;;
        ts <- py_get cache_entry "timestamp" PNone ;;
        Ok [mkOption (PStr ("f1_" ++ py_str year)%string)
              (py_str year ++ "年 F1积分榜")%string cache_key original ts]
      else Ok []
    else Ok []
  else Ok [].

Definition add_option (sport query_type : string) (current_year : Z)
    (options : list OptionView) (item : string * pyval) : exc (list OptionView) :=
  new <- option_of sport query_type current_year item ;;
  Ok (options ++ new).

(** The options before they are sorted (lines 172-214). *)
Definition collect_options (cache_data : dict pyval) (sport query_type : string)
    (current_year : Z) : exc (list OptionView) :=
  if dict_mem sport cache_data then
    slot <- dict_getitem sport cache_data ;;
    items <- py_items slot ;;
    foldM (add_option sport query_type current_year) items []
  else Ok [].

(** [get_available_options]; [current_year] is [datetime.now().year]. *)
Definition get_available_options (cache_data : dict pyval) (sport query_type : string)
    (current_year : Z) : list OptionView :=
  match
    (options <- collect_options cache_data sport query_type current_year ;;
     py_sort_reverse timestamp options)
  with
  | Ok options => options
  | Raise _ => []
  end.

(** [get_query_result] *)
Definition get_query_result (cache_data : dict pyval) (sport cache_key : string)
    : option pyval :=
  match
    (if dict_mem sport cache_data then
       slot <- dict_getitem sport cache_data ;;
       present <- py_contains cache_key slot ;;
       if present then
         slot <- dict_getitem sport cache_data ;;
         entry <- py_getitem slot cache_key ;;
         Ok (Some entry)
       else Ok None
     else Ok None)
  with
  | Ok r => r
  | Raise _ => None
  end.

(** [_save_cache], for what it does to the store: it stamps the metadata
    and writes the file; a failure of either is logged and nothing more.
    [now] is [datetime.now().isoformat()]. *)
Definition _save_cache (now : string) : M (dict pyval) unit :=
  try_except
    (cache_data <~ get ;;
     metadata <~ lift (dict_getitem "metadata" cache_data) ;;
     metadata <~ lift (py_setitem metadata "last_updated" (PStr now)) ;;
     put (dict_set "metadata" metadata cache_data))
    (fun _ => ret tt).

(** The entry [store_query_result] builds. *)
Definition make_entry (query_type : string) (parameters result_data : dict pyval)
    (original_text now : string) : pyval :=
  PDict
    [ ("query_type", PStr query_type);
      ("parameters", PDict parameters);
      ("result_data", PDict result_data);
      ("original_text", PStr original_text);
      ("timestamp", PStr now);
      ("success",
       match dict_get "success" result_data with
       | Some v => v
       | None => PBool false
       end) ].

(** [store_query_result]; [now] and [now_save] are the two readings of the
    clock, for the entry and for the metadata.  The result is the key, or
    [None] after an exception. *)
Definition store_query_result (sport query_type : string)
    (parameters result_data : dict pyval) (original_text now now_save : string)
    : M (dict pyval) (option string) :=
  try_except
    (let cache_key := _generate_cache_key query_type parameters in
     let cache_entry := make_entry query_type parameters result_data original_text now in
     cache_data <~ get ;;
     (if negb (dict_mem sport cache_data)
      then put (dict_set sport (PDict []) cache_data)
      else ret tt) ;;;
     cache_data <~ get ;;
     slot <~ lift (dict_getitem sport cache_data) ;;
     slot <~ lift (py_setitem slot cache_key cache_entry) ;;
     put (dict_set sport slot cache_data) ;;;
     _save_cache now_save ;;;
     ret (Some cache_key))
    (fun _ => ret None).

(** [clear_cache]; an absent or empty [sport] clears everything. *)
Definition clear_cache (sport : option string) (now now_save : string)
    : M (dict pyval) unit :=
  try_except
    (match sport with
     | Some (String c s) =>
         let sport := String c s in
         cache_data <~ get ;;
         if dict_mem sport cache_data
         then put (dict_set sport (PDict []) cache_data)
         else ret tt
     | _ => put (empty_cache now)
     end ;;;
     _save_cache now_save)
    (fun _ => ret tt).

Section Loading.

(** [datetime.fromisoformat] on a string: the instant it denotes, or
    nothing when it raises [ValueError]. *)
Variable fromisoformat : string -> option datetime.

Definition py_fromisoformat (v : pyval) : exc datetime :=
  match v with
  | PStr s =>
      match fromisoformat s with
      | Some t => Ok t
      | None => Raise ValueError
      end
  | _ => Raise TypeError
  end.

(** Lines 88-94: whether the loop puts the key of [value] among the
    expired ones. *)
Definition is_expired (cutoff_time : datetime) (value : pyval) : bool :=
  match value with
  | PDict entry =>
      if dict_mem "timestamp" entry then
        match
          (ts <- dict_getitem "timestamp" entry ;;
           item_time <- py_fromisoformat ts ;;
           dt_lt item_time cutoff_time)
        with
        | Ok older => older
        | Raise _ => true
        end
      else false
  | _ => false
  end.

(** [_clean_expired_data], on [data] as its state; [now] is
    [datetime.now()]. *)
Definition _clean_expired_data (now : datetime) (max_age_days : Z)
    : M (dict pyval) unit :=
  try_except
    (let cutoff_time := minus_days now max_age_days in
     for_each sports (fun sport =>
       data <~ get ;;
       if dict_mem sport data then
         slot <~ lift (dict_getitem sport data) ;;
         items <~ lift (py_items slot) ;;
         let expired_keys :=
           map fst (filter (fun kv => is_expired cutoff_time (snd kv)) items) in
         for_each expired_keys (fun key =>
           data <~ get ;;
           slot <~ lift (dict_getitem sport data) ;;
           slot <~ lift (py_delitem slot key) ;;
           put (dict_set sport slot data))
       else ret tt))
    (fun _ => ret tt).

(** [_load_cache]; [file] is what reading the cache file gives: nothing
    when there is no file, an exception when it cannot be read or decoded,
    else the decoded document, a JSON object as the annotation
    [Dict[str, Any]] has it. *)
Definition _load_cache (file : option (exc (dict pyval))) (now : datetime)
    (now_iso : string) : dict pyval :=
  match file with
  | Some (Ok data) => snd (_clean_expired_data now 7 data)
  | Some (Raise _) => empty_cache now_iso
  | None => empty_cache now_iso
  end.

End Loading.

(** *** A reader of ISO timestamps

    [datetime.fromisoformat] on the strings that [isoformat()] writes:
    [YYYY-MM-DDTHH:MM:SS], then optionally a fraction of six digits, then
    optionally a UTC offset [+HH:MM] or [-HH:MM].  It serves to run the
    cache on concrete documents; the lemmas hold for any reader. *)

(** [n] decimal digits at the head of [s]: their value and the rest. *)
Fixpoint take_number (n : nat) (acc : Z) (s : string) : option (Z * string) :=
  match n with
  | O => Some (acc, s)
  | S n' =>
      match s with
      | String c s' =>
          if is_digit c then take_number n' (10 * acc + digit_val c)%Z s' else None
      | EmptyString => None
      end
  end.

Definition expect (c : ascii) (s : string) : option string :=
  match s with
  | String c' s' => if Ascii.eqb c c' then Some s' else None
  | EmptyString => None
  end.

Definition is_leap (y : Z) : bool :=
  ((y mod 4 =? 0) && negb (y mod 100 =? 0) || (y mod 400 =? 0))%Z.

Definition days_in_month (y m : Z) : Z :=
  (if m =? 2 then (if is_leap y then 29 else 28)
   else if (m =? 4) || (m =? 6) || (m =? 9) || (m =? 11) then 30 else 31)%Z.

(** Days from 1970-01-01 to the given date of the Gregorian calendar. *)
Definition days_from_civil (y m d : Z) : Z :=
  (let y' := if m <=? 2 then y - 1 else y in
   let era := y' / 400 in
   let yoe := y' - era * 400 in
   let mp := if 2 <? m then m - 3 else m + 9 in
   let doy := (153 * mp + 2) / 5 + d - 1 in
   let doe := yoe * 365 + yoe / 4 - yoe / 100 + doy in
   era * 146097 + doe - 719468)%Z.

Definition opt_bind {A B} (o : option A) (f : A -> option B) : option B :=
  match o with
  | Some a => f a
  | None => None
  end.

Definition fromisoformat_basic (s : string) : option datetime :=
  opt_bind (take_number 4 0 s) (fun '(y, s) =>
  opt_bind (expect "-" s) (fun s =>
  opt_bind (take_number 2 0 s) (fun '(mo, s) =>
  opt_bind (expect "-" s) (fun s =>
  opt_bind (take_number 2 0 s) (fun '(d, s) =>
  opt_bind (expect "T" s) (fun s =>
  opt_bind (take_number 2 0 s) (fun '(h, s) =>
  opt_bind (expect ":" s) (fun s =>
  opt_bind (take_number 2 0 s) (fun '(mi, s) =>
  opt_bind (expect ":" s) (fun s =>
  opt_bind (take_number 2 0 s) (fun '(sec, s) =>
  opt_bind
    (match expect "." s with
     | Some s' => take_number 6 0 s'
     | None => Some (0%Z, s)
     end) (fun '(us, s) =>
  if ((1 <=? y) && (1 <=? mo) && (mo <=? 12) && (1 <=? d) && (d <=? days_in_month y mo)
      && (h <? 24) && (mi <? 60) && (sec <? 60))%Z
  then
    let local :=
      ((((days_from_civil y mo d * 24 + h) * 60 + mi) * 60 + sec) * 1000000 + us)%Z in
    match s with
    | EmptyString => Some (mkDatetime false local)
    | String sign s' =>
        if Ascii.eqb sign "+" || Ascii.eqb sign "-" then
          opt_bind (take_number 2 0 s') (fun '(oh, s) =>
          opt_bind (expect ":" s) (fun s =>
          opt_bind (take_number 2 0 s) (fun '(om, s) =>
          match s with
          | EmptyString =>
              if ((oh <? 24) && (om <? 60))%Z then
                let off := ((oh * 60 + om) * 60000000)%Z in
                Some (mkDatetime true
                        (if Ascii.eqb sign "+" then local - off else local + off)%Z)
              else None
          | _ => None
          end)))
        else None
    end
  else None)))))))))))).

End QueryCache.

(* ================================================================== *)
(** ** VoiceQuerySystem (src/voice_query_system.py) *)
(* ================================================================== *)

Module VoiceQuerySystem.
Import Py QueryParser.

(** What a call of a backend method gives: the value it returns, or, when
    it raises an [Exception], the [str] of that exception. *)
Inductive outcome : Type :=
| Returned (data : pyval)
| Raised (message : string).

(** The methods of the three backends that the queries call.  A method is
    a function of its arguments: one query calls one method, once. *)
Record F1DataAPI : Type := {
  get_current_season_schedule : outcome;
  get_driver_standings : pyval -> outcome;
  get_constructor_standings : pyval -> outcome;
  get_race_results : pyval -> pyval -> outcome
}.

Record FootballDataAPI : Type := {
  get_today_matches : outcome;
  get_standings : pyval -> pyval -> outcome;
  get_top_scorers : pyval -> pyval -> outcome;
  get_live_matches : outcome
}.

Record NBADataAPI : Type := {
  get_teams : outcome;
  get_league_standings : outcome;
  get_team_schedule_by_name : pyval -> outcome;
  get_team_players : pyval -> outcome;
  get_player_stats_by_name : pyval -> pyval -> outcome
}.

(** The three attributes [f1_api], [football_api], [nba_api]; one is
    [None] when [_init_apis] failed before setting it. *)
Record Backends : Type := {
  f1_api : option F1DataAPI;
  football_api : option FootballDataAPI;
  nba_api : option NBADataAPI
}.

(** [{"success": False, "error": message}] *)
Definition failure (message : string) : pyval :=
  PDict [("success", PBool false); ("error", PStr message)].

(** [try: return call  except Exception as e: return failure(str(e))] *)
Definition guarded (call : outcome) : pyval :=
  match call with
  | Returned data => data
  | Raised message => failure message
  end.

(** [params.get(name, default)] *)
Definition param (params : dict pyval) (name : string) (default : pyval) : pyval :=
  match dict_get name params with
  | Some v => v
  | None => default
  end.

(** [query_type == name], for a query type that may be [None]. *)
Definition type_is (query_type : option string) (name : string) : bool :=
  sport_eq query_type name.

(** [_query_f1_data] *)
Definition _query_f1_data (api : option F1DataAPI) (query_type : option string)
    (params : dict pyval) : pyval :=
  match api with
  | None => failure "F1 API未初始化"
  | Some f1_api =>
      guarded
        (if type_is query_type "schedule" then get_current_season_schedule f1_api
         else if type_is query_type "standings" then
           let year := param params "year" (PInt 2023) in
           get_driver_standings f1_api year
         else if type_is query_type "teams" then
           let year := param params "year" (PInt 2023) in
           get_constructor_standings f1_api year
         else if type_is query_type "results" then
           let year := param params "year" (PInt 2023) in
           let round_num := param params "round" (PInt 1) in
           get_race_results f1_api year round_num
         else get_current_season_schedule f1_api)
  end.

(** [_query_football_data] *)
Definition _query_football_data (api : option FootballDataAPI)
    (query_type : option string) (params : dict pyval) : pyval :=
  match api with
  | None => failure "足球API未初始化"
  | Some football_api =>
      guarded
        (if type_is query_type "schedule" || type_is query_type "today"
         then get_today_matches football_api
         else if type_is query_type "standings" then
           let league_id := param params "league_id" (PInt 2021) in
           let season := param params "year" PNone in
           get_standings football_api league_id season
         else if type_is query_type "top_scorers" then
           let league_id := param params "league_id" (PInt 2021) in
           let season := param params "year" PNone in
           get_top_scorers football_api league_id season
         else if type_is query_type "live" then get_live_matches football_api
         else get_today_matches football_api)
  end.

(** [s[2:]] *)
Definition from_third (s : string) : string :=
  match s with
  | String _ (String _ rest) => rest
  | _ => EmptyString
  end.

(** The message of the [TypeError] that [season + 1] raises. *)
Definition cannot_add_one (season : pyval) : string :=
  let dq := String (ascii_of_nat 34) EmptyString in
  match season with
  | PStr _ => ("can only concatenate str (not " ++ dq ++ "int" ++ dq ++ ") to str")%string
  | PList _ => ("can only concatenate list (not " ++ dq ++ "int" ++ dq ++ ") to list")%string
  | PDict _ => "unsupported operand type(s) for +: 'dict' and 'int'"
  | _ => "unsupported operand type(s) for +: 'NoneType' and 'int'"
  end.

(** [f"{season}-{str(season+1)[2:]}" if season else None] (line 670) *)
Definition season_str (season : pyval) : outcome :=
  if py_truthy season then
    match as_int season with
    | Some z =>
        Returned (PStr (py_str season ++ "-" ++ from_third (str_of_Z (z + 1)))%string)
    | None => Raised (cannot_add_one season)
    end
  else Returned PNone.

(** [_query_nba_data] *)
Definition _query_nba_data (api : option NBADataAPI) (query_type : option string)
    (params : dict pyval) : pyval :=
  match api with
  | None => failure "NBA API未初始化"
  | Some nba_api =>
      guarded
        (let season := param params "year" PNone in
         if type_is query_type "teams" then get_teams nba_api
         else if type_is query_type "standings" then get_league_standings nba_api
         else if type_is query_type "schedule" then
           let team := param params "team" (PStr "Lakers") in
           get_team_schedule_by_name nba_api team
         else if type_is query_type "players" then
           match dict_get "player" params, dict_get "team" params with
           | Some player_name, _ =>
               Returned
                 (PDict [("success", PBool true); ("player", player_name);
                         ("message", PStr ("查询球员: " ++ py_str player_name)%string)])
           | None, Some team => get_team_players nba_api team
           | None, None => Returned (failure "请指定球队或球员名称")
           end
         else if type_is query_type "player_stats" then
           match dict_get "player" params with
           | Some player_name =>
               match season_str season with
               | Returned season_str => get_player_stats_by_name nba_api player_name season_str
               | Raised message => Raised message
               end
           | None => Returned (failure "请指定球员名称")
           end
         else get_teams nba_api)
  end.

(** [f"{sport}"] for the sport of a result *)
Definition sport_str (sport : option string) : string :=
  match sport with
  | Some s => s
  | None => "None"
  end.

(** [_execute_query]; the three functions it calls catch what their
    backend raises, so its own handler has nothing to catch. *)
Definition _execute_query (apis : Backends) (query_info : ParseResult) : pyval :=
  let sport := sport query_info in
  let query_type := query_type query_info in
  let params := parameters query_info in
  if sport_eq sport "f1" then _query_f1_data (f1_api apis) query_type params
  else if sport_eq sport "football"
       then _query_football_data (football_api apis) query_type params
  else if sport_eq sport "nba" then _query_nba_data (nba_api apis) query_type params
  else failure ("不支持的体育项目: " ++ sport_str sport)%string.

(** [query_cache.cache_data] as this class can leave it: the parser may
    give no sport, and then the result is stored under the key [None].
    That slot is kept apart from the slots of the names; where it stands
    among them is not recorded. *)
Record Cache : Type := mkCache {
  unnamed : option pyval;
  cache_data : dict pyval
}.

(** [query_cache.store_query_result] as [process_query_text] calls it:
    the sport and the query type may be [None], the result may be any
    value.  Without a query type the key cannot be joined ([TypeError]),
    and a result that is not a dictionary has no [get]
    ([AttributeError]); both happen before anything is written. *)
Definition store_result (sport query_type : option string) (parameters : dict pyval)
    (result_data : pyval) (original_text now now_save : string)
    : M Cache (option string) :=
  fun cache =>
    match query_type, result_data with
    | Some query_type, PDict result_data =>
        match sport with
        | Some sport =>
            let (key, data) :=
              QueryCache.store_query_result sport query_type parameters result_data
                original_text now now_save (cache_data cache) in
            (key, mkCache (unnamed cache) data)
        | None =>
            let cache_key := QueryCache._generate_cache_key query_type parameters in
            let cache_entry :=
              QueryCache.make_entry query_type parameters result_data original_text now in
            let slot :=
              match unnamed cache with
              | None => Ok (PDict [])
              | Some slot => Ok slot
              end in
            match (slot <- slot ;; py_setitem slot cache_key cache_entry) with
            | Ok slot =>
                (Ok (Some cache_key),
                 mkCache (Some slot)
                   (snd (QueryCache._save_cache now_save (cache_data cache))))
            | Raise _ => (Ok None, cache)
            end
        end
    | _, _ => (Ok None, cache)
    end.

(** What [process_query_text] returns: the refusal of line 504, the
    result of line 525, or the report of an exception (line 539). *)
Inductive Reply : Type :=
| Refused (text : string)
| Answered (text : string) (query_info : ParseResult) (data : pyval)
    (cache_key : option string) (timestamp : string)
| Failed (e : exn).

(** The ["success"] field of a reply. *)
Definition succeeded (r : Reply) : bool :=
  match r with
  | Answered _ _ _ _ _ => true
  | _ => false
  end.

(** The state [process_query_text] works on: the cache and
    [self.last_query_result]. *)
Record System : Type := mkSystem {
  cache : Cache;
  last_query_result : option Reply
}.

(** [confidence < 0.3] *)
Definition below_threshold (confidence : Q) : bool :=
  negb (Qle_bool (3 # 10) confidence).

(** [process_query_text]; [now] and [now_save] are the readings of the
    clock in [store_query_result], [stamp] the one of line 531. *)
Definition process_query_text (apis : Backends) (text : string)
    (now now_save stamp : string) : M System Reply :=
  fun system =>
    match parse_query text with
    | Ok query_info =>
        if below_threshold (confidence query_info) then (Ok (Refused text), system)
        else
          let query_result := _execute_query apis query_info in
          let (cache_key, cache) :=
            store_result (sport query_info) (query_type query_info)
              (parameters query_info) query_result text now now_save (cache system) in
          let cache_key :=
            match cache_key with Ok k => k | Raise _ => None end in
          let result := Answered text query_info query_result cache_key stamp in
          (Ok result, mkSystem cache (Some result))
    | Raise e => (Ok (Failed e), system)
    end.

End VoiceQuerySystem.

(* ================================================================== *)
(** ** The table of the NBA teams (src/backend/nba_team_ids.py) *)
(* ================================================================== *)

Module NbaTeamIds.
Import Py.

(** *** The tables *)

Definition ESPN_TEAM_IDS : dict Z :=
  [ ("atlanta_hawks", 1); ("boston_celtics", 2); ("brooklyn_nets", 17);
    ("charlotte_hornets", 30); ("chicago_bulls", 4); ("cleveland_cavaliers", 5);
    ("detroit_pistons", 8); ("indiana_pacers", 11); ("miami_heat", 14);
    ("milwaukee_bucks", 15); ("new_york_knicks", 18); ("orlando_magic", 19);
    ("philadelphia_76ers", 20); ("toronto_raptors", 28); ("washington_wizards", 27);
    ("denver_nuggets", 7); ("minnesota_timberwolves", 16); ("oklahoma_city_thunder", 25);
    ("portland_trail_blazers", 22); ("utah_jazz", 26); ("golden_state_warriors", 9);
    ("los_angeles_clippers", 12); ("los_angeles_lakers", 13); ("phoenix_suns", 21);
    ("sacramento_kings", 23); ("dallas_mavericks", 6); ("houston_rockets", 10);
    ("memphis_grizzlies", 29); ("new_orleans_pelicans", 3); ("san_antonio_spurs", 24) ]%Z.

Definition TEAM_FULL_NAMES : dict string :=
  [ ("atlanta_hawks", "Atlanta Hawks"); ("boston_celtics", "Boston Celtics");
    ("brooklyn_nets", "Brooklyn Nets"); ("charlotte_hornets", "Charlotte Hornets");
    ("chicago_bulls", "Chicago Bulls"); ("cleveland_cavaliers", "Cleveland Cavaliers");
    ("detroit_pistons", "Detroit Pistons"); ("indiana_pacers", "Indiana Pacers");
    ("miami_heat", "Miami Heat"); ("milwaukee_bucks", "Milwaukee Bucks");
    ("new_york_knicks", "New York Knicks"); ("orlando_magic", "Orlando Magic");
    ("philadelphia_76ers", "Philadelphia 76ers"); ("toronto_raptors", "Toronto Raptors");
    ("washington_wizards", "Washington Wizards"); ("denver_nuggets", "Denver Nuggets");
    ("minnesota_timberwolves", "Minnesota Timberwolves");
    ("oklahoma_city_thunder", "Oklahoma City Thunder");
    ("portland_trail_blazers", "Portland Trail Blazers"); ("utah_jazz", "Utah Jazz");
    ("golden_state_warriors", "Golden State Warriors");
    ("los_angeles_clippers", "Los Angeles Clippers");
    ("los_angeles_lakers", "Los Angeles Lakers"); ("phoenix_suns", "Phoenix Suns");
    ("sacramento_kings", "Sacramento Kings"); ("dallas_mavericks", "Dallas Mavericks");
    ("houston_rockets", "Houston Rockets"); ("memphis_grizzlies", "Memphis Grizzlies");
    ("new_orleans_pelicans", "New Orleans Pelicans");
    ("san_antonio_spurs", "San Antonio Spurs") ].

Definition TEAM_ABBREVIATIONS : dict string :=
  [ ("atlanta_hawks", "ATL"); ("boston_celtics", "BOS"); ("brooklyn_nets", "BKN");
    ("charlotte_hornets", "CHA"); ("chicago_bulls", "CHI"); ("cleveland_cavaliers", "CLE");
    ("detroit_pistons", "DET"); ("indiana_pacers", "IND"); ("miami_heat", "MIA");
    ("milwaukee_bucks", "MIL"); ("new_york_knicks", "NYK"); ("orlando_magic", "ORL");
    ("philadelphia_76ers", "PHI"); ("toronto_raptors", "TOR");
    ("washington_wizards", "WAS"); ("denver_nuggets", "DEN");
    ("minnesota_timberwolves", "MIN"); ("oklahoma_city_thunder", "OKC");
    ("portland_trail_blazers", "POR"); ("utah_jazz", "UTA");
    ("golden_state_warriors", "GSW"); ("los_angeles_clippers", "LAC");
    ("los_angeles_lakers", "LAL"); ("phoenix_suns", "PHX"); ("sacramento_kings", "SAC");
    ("dallas_mavericks", "DAL"); ("houston_rockets", "HOU"); ("memphis_grizzlies", "MEM");
    ("new_orleans_pelicans", "NOP"); ("san_antonio_spurs", "SAS") ].

Definition CHINESE_TEAM_NAMES : dict string :=
  [ ("湖人", "los_angeles_lakers"); ("湖人队", "los_angeles_lakers");
    ("洛杉矶湖人", "los_angeles_lakers"); ("勇士", "golden_state_warriors");
    ("勇士队", "golden_state_warriors"); ("金州勇士", "golden_state_warriors");
    ("凯尔特人", "boston_celtics"); ("凯尔特人队", "boston_celtics");
    ("波士顿凯尔特人", "boston_celtics"); ("公牛", "chicago_bulls");
    ("公牛队", "chicago_bulls"); ("芝加哥公牛", "chicago_bulls");
    ("热火", "miami_heat"); ("热火队", "miami_heat"); ("迈阿密热火", "miami_heat");
    ("马刺", "san_antonio_spurs"); ("马刺队", "san_antonio_spurs");
    ("圣安东尼奥马刺", "san_antonio_spurs"); ("火箭", "houston_rockets");
    ("火箭队", "houston_rockets"); ("休斯顿火箭", "houston_rockets");
    ("雷霆", "oklahoma_city_thunder"); ("雷霆队", "oklahoma_city_thunder");
    ("俄克拉荷马雷霆", "oklahoma_city_thunder"); ("快船", "los_angeles_clippers");
    ("快船队", "los_angeles_clippers"); ("洛杉矶快船", "los_angeles_clippers");
    ("尼克斯", "new_york_knicks"); ("尼克斯队", "new_york_knicks");
    ("纽约尼克斯", "new_york_knicks"); ("篮网", "brooklyn_nets");
    ("篮网队", "brooklyn_nets"); ("布鲁克林篮网", "brooklyn_nets");
    ("76人", "philadelphia_76ers"); ("76人队", "philadelphia_76ers");
    ("费城76人", "philadelphia_76ers"); ("雄鹿", "milwaukee_bucks");
    ("雄鹿队", "milwaukee_bucks"); ("密尔沃基雄鹿", "milwaukee_bucks");
    ("太阳", "phoenix_suns"); ("太阳队", "phoenix_suns"); ("菲尼克斯太阳", "phoenix_suns");
    ("国王", "sacramento_kings"); ("国王队", "sacramento_kings");
    ("萨克拉门托国王", "sacramento_kings"); ("独行侠", "dallas_mavericks");
    ("独行侠队", "dallas_mavericks"); ("达拉斯独行侠", "dallas_mavericks");
    ("小牛", "dallas_mavericks"); ("小牛队", "dallas_mavericks");
    ("达拉斯小牛", "dallas_mavericks"); ("爵士", "utah_jazz"); ("爵士队", "utah_jazz");
    ("犹他爵士", "utah_jazz"); ("掘金", "denver_nuggets"); ("掘金队", "denver_nuggets");
    ("丹佛掘金", "denver_nuggets"); ("森林狼", "minnesota_timberwolves");
    ("森林狼队", "minnesota_timberwolves"); ("明尼苏达森林狼", "minnesota_timberwolves");
    ("开拓者", "portland_trail_blazers"); ("开拓者队", "portland_trail_blazers");
    ("波特兰开拓者", "portland_trail_blazers"); ("灰熊", "memphis_grizzlies");
    ("灰熊队", "memphis_grizzlies"); ("孟菲斯灰熊", "memphis_grizzlies");
    ("鹈鹕", "new_orleans_pelicans"); ("鹈鹕队", "new_orleans_pelicans");
    ("新奥尔良鹈鹕", "new_orleans_pelicans"); ("老鹰", "atlanta_hawks");
    ("老鹰队", "atlanta_hawks"); ("亚特兰大老鹰", "atlanta_hawks");
    ("黄蜂", "charlotte_hornets"); ("黄蜂队", "charlotte_hornets");
    ("夏洛特黄蜂", "charlotte_hornets"); ("骑士", "cleveland_cavaliers");
    ("骑士队", "cleveland_cavaliers"); ("克利夫兰骑士", "cleveland_cavaliers");
    ("活塞", "detroit_pistons"); ("活塞队", "detroit_pistons");
    ("底特律活塞", "detroit_pistons"); ("步行者", "indiana_pacers");
    ("步行者队", "indiana_pacers"); ("印第安纳步行者", "indiana_pacers");
    ("魔术", "orlando_magic"); ("魔术队", "orlando_magic"); ("奥兰多魔术", "orlando_magic");
    ("猛龙", "toronto_raptors"); ("猛龙队", "toronto_raptors");
    ("多伦多猛龙", "toronto_raptors"); ("奇才", "washington_wizards");
    ("奇才队", "washington_wizards"); ("华盛顿奇才", "washington_wizards") ].

(** A dictionary with [int] keys. *)
Fixpoint int_get {A} (k : Z) (d : list (Z * A)) : option A :=
  match d with
  | [] => None
  | (k', v) :: d' => if (k =? k')%Z then Some v else int_get k d'
  end.

Fixpoint int_set {A} (k : Z) (v : A) (d : list (Z * A)) : list (Z * A) :=
  match d with
  | [] => [(k, v)]
  | (k', v') :: d' => if (k =? k')%Z then (k, v) :: d' else (k', v') :: int_set k v d'
  end.

(** [{v: k for k, v in ESPN_TEAM_IDS.items()}] *)
Definition ID_TO_TEAM : list (Z * string) :=
  fold_left (fun d kv => int_set (snd kv) (fst kv) d) ESPN_TEAM_IDS [].

(** *** Strings *)

Definition is_lower (c : ascii) : bool :=
  let n := nat_of_ascii c in (97 <=? n)%nat && (n <=? 122)%nat.

(** [str.upper], on the ASCII letters, as [lower] is. *)
Definition upper_char (c : ascii) : ascii :=
  if is_lower c then ascii_of_nat (nat_of_ascii c - 32) else c.

Fixpoint upper (s : string) : string :=
  match s with
  | EmptyString => EmptyString
  | String c s' => String (upper_char c) (upper s')
  end.

(** [s.replace(a, b)] for two strings of one character. *)
Fixpoint replace_char (a b : ascii) (s : string) : string :=
  match s with
  | EmptyString => EmptyString
  | String c s' => String (if Ascii.eqb c a then b else c) (replace_char a b s')
  end.

(** [s.split()]: the words between the runs of white space; [word] is the
    word being read. *)
Fixpoint words (s word : string) : list string :=
  match s with
  | EmptyString => match word with EmptyString => [] | _ => [word] end
  | String c s' =>
      if is_space c then
        match word with
        | EmptyString => words s' EmptyString
        | _ => word :: words s' EmptyString
        end
      else words s' (word ++ String c EmptyString)
  end.

Definition split (s : string) : list string := words s EmptyString.

(** *** The lookups *)

(** [ESPN_TEAM_IDS[team_key]] *)
Definition team_id (team_key : string) : exc Z := dict_getitem team_key ESPN_TEAM_IDS.

(** The test of lines 265-274 on one full name. *)
Definition fuzzy_match (team_name_lower full_name : string) : bool :=
  (contains "warriors" team_name_lower && contains "warriors" (lower full_name))
  || (contains "lakers" team_name_lower && contains "lakers" (lower full_name))
  || (contains "celtics" team_name_lower && contains "celtics" (lower full_name))
  || (let team_words := split (lower full_name) in
      (0 <? length team_words)%nat && contains (last team_words EmptyString) team_name_lower).

(** [get_team_id]; each loop returns at the first entry that passes its
    test. *)
Definition get_team_id (team_name : string) : exc Z :=
  if dict_mem team_name CHINESE_TEAM_NAMES then
    team_key <- dict_getitem team_name CHINESE_TEAM_NAMES ;;
    team_id team_key
  else
    let normalized_name := replace_char "-" "_" (replace_char " " "_" (lower team_name)) in
    if dict_mem normalized_name ESPN_TEAM_IDS then team_id normalized_name
    else
      match find (fun kv => String.eqb (upper team_name) (snd kv)) TEAM_ABBREVIATIONS with
      | Some (team_key, _) => team_id team_key
      | None =>
      match find (fun kv => String.eqb (lower team_name) (lower (snd kv)))
              TEAM_FULL_NAMES with
      | Some (team_key, _) => team_id team_key
      | None =>
      let team_name_lower := lower team_name in
      match find (fun kv => fuzzy_match team_name_lower (snd kv)) TEAM_FULL_NAMES with
      | Some (team_key, _) => team_id team_key
      | None =>
      match find (fun kv => contains (fst kv) team_name_lower
                            || contains team_name_lower (fst kv))
              CHINESE_TEAM_NAMES with
      | Some (_, team_key) => team_id team_key
      | None => Raise ValueError
      end end end end.

(** [get_team_name] *)
Definition get_team_name (id : Z) : exc string :=
  match int_get id ID_TO_TEAM with
  | Some team_key => dict_getitem team_key TEAM_FULL_NAMES
  | None => Raise ValueError
  end.

(** [list_all_teams] *)
Definition list_all_teams : exc (dict pyval) :=
  foldM
    (fun teams kv =>
       let (team_key, id) := kv : string * Z in
       full_name <- dict_getitem team_key TEAM_FULL_NAMES ;;
       abbreviation <- dict_getitem team_key TEAM_ABBREVIATIONS ;;
       Ok (dict_set team_key
             (PDict [("espn_id", PInt id); ("full_name", PStr full_name);
                     ("abbreviation", PStr abbreviation)])
             teams))
    ESPN_TEAM_IDS [].

(** The last word of a full name, which is the name the team goes by. *)
Definition nickname (full_name : string) : string := last (split full_name) EmptyString.

End NbaTeamIds.

(* ================================================================== *)
(** ** The vocabulary of the statements *)
(* ================================================================== *)

Module PySpec.
Import Py.

(** A subsequence: the elements of the first list occur in the second, in
    the same order. *)
Inductive subseq {A : Type} : list A -> list A -> Prop :=
| subseq_nil : forall l, subseq [] l
| subseq_skip : forall x l1 l2, subseq l1 l2 -> subseq l1 (x :: l2)
| subseq_take : forall x l1 l2, subseq l1 l2 -> subseq (x :: l1) (x :: l2).

Section Order.
Context {A : Type} (key : A -> pyval).

(** [a] may stand before [b] in a descending list: [b] is not greater. *)
Definition no_rise (a b : A) : Prop := py_lt (key a) (key b) = Ok false.

(** [o] has the same rank as the value [v]: neither is less. *)
Definition tied (v : pyval) (o : A) : bool :=
  match py_lt v (key o), py_lt (key o) v with
  | Ok false, Ok false => true
  | _, _ => false
  end.

(** [x] can be ordered against [c]. *)
Definition in_class (c : pyval) (x : A) : Prop := comparable c (key x) = true.

End Order.

End PySpec.

Module ParserSpec.
Import Py QueryParser.

(** The count of every candidate of a keyword table, in the order of the
    table. *)
Definition scored (norm : string -> string) (table : dict (list string))
    (text : string) : list (string * nat) :=
  map (fun entry => (fst entry, count_keywords norm (snd entry) text)) table.

Definition max_score (l : list (string * nat)) : nat :=
  fold_right Nat.max 0%nat (map snd l).

(** The candidate with the highest count, the first one declared among
    equals; none when no count is positive. *)
Definition choice (l : list (string * nat)) : option string :=
  if (max_score l =? 0)%nat then None
  else option_map fst (find (fun p => (snd p =? max_score l)%nat) l).


(** No keyword of the table occurs in [text], whatever its case. *)
Definition no_keyword (table : dict (list string)) (text : string) : bool :=
  forallb (fun entry => forallb (fun kw => negb (contains (lower kw) text)) (snd entry))
    table.

(** A detection step: the chosen name is set and the confidence grows by
    0.3, or nothing changes. *)
Definition with_choice (c : option string) (set : string -> ParseResult -> ParseResult)
    (r : ParseResult) : ParseResult :=
  match c with
  | Some name => set_confidence (confidence r + (3 # 10))%Q (set name r)
  | None => r
  end.

(** The two ways a step changes the confidence, when it does. *)
Definition step_add (d c c' : Q) : Prop := c' = c \/ c' = (c + d)%Q.
Definition step_max (m c c' : Q) : Prop := c' = c \/ c' = max2 c m.

(** The bonus of lines 231-232. *)
Definition parameter_bonus (params : dict pyval) : Q :=
  match params with
  | [] => 0%Q
  | _ => (4 # 10)%Q
  end.



(** The digits of the round that the text names: what the pattern of
    line 266 captures at its leftmost match. *)
Definition round_digits (text : string) : option (list N) :=
  re_search match_round (code_points text).

(** The round has more digits than [int] converts. *)
Definition round_too_long (text : string) : bool :=
  match round_digits text with
  | Some digits => (int_max_str_digits <? Z.of_nat (length digits))%Z
  | None => false
  end.

(** A text of [n] digits [1] followed by [轮]. *)
Definition long_round (n : Z) : string :=
  (String.concat "" (repeat "1" (Z.to_nat n)) ++ "轮")%string.

End ParserSpec.

Module CacheSpec.
Import Py QueryCache.

(** The store after [_save_cache]: the metadata record, when there is one,
    carries the new stamp. *)
Definition stamped (now : string) (cache_data : dict pyval) : dict pyval :=
  match dict_get "metadata" cache_data with
  | Some (PDict metadata) =>
      dict_set "metadata" (PDict (dict_set "last_updated" (PStr now) metadata)) cache_data
  | _ => cache_data
  end.

(** The key in the words of the specification: the query type, then a
    fragment for each of the four names that the mapping has, in the fixed
    order, joined by underscores. *)
Definition fragment (parameters : dict pyval) (name : string) : list string :=
  match dict_get name parameters with
  | Some v => [(name ++ "_" ++ py_str v)%string]
  | None => []
  end.

Definition expected_key (query_type : string) (parameters : dict pyval) : string :=
  join "_" (query_type :: flat_map (fragment parameters)
                            ["league_id"; "team"; "year"; "round"]).

(** The store in which the domain [sport] holds the mapping [m]. *)
Definition with_domain (sport : string) (m : dict pyval) (st : dict pyval) : dict pyval :=
  dict_set sport (PDict m) st.

(** The mapping of a domain: the one the store holds, or an empty one. *)
Definition mapping_or_empty (sport : string) (st : dict pyval) : dict pyval :=
  match dict_get sport st with
  | Some (PDict m) => m
  | _ => []
  end.

(** Whether [k] is one of [ks]. *)
Definition among (ks : list string) (k : string) : bool :=
  existsb (String.eqb k) ks.

(** The field of an entry, [None] when it has none: [entry.get(name)]. *)
Definition field (name : string) (entry : dict pyval) : pyval :=
  match dict_get name entry with
  | Some v => v
  | None => PNone
  end.

(** [o] was made from the entry stored under its key in [m], an entry of
    the requested type whose success flag holds. *)
Definition from_entry (m : dict pyval) (query_type : string) (o : OptionView) : Prop :=
  exists entry,
    In (cache_key o, PDict entry) m /\
    dict_get "query_type" entry = Some (PStr query_type) /\
    py_truthy (field "success" entry) = true /\
    timestamp o = field "timestamp" entry.

(** The slot of [sport], when there is one, is a mapping with unique keys. *)
Definition slot_ok (data : dict pyval) (sport : string) : Prop :=
  forall slot, dict_get sport data = Some slot -> exists m, slot = PDict m /\ dict_wf m.

Section Expiry.
Variable fromisoformat : string -> option datetime.

(** What lines 84-98 do to one domain. *)
Definition clean_domain (cutoff_time : datetime) (sport : string) (data : dict pyval)
    : dict pyval :=
  match dict_get sport data with
  | Some (PDict m) =>
      dict_set sport
        (PDict (filter (fun kv => negb (is_expired fromisoformat cutoff_time (snd kv))) m))
        data
  | _ => data
  end.

(** What the load does with an entry, case by case: [verdict now days v b]
    says that the value [v] found in a domain mapping is removed ([b] is
    [true]) or kept. *)
Inductive verdict (now : datetime) (max_age_days : Z) : pyval -> bool -> Prop :=
| kept_not_a_mapping v :
    (forall e, v <> PDict e) -> verdict now max_age_days v false
| kept_without_timestamp e :
    dict_get "timestamp" e = None -> verdict now max_age_days (PDict e) false
| removed_unreadable e ts :
    dict_get "timestamp" e = Some ts ->
    (forall t, py_fromisoformat fromisoformat ts <> Ok t) ->
    verdict now max_age_days (PDict e) true
| removed_incomparable e s t :
    dict_get "timestamp" e = Some (PStr s) -> fromisoformat s = Some t ->
    aware t <> aware now ->
    verdict now max_age_days (PDict e) true
| removed_older e s t :
    dict_get "timestamp" e = Some (PStr s) -> fromisoformat s = Some t ->
    aware t = aware now ->
    (micros t < micros now - max_age_days * 86400000000)%Z ->
    verdict now max_age_days (PDict e) true
| kept_not_older e s t :
    dict_get "timestamp" e = Some (PStr s) -> fromisoformat s = Some t ->
    aware t = aware now ->
    (micros now - max_age_days * 86400000000 <= micros t)%Z ->
    verdict now max_age_days (PDict e) false.

End Expiry.

(** *** Documents to run the cache on *)

(** 2024-05-01T12:00:00, the time of the examples. *)
Definition ex_now : datetime := mkDatetime false 1714564800000000.

Definition ex_entry (ts : string) : pyval :=
  PDict [("query_type", PStr "standings"); ("timestamp", PStr ts); ("success", PBool true)].

Definition ex_bare : pyval :=
  PDict [("query_type", PStr "standings"); ("success", PBool true)].

(** The motorsport mapping of [ex_document]: an entry eight days old, one
    just under seven days old, one without a timestamp, one whose timestamp
    is not a date, one whose timestamp carries a UTC offset. *)
Definition ex_f1 : dict pyval :=
  [ ("old", ex_entry "2024-04-23T12:00:00");
    ("fresh", ex_entry "2024-04-24T12:00:01");
    ("bare", ex_bare);
    ("garbled", ex_entry "yesterday");
    ("zoned", ex_entry "2024-04-30T12:00:00+08:00") ].

Definition ex_document : dict pyval :=
  [ ("f1", PDict ex_f1);
    ("football", PDict []);
    ("nba", PDict []);
    ("metadata", PDict [("last_updated", PStr "2024-04-30T12:00:00+08:00");
                        ("version", PStr "1.0")]) ].

(** A store with an entry under [f1] and a namespace of the empty name,
    both written by [store_query_result]. *)
Definition ex_store : dict pyval :=
  snd (store_query_result EmptyString "schedule" [] [("success", PBool true)]
         "赛程" "2024-05-01T12:00:02" "2024-05-01T12:00:03"
         (snd (store_query_result "f1" "standings" [("year", PInt 2024)]
                 [("success", PBool true)] "2024年F1积分榜"
                 "2024-05-01T12:00:00" "2024-05-01T12:00:01"
                 (empty_cache "2024-05-01T11:00:00")))).

Definition ex_football_entry (league : Z) (ts : string) (success : bool) (qt : string)
    : pyval :=
  PDict [("query_type", PStr qt); ("parameters", PDict [("league_id", PInt league)]);
         ("original_text", PStr "积分榜"); ("timestamp", PStr ts);
         ("success", PBool success)].

(** Football entries: two of the same instant, an earlier one, a failed
    one and one of another query type. *)
Definition ex_options_store : dict pyval :=
  [ ("football",
     PDict [ ("a", ex_football_entry 2014 "2024-05-01T10:00:00" true "standings");
             ("b", ex_football_entry 2021 "2024-05-01T11:00:00" true "standings");
             ("c", ex_football_entry 2002 "2024-05-01T12:00:00" false "standings");
             ("d", ex_football_entry 2019 "2024-05-01T11:00:00" true "standings");
             ("e", ex_football_entry 2015 "2024-05-01T12:30:00" true "schedule") ]) ].

End CacheSpec.

Module RuleSpec.
Import Py QueryParser ParserSpec.

(** The table of a sport in [player_names] or [team_names]; empty when the
    sport has none, which is when the code skips the lookup. *)
Definition table_of {A} (sport : option string) (tables : dict (dict A)) : dict A :=
  match sport with
  | Some name => match dict_get name tables with Some t => t | None => [] end
  | None => []
  end.

(** Some alias of a player of the sport occurs in the text. *)
Definition names_player (text : string) (sport : option string) : bool :=
  existsb (fun player_cn => contains player_cn text) (keys (table_of sport player_names)).

(** One of the words of line 207 occurs in the text. *)
Definition asks_statistics (text : string) : bool :=
  existsb (fun keyword => contains keyword text) stat_words.

(** The conditions of the three rules of lines 214-227. *)
Definition asks_scorers (text : string) (sport : option string) : bool :=
  sport_eq sport "football" && (contains "射手" text || contains "进球" text).

Definition asks_constructors (text : string) (sport : option string) : bool :=
  sport_eq sport "f1" && contains "车队" text && contains "积分榜" text.

Definition asks_drivers (text : string) (sport : option string) : bool :=
  sport_eq sport "f1" && contains "车手" text && contains "积分榜" text.


(** The query type as one table, the rule written last in [parse_query]
    first: [detected] is what the keyword count gave. *)
Definition decided_query_type (text : string) (sport detected : option string)
    : option string :=
  if asks_drivers text sport then Some "standings"
  else if asks_constructors text sport then Some "teams"
  else if asks_scorers text sport then Some "top_scorers"
  else if names_player text sport
       then Some (if asks_statistics text then "player_stats" else "players")
  else detected.

(** The confidence before the bonus of the parameters, as one table. *)
Definition decided_confidence (text : string) (sport detected : option string) : Q :=
  if asks_drivers text sport || asks_constructors text sport then (9 # 10)%Q
  else if asks_scorers text sport then (7 # 10)%Q
  else if names_player text sport then (8 # 10)%Q
  else ((match sport with Some _ => 3 # 10 | None => 0 end)
        + (match detected with Some _ => 3 # 10 | None => 0 end))%Q.

(** The parameters [_extract_parameters] finds, one group after the
    other. *)
Definition year_parameter (text : string) : dict pyval :=
  match re_search match_year (code_points text) with
  | Some g => [("year", PInt (int_of_digits 0 g))]
  | None => []
  end.

Definition player_parameter (text : string) (sport : option string) : dict pyval :=
  match find (fun kv => contains (fst kv) text) (table_of sport player_names) with
  | Some (_, player_en) => [("player", PStr player_en)]
  | None => []
  end.

Definition team_parameter (text : string) (sport : option string) : dict pyval :=
  match find (fun kv => contains (fst kv) text) (table_of sport team_names) with
  | Some (_, team_en) =>
      [(if sport_eq sport "football" && is_int team_en then "league_id" else "team",
        team_en)]
  | None => []
  end.

Definition round_parameter (text : string) : dict pyval :=
  match re_search match_round (code_points text) with
  | Some g => [("round", PInt (int_of_digits 0 g))]
  | None => []
  end.

(** What a parameter of the result can be, for the sport of the result
    and the text it was read from. *)
Inductive parameter_of (text : string) (sport : option string) : string -> pyval -> Prop :=
| is_year y :
    (0 <= y <= 9999)%Z -> parameter_of text sport "year" (PInt y)
| is_round n :
    (0 <= n)%Z -> parameter_of text sport "round" (PInt n)
| is_player player_cn player_en :
    sport = Some "nba" ->
    In (player_cn, player_en) (table_of (Some "nba") player_names) ->
    contains player_cn text = true ->
    parameter_of text sport "player" (PStr player_en)
| is_team team_cn team_en :
    sport = Some "nba" ->
    In (team_cn, PStr team_en) (table_of (Some "nba") team_names) ->
    contains team_cn text = true ->
    parameter_of text sport "team" (PStr team_en)
| is_league league_cn league_id :
    sport = Some "football" ->
    In (league_cn, PInt league_id) (table_of (Some "football") team_names) ->
    contains league_cn text = true ->
    parameter_of text sport "league_id" (PInt league_id).

(** What is said of a confidence [c] below the threshold of the callers
    (0.3): nothing was recognised. *)
Definition nothing_recognised (r : ParseResult) : Prop :=
  sport r = None /\ query_type r = None /\ parameters r = [].

End RuleSpec.

Module CoverageSpec.
Import Py QueryParser QueryCache CacheSpec.

(** [result_data.get('success', False)], the flag [store_query_result]
    copies into the entry. *)
Definition success_flag (result_data : dict pyval) : pyval :=
  match dict_get "success" result_data with
  | Some v => v
  | None => PBool false
  end.

(** An entry may take the place of another: it is the same value, or a
    mapping that holds entries of the other only. *)
Definition shrunk (v v' : pyval) : Prop :=
  v' = v \/ exists m m', v = PDict m /\ v' = PDict m' /\ incl m' m.

(** What a scan of the three domains may do to a document: it keeps the
    names, leaves every other name with its value, and under a scanned
    name only takes entries away. *)
Definition untouched (data st : dict pyval) : Prop :=
  keys st = keys data /\
  (forall d, ~ In d sports -> dict_get d st = dict_get d data) /\
  (forall d v', dict_get d st = Some v' ->
     exists v, dict_get d data = Some v /\ shrunk v v').

Section Cleaning.
Variable fromisoformat : string -> option datetime.

(** The value of a domain without the entries that lines 88-94 collect. *)
Definition clean_value (cutoff_time : datetime) (v : pyval) : pyval :=
  match v with
  | PDict m =>
      PDict (filter (fun kv => negb (is_expired fromisoformat cutoff_time (snd kv))) m)
  | _ => v
  end.

(** What the scan of lines 84-98 does to a slot of the document: the
    three scanned names are cleaned, the other names are left alone. *)
Definition clean_slot (cutoff_time : datetime) (kv : string * pyval) : string * pyval :=
  if among sports (fst kv) then (fst kv, clean_value cutoff_time (snd kv)) else kv.

End Cleaning.

(** A document read one day after its two motorsport entries were
    written, one of them without a timestamp. *)
Definition ex_fresh_document : dict pyval :=
  [ ("f1", PDict [("fresh", ex_entry "2024-04-30T12:00:00"); ("bare", ex_bare)]);
    ("football", PDict []);
    ("nba", PDict [("recent", ex_entry "2024-05-01T11:59:59")]);
    ("metadata", PDict [("last_updated", PStr "2024-05-01T11:59:59");
                        ("version", PStr "1.0")]) ].

(** A document whose football slot is a list, with an old entry under
    each of the other two domains. *)
Definition ex_broken_document : dict pyval :=
  [ ("f1", PDict [("old", ex_entry "2024-04-23T12:00:00")]);
    ("football", PList []);
    ("nba", PDict [("old", ex_entry "2024-04-23T12:00:00")]) ].

End CoverageSpec.

Module SystemSpec.
Import Py QueryParser VoiceQuerySystem.

(** The decimal digit of a number below ten, and the two digits of a
    number below a hundred. *)
Definition digit_char (d : Z) : ascii := ascii_of_nat (48 + Z.to_nat d).

Definition two_digits (n : Z) : string :=
  String (digit_char (n / 10)) (String (digit_char (n mod 10)) EmptyString).

(** A reply that answers [text] with [data] for the parse [query_info]. *)
Definition answers (text : string) (query_info : ParseResult) (data : pyval)
    (cache_key : option string) (stamp : string) (cache' : Cache)
    (outcome : exc Reply * System) : Prop :=
  outcome
  = (Ok (Answered text query_info data cache_key stamp),
     mkSystem cache' (Some (Answered text query_info data cache_key stamp))).

(** Backends for the examples: each method returns a dictionary that
    names it. *)
Definition named (method : string) : outcome :=
  Returned (PDict [("success", PBool true); ("method", PStr method)]).

Definition ex_backends : Backends :=
  {| f1_api := Some {| get_current_season_schedule := named "schedule";
                       get_driver_standings := fun _ => named "drivers";
                       get_constructor_standings := fun _ => named "constructors";
                       get_race_results := fun _ _ => named "results" |};
     football_api := Some {| get_today_matches := named "today";
                             get_standings := fun _ _ => named "standings";
                             get_top_scorers := fun _ _ => named "scorers";
                             get_live_matches := named "live" |};
     nba_api := Some {| get_teams := named "teams";
                        get_league_standings := named "standings";
                        get_team_schedule_by_name := fun _ => named "schedule";
                        get_team_players := fun _ => named "players";
                        get_player_stats_by_name := fun _ _ => named "stats" |} |}.

(** The result of [parse_query] on a text on which it returns. *)
Definition parsed (text : string) : ParseResult :=
  match parse_query text with
  | Ok r => r
  | Raise _ => initial_result text
  end.

Definition ex_system : System :=
  mkSystem (mkCache None (QueryCache.empty_cache "2024-05-01T11:00:00")) None.

End SystemSpec.

(* ================================================================== *)
(** ** Facts about the primitives *)
(* ================================================================== *)

Module PyFacts.
Import Py PySpec.

#[global] Hint Constructors subseq : core.

(** *** Dictionaries *)

Lemma filter_all {B : Type} (f : B -> bool) (l : list B) :
  (forall x, In x l -> f x = true) -> filter f l = l.
Proof.
  induction l as [|x l IH]; simpl; intros H; [reflexivity|].
  rewrite (H x (or_introl eq_refl)), IH; auto.
Qed.

Section Dict.
Context {A : Type}.
Implicit Types (d : dict A) (k : string) (v : A).

Lemma dict_get_set_eq k v d : dict_get k (dict_set k v d) = Some v.
Proof.
  induction d as [|[k' v'] d IH]; simpl.
  - now rewrite String.eqb_refl.
  - destruct (String.eqb k k') eqn:E; simpl.
    + now rewrite String.eqb_refl.
    + now rewrite E.
Qed.

Lemma dict_get_set_neq k k' v d :
  k <> k' -> dict_get k' (dict_set k v d) = dict_get k' d.
Proof.
  intros Hne. induction d as [|[k0 v0] d IH]; simpl.
  - destruct (String.eqb k' k) eqn:E; [|reflexivity].
    apply String.eqb_eq in E. congruence.
  - destruct (String.eqb k k0) eqn:E; simpl.
    + apply String.eqb_eq in E. subst k0.
      destruct (String.eqb k' k) eqn:E'; [|reflexivity].
      apply String.eqb_eq in E'. congruence.
    + now rewrite IH.
Qed.

Lemma dict_set_same k v d : dict_get k d = Some v -> dict_set k v d = d.
Proof.
  induction d as [|[k' v'] d IH]; simpl; [discriminate|].
  destruct (String.eqb k k') eqn:E.
  - apply String.eqb_eq in E. intros [= ->]. now subst.
  - intros H. now rewrite IH.
Qed.

Lemma dict_set_set k v v' d : dict_set k v (dict_set k v' d) = dict_set k v d.
Proof.
  induction d as [|[k0 v0] d IH]; simpl.
  - now rewrite String.eqb_refl.
  - destruct (String.eqb k k0) eqn:E; simpl.
    + now rewrite String.eqb_refl.
    + now rewrite E, IH.
Qed.

Lemma dict_get_None k d : dict_get k d = None <-> ~ In k (keys d).
Proof.
  induction d as [|[k' v'] d IH]; simpl.
  - tauto.
  - destruct (String.eqb k k') eqn:E.
    + apply String.eqb_eq in E. subst. split; [discriminate | tauto].
    + apply String.eqb_neq in E. rewrite IH. split.
      * intros H [H'|H']; [congruence | tauto].
      * tauto.
Qed.

Lemma dict_get_In k v d : dict_get k d = Some v -> In (k, v) d.
Proof.
  induction d as [|[k' v'] d IH]; simpl; [discriminate|].
  destruct (String.eqb k k') eqn:E.
  - apply String.eqb_eq in E. intros [= ->]. subst. now left.
  - intros H. right. now apply IH.
Qed.

Lemma In_dict_get k v d : dict_wf d -> In (k, v) d -> dict_get k d = Some v.
Proof.
  unfold dict_wf, keys.
  induction d as [|[k' v'] d IH]; simpl; [tauto|].
  intros Hnd [H|H].
  - injection H as -> ->. now rewrite String.eqb_refl.
  - inversion Hnd as [|? ? Hnotin Hnd']; subst.
    destruct (String.eqb k k') eqn:E.
    + apply String.eqb_eq in E. subst. exfalso. apply Hnotin.
      now apply (in_map fst) in H.
    + now apply IH.
Qed.

Lemma dict_mem_true k d : dict_mem k d = true <-> exists v, dict_get k d = Some v.
Proof.
  unfold dict_mem. destruct (dict_get k d); split; eauto; try discriminate.
  intros [v H]. discriminate.
Qed.

Lemma dict_mem_false k d : dict_mem k d = false <-> dict_get k d = None.
Proof.
  unfold dict_mem. destruct (dict_get k d); split; congruence.
Qed.

Lemma dict_set_fresh k v d : dict_get k d = None -> dict_set k v d = d ++ [(k, v)].
Proof.
  induction d as [|[k' v'] d IH]; simpl; [reflexivity|].
  destruct (String.eqb k k'); [discriminate|].
  intros H. now rewrite IH.
Qed.

(** With unique keys, the order of insertion does not matter to a lookup. *)
Lemma dict_get_perm k d1 d2 :
  dict_wf d1 -> Permutation d1 d2 -> dict_get k d1 = dict_get k d2.
Proof.
  intros Hwf Hperm.
  assert (Hwf2 : dict_wf d2).
  { unfold dict_wf, keys in *. eapply Permutation_NoDup; [|exact Hwf].
    now apply Permutation_map. }
  destruct (dict_get k d1) as [v|] eqn:E1.
  - symmetry. apply In_dict_get; [exact Hwf2|].
    eapply Permutation_in; [exact Hperm|]. now apply dict_get_In.
  - destruct (dict_get k d2) as [v|] eqn:E2; [|reflexivity].
    apply dict_get_In in E2. apply dict_get_None in E1. exfalso. apply E1.
    apply (in_map fst) in E2. simpl in E2.
    eapply Permutation_in; [|exact E2].
    apply Permutation_map. now apply Permutation_sym.
Qed.

(** Removing a key that occurs once is filtering it out. *)
Lemma dict_remove_filter k d :
  dict_wf d ->
  dict_remove k d = filter (fun kv => negb (String.eqb k (fst kv))) d.
Proof.
  unfold dict_wf, keys.
  induction d as [|[k' v'] d IH]; simpl; [reflexivity|].
  intros Hnd. inversion Hnd as [|? ? Hnotin Hnd']; subst.
  destruct (String.eqb k k') eqn:E; simpl.
  - apply String.eqb_eq in E. subst k'.
    symmetry. apply filter_all.
    intros [k0 v0] Hin. simpl.
    destruct (String.eqb k k0) eqn:E0; [|reflexivity].
    apply String.eqb_eq in E0. subst. exfalso. apply Hnotin.
    now apply (in_map fst) in Hin.
  - now rewrite IH.
Qed.

End Dict.

(** *** The order of values and the sort *)

Lemma ascii_compare_lt_trans a b c :
  Ascii.compare a b = Lt -> Ascii.compare b c = Lt -> Ascii.compare a c = Lt.
Proof.
  unfold Ascii.compare. rewrite !N.compare_lt_iff. lia.
Qed.

Lemma ascii_compare_eq a b : Ascii.compare a b = Eq -> a = b.
Proof.
  unfold Ascii.compare. rewrite N.compare_eq_iff. intros H.
  rewrite <- (ascii_N_embedding a), <- (ascii_N_embedding b). now rewrite H.
Qed.

Lemma string_compare_lt_trans : forall a b c,
  String.compare a b = Lt -> String.compare b c = Lt -> String.compare a c = Lt.
Proof.
  induction a as [|x a IH]; intros [|y b] [|z c]; simpl; try discriminate; auto.
  destruct (Ascii.compare x y) eqn:Exy; try discriminate.
  - apply ascii_compare_eq in Exy. subst y.
    destruct (Ascii.compare x z) eqn:Exz; try discriminate; auto.
    eauto.
  - intros _. destruct (Ascii.compare y z) eqn:Eyz; try discriminate.
    + apply ascii_compare_eq in Eyz. subst z. now rewrite Exy.
    + intros _. now rewrite (ascii_compare_lt_trans _ _ _ Exy Eyz).
Qed.

(** If [a < c] then any [b] is above [a] or below [c]. *)
Lemma string_ltb_cotrans a b c :
  String.ltb a c = true -> String.ltb a b = true \/ String.ltb b c = true.
Proof.
  unfold String.ltb.
  destruct (String.compare a c) eqn:Eac; try discriminate. intros _.
  destruct (String.compare a b) eqn:Eab; auto.
  - apply String.compare_eq_iff in Eab. subst b. rewrite Eac. auto.
  - right. rewrite String.compare_antisym in Eab.
    destruct (String.compare b a) eqn:Eba; try discriminate.
    now rewrite (string_compare_lt_trans _ _ _ Eba Eac).
Qed.

Lemma comparable_cases a b :
  comparable a b = true ->
  (exists x y, as_int a = Some x /\ as_int b = Some y) \/
  (exists s t, a = PStr s /\ b = PStr t).
Proof.
  unfold comparable, py_lt.
  destruct a, b; simpl; try discriminate; eauto 6.
Qed.

Lemma comparable_py_lt a b :
  comparable a b = true -> py_lt a b = Ok (lt_or_false a b).
Proof.
  unfold comparable, lt_or_false. destruct (py_lt a b); [reflexivity | discriminate].
Qed.

Lemma comparable_trans c a b :
  comparable c a = true -> comparable c b = true -> comparable a b = true.
Proof.
  intros Ha Hb.
  destruct (comparable_cases _ _ Ha) as [(x & y & H1 & H2)|(s & t & -> & ->)];
  destruct (comparable_cases _ _ Hb) as [(x' & y' & H1' & H2')|(s' & t' & E & ->)].
  - unfold comparable, py_lt. now rewrite H2, H2'.
  - subst c. discriminate.
  - discriminate.
  - reflexivity.
Qed.

Lemma comparable_sym a b : comparable a b = true -> comparable b a = true.
Proof.
  intros H. destruct (comparable_cases _ _ H) as [(x & y & H1 & H2)|(s & t & -> & ->)].
  - unfold comparable, py_lt. now rewrite H1, H2.
  - reflexivity.
Qed.

(** Within one class of comparable values, [<] is co-transitive. *)
Lemma lt_cotrans c x y z :
  comparable c x = true -> comparable c y = true -> comparable c z = true ->
  lt_or_false x z = true -> lt_or_false x y = true \/ lt_or_false y z = true.
Proof.
  intros Hx Hy Hz.
  destruct (comparable_cases _ _ Hx) as [(c1 & x1 & Hc & Hx1)|(s & t & -> & ->)].
  - destruct (comparable_cases _ _ Hy) as [(? & y1 & _ & Hy1)|(? & ? & -> & _)];
      [|discriminate].
    destruct (comparable_cases _ _ Hz) as [(? & z1 & _ & Hz1)|(? & ? & -> & _)];
      [|discriminate].
    unfold lt_or_false, py_lt. rewrite Hx1, Hy1, Hz1.
    rewrite !Z.ltb_lt. lia.
  - destruct (comparable_cases _ _ Hy) as [(? & y1 & Hc & _)|(? & u & _ & ->)];
      [discriminate|].
    destruct (comparable_cases _ _ Hz) as [(? & z1 & Hc & _)|(? & w & _ & ->)];
      [discriminate|].
    unfold lt_or_false. simpl. apply string_ltb_cotrans.
Qed.

Lemma lt_asym c x y :
  comparable c x = true -> comparable c y = true ->
  lt_or_false x y = true -> lt_or_false y x = false.
Proof.
  intros Hx Hy.
  destruct (comparable_cases _ _ Hx) as [(c1 & x1 & Hc & Hx1)|(s & t & -> & ->)].
  - destruct (comparable_cases _ _ Hy) as [(? & y1 & _ & Hy1)|(? & ? & -> & _)];
      [|discriminate].
    unfold lt_or_false, py_lt. rewrite Hx1, Hy1.
    rewrite Z.ltb_lt, Z.ltb_ge. lia.
  - destruct (comparable_cases _ _ Hy) as [(? & y1 & Hc & _)|(? & u & _ & ->)];
      [discriminate|].
    unfold lt_or_false. simpl. unfold String.ltb.
    rewrite (String.compare_antisym u t).
    destruct (String.compare t u); simpl; congruence.
Qed.

Section Sort.
Context {A : Type} (key : A -> pyval).

Lemma insert_desc_perm x l : Permutation (x :: l) (insert_desc key x l).
Proof.
  induction l as [|y l IH]; simpl; [reflexivity|].
  destruct (lt_or_false (key x) (key y)); [|reflexivity].
  rewrite perm_swap. now constructor.
Qed.

Lemma sort_desc_perm l : Permutation l (sort_desc key l).
Proof.
  induction l as [|x l IH]; simpl; [constructor|].
  rewrite <- insert_desc_perm. now constructor.
Qed.

Variable c : pyval.

Lemma in_class_comparable x y : in_class key c x -> in_class key c y -> comparable (key x) (key y) = true.
Proof. apply comparable_trans. Qed.

Lemma in_class_insert x l :
  in_class key c x -> Forall (in_class key c) l -> Forall (in_class key c) (insert_desc key x l).
Proof.
  intros Hx Hl. eapply Permutation_Forall; [apply insert_desc_perm|]. now constructor.
Qed.

Lemma in_class_sort l : Forall (in_class key c) l -> Forall (in_class key c) (sort_desc key l).
Proof. intros Hl. eapply Permutation_Forall; [apply sort_desc_perm|]. exact Hl. Qed.

Lemma no_rise_iff x y : in_class key c x -> in_class key c y -> no_rise key x y <-> lt_or_false (key x) (key y) = false.
Proof.
  intros Hx Hy. unfold no_rise. rewrite (comparable_py_lt _ _ (in_class_comparable x y Hx Hy)).
  split; congruence.
Qed.

Lemma no_rise_trans x y z :
  in_class key c x -> in_class key c y -> in_class key c z -> no_rise key x y -> no_rise key y z -> no_rise key x z.
Proof.
  intros Hx Hy Hz. rewrite !no_rise_iff by assumption. intros Hxy Hyz.
  destruct (lt_or_false (key x) (key z)) eqn:E; [|reflexivity].
  destruct (lt_cotrans c _ (key y) _ Hx Hy Hz E); congruence.
Qed.

Lemma lt_no_rise x y :
  in_class key c x -> in_class key c y -> lt_or_false (key x) (key y) = true -> no_rise key y x.
Proof.
  intros Hx Hy Hlt. apply no_rise_iff; auto. eapply lt_asym; eauto.
Qed.

Lemma insert_desc_sorted x l :
  in_class key c x -> Forall (in_class key c) l ->
  StronglySorted (no_rise key) l -> StronglySorted (no_rise key) (insert_desc key x l).
Proof.
  intros Hx Hl Hs. induction Hs as [|y l Hs IH Hy]; simpl.
  - constructor; constructor.
  - inversion Hl as [|? ? Hcy Hl']; subst.
    destruct (lt_or_false (key x) (key y)) eqn:E.
    + constructor; [now apply IH|].
      eapply Permutation_Forall; [apply insert_desc_perm|].
      constructor; [now apply lt_no_rise | exact Hy].
    + assert (Hxy : no_rise key x y) by now apply no_rise_iff.
      constructor; [now constructor|].
      constructor; [exact Hxy|].
      rewrite Forall_forall in *. intros z Hz.
      eapply (no_rise_trans x y z); auto.
Qed.

Lemma sort_desc_sorted l : Forall (in_class key c) l -> StronglySorted (no_rise key) (sort_desc key l).
Proof.
  induction 1 as [|x l Hx Hl IH]; simpl; [constructor|].
  apply insert_desc_sorted; auto. now apply in_class_sort.
Qed.

Lemma tied_in_class v x : in_class key c x -> tied key v x = true -> comparable c v = true.
Proof.
  unfold tied, in_class. intros Hx Ht.
  assert (Hv : comparable v (key x) = true).
  { unfold comparable. destruct (py_lt v (key x)); [reflexivity | discriminate]. }
  apply (comparable_trans (key x)); apply comparable_sym; assumption.
Qed.

Lemma tied_spec v x :
  comparable c v = true -> in_class key c x ->
  tied key v x = negb (lt_or_false v (key x)) && negb (lt_or_false (key x) v).
Proof.
  intros Hv Hx. unfold tied.
  rewrite (comparable_py_lt v (key x)) by (now apply (comparable_trans c)).
  rewrite (comparable_py_lt (key x) v) by (now apply (comparable_trans c)).
  destruct (lt_or_false v (key x)), (lt_or_false (key x) v); reflexivity.
Qed.

Lemma tied_not_both v x y :
  in_class key c x -> in_class key c y -> lt_or_false (key x) (key y) = true ->
  tied key v x = true -> tied key v y = true -> False.
Proof.
  intros Hx Hy Hlt Tx Ty.
  assert (Hv := tied_in_class v x Hx Tx).
  rewrite tied_spec in Tx, Ty by assumption.
  apply andb_prop in Tx, Ty. destruct Tx as [Tx1 Tx2], Ty as [Ty1 Ty2].
  apply negb_true_iff in Tx1, Tx2, Ty1, Ty2.
  destruct (lt_cotrans c _ v _ Hx Hv Hy Hlt); congruence.
Qed.

Lemma insert_desc_stable v x l :
  in_class key c x -> Forall (in_class key c) l ->
  filter (tied key v) (insert_desc key x l) = filter (tied key v) (x :: l).
Proof.
  intros Hx Hl. induction Hl as [|y l Hy Hl IH]; [reflexivity|].
  cbn [insert_desc].
  destruct (lt_or_false (key x) (key y)) eqn:E; [|reflexivity].
  cbn [filter] in *. rewrite IH.
  destruct (tied key v y) eqn:Ty, (tied key v x) eqn:Tx; try reflexivity.
  exfalso. eapply (tied_not_both v x y); eauto.
Qed.

Lemma sort_desc_stable v l :
  Forall (in_class key c) l -> filter (tied key v) (sort_desc key l) = filter (tied key v) l.
Proof.
  induction 1 as [|x l Hx Hl IH]; [reflexivity|].
  cbn [sort_desc fold_right]. fold (sort_desc key l).
  rewrite insert_desc_stable; auto using in_class_sort.
  cbn [filter]. now rewrite IH.
Qed.

End Sort.

(** What a successful [list.sort(key=..., reverse=True)] returns: the same
    elements, in descending order of their keys, elements of equal rank in
    the order they had. *)
Lemma py_sort_reverse_ok {A : Type} (key : A -> pyval) (l r : list A) :
  py_sort_reverse key l = Ok r ->
  Permutation l r /\ StronglySorted (no_rise key) r /\
  (forall v, filter (tied key v) r = filter (tied key v) l).
Proof.
  unfold py_sort_reverse.
  destruct l as [|x [|y l]].
  - intros [= <-]. repeat split; constructor.
  - intros [= <-]. repeat split; auto. constructor; constructor.
  - destruct (forallb _ _) eqn:E; [|discriminate]. intros [= <-].
    rewrite forallb_forall in E. rewrite <- Forall_forall in E.
    repeat split.
    + apply (sort_desc_perm key (x :: y :: l)).
    + now apply (sort_desc_sorted key (key x) (x :: y :: l)).
    + intros v. now apply (sort_desc_stable key (key x) v (x :: y :: l)).
Qed.

End PyFacts.

(* ================================================================== *)
(** ** Facts about the parser *)
(* ================================================================== *)

Module ParserFacts.
Import Py PySpec PyFacts QueryParser ParserSpec.

(** *** Scores and the first maximum *)

Section MaxFrom.
Context {A : Type} (f : A -> nat).

Lemma max_from_split (l : list A) : forall best,
  exists l1 l2,
    best :: l = l1 ++ max_from f best l :: l2 /\
    (forall x, In x l1 -> (f x < f (max_from f best l))%nat) /\
    (forall x, In x l2 -> (f x <= f (max_from f best l))%nat).
Proof.
  induction l as [|x l IH]; intros best; simpl.
  - exists [], []. repeat split; simpl; tauto.
  - destruct (f best <? f x)%nat eqn:E.
    + apply Nat.ltb_lt in E.
      destruct (IH x) as (l1 & l2 & Heq & H1 & H2).
      exists (best :: l1), l2. repeat split; auto.
      * simpl. now rewrite <- Heq.
      * intros y [<-|Hy]; auto.
        destruct l1 as [|z l1]; simpl in Heq; injection Heq as Hz Hl.
        -- now rewrite <- Hz.
        -- subst z. specialize (H1 x (or_introl eq_refl)). lia.
    + apply Nat.ltb_ge in E.
      destruct (IH best) as (l1 & l2 & Heq & H1 & H2).
      set (m := max_from f best l) in *.
      destruct l1 as [|z l1]; simpl in Heq; injection Heq as Hz Hl.
      * exists [], (x :: l2). split; [|split].
        -- simpl. now rewrite <- Hz, Hl.
        -- simpl. tauto.
        -- intros y [<-|Hy]; auto. rewrite <- Hz. exact E.
      * subst z. exists (best :: x :: l1), l2. split; [|split]; auto.
        -- simpl. now rewrite Hl.
        -- intros y [<-|[<-|Hy]].
           ++ apply H1. now left.
           ++ specialize (H1 best (or_introl eq_refl)). lia.
           ++ apply H1. now right.
Qed.

End MaxFrom.


Lemma max_score_app l1 l2 :
  max_score (l1 ++ l2) = Nat.max (max_score l1) (max_score l2).
Proof.
  unfold max_score. induction l1 as [|q l IH]; simpl; [reflexivity|].
  rewrite IH. lia.
Qed.

(** [max_from] returns the first element that reaches the maximum. *)
Lemma max_from_find (l : list (string * nat)) best :
  find (fun p => (snd p =? max_score (best :: l))%nat) (best :: l)
  = Some (max_from snd best l) /\
  snd (max_from snd best l) = max_score (best :: l).
Proof.
  destruct (max_from_split snd l best) as (l1 & l2 & Heq & H1 & H2).
  set (m := max_from snd best l) in *.
  assert (Hmax : max_score (best :: l) = snd m).
  { rewrite Heq, max_score_app. change (m :: l2) with ([m] ++ l2).
    rewrite max_score_app.
    assert (max_score l1 <= snd m)%nat.
    { clear -H1. unfold max_score. induction l1 as [|q l1 IH]; simpl; [lia|].
      assert (snd q < snd m)%nat by (apply H1; now left).
      assert (fold_right Nat.max 0%nat (map snd l1) <= snd m)%nat
        by (apply IH; intros; apply H1; now right).
      lia. }
    assert (max_score l2 <= snd m)%nat.
    { clear -H2. unfold max_score. induction l2 as [|q l2 IH]; simpl; [lia|].
      assert (snd q <= snd m)%nat by (apply H2; now left).
      assert (fold_right Nat.max 0%nat (map snd l2) <= snd m)%nat
        by (apply IH; intros; apply H2; now right).
      lia. }
    unfold max_score at 2. simpl. lia. }
  split; [|now rewrite Hmax].
  rewrite Hmax, Heq. clear Heq Hmax.
  induction l1 as [|q l1 IH]; simpl.
  - now rewrite Nat.eqb_refl.
  - assert (snd q < snd m)%nat by (apply H1; now left).
    destruct (snd q =? snd m)%nat eqn:E; [apply Nat.eqb_eq in E; lia|].
    apply IH. intros; apply H1; now right.
Qed.

Lemma max_from_map {A B} (f : A -> nat) (h : B -> nat) (g : B -> A) l : forall b,
  (forall x, In x (b :: l) -> f (g x) = h x) ->
  max_from f (g b) (map g l) = g (max_from h b l).
Proof.
  induction l as [|x l IH]; intros b H; simpl; [reflexivity|].
  rewrite (H b (or_introl eq_refl)), (H x (or_intror (or_introl eq_refl))).
  destruct (h b <? h x)%nat; apply IH; intros y [<-|Hy]; apply H; simpl; auto.
Qed.

Lemma find_filter {A} (p q : A -> bool) l :
  (forall x, p x = true -> q x = true) -> find p (filter q l) = find p l.
Proof.
  intros H. induction l as [|x l IH]; simpl; [reflexivity|].
  destruct (q x) eqn:Eq; simpl.
  - now rewrite IH.
  - destruct (p x) eqn:Ep; [|exact IH]. apply H in Ep. congruence.
Qed.

Lemma max_score_filter l :
  max_score (filter (fun p => (0 <? snd p)%nat) l) = max_score l.
Proof.
  unfold max_score. induction l as [|q l IH]; simpl; [reflexivity|].
  destruct (0 <? snd q)%nat eqn:E; simpl; rewrite IH; [reflexivity|].
  apply Nat.ltb_ge in E. lia.
Qed.

(** The loop that builds the scores keeps the positive counts, in table
    order. *)
Lemma score_table_filter norm table text :
  dict_wf table ->
  score_table norm table text
  = filter (fun p => (0 <? snd p)%nat) (scored norm table text).
Proof.
  unfold score_table, scored, dict_wf, keys.
  set (step := fun (scores : dict nat) (entry : string * list string) => _).
  assert (G : forall acc,
    NoDup (map fst table) ->
    (forall k, In k (map fst table) -> dict_get k acc = None) ->
    fold_left step table acc
    = acc ++ filter (fun p => (0 <? snd p)%nat)
               (map (fun entry => (fst entry, count_keywords norm (snd entry) text))
                  table)).
  { induction table as [|[name kws] table IH]; intros acc Hnd Hfresh; simpl.
    - now rewrite app_nil_r.
    - inversion Hnd as [|? ? Hnotin Hnd']; subst.
      unfold step at 2. simpl.
      destruct (0 <? count_keywords norm kws text)%nat eqn:E.
      + rewrite IH; auto.
        * rewrite dict_set_fresh by (apply Hfresh; now left).
          now rewrite <- app_assoc.
        * intros k Hk. rewrite dict_get_set_neq.
          -- apply Hfresh. now right.
          -- intros ->. contradiction.
      + apply IH; auto. intros k Hk. apply Hfresh. now right. }
  intros Hnd. rewrite G; auto.
Qed.

Lemma score_of_In (scores : dict nat) p :
  dict_wf scores -> In p scores -> score_of scores (fst p) = snd p.
Proof.
  intros Hwf Hin. destruct p as [k n]. unfold score_of. simpl.
  now rewrite (In_dict_get k n scores Hwf Hin).
Qed.

(** [max(scores, key=scores.get)] is the choice of the specification. *)
Lemma best_key_choice (scores : dict nat) :
  dict_wf scores -> scores <> [] ->
  exists c, best_key scores = Ok c /\
    option_map fst (find (fun p => (snd p =? max_score scores)%nat) scores) = Some c /\
    exists n, In (c, n) scores /\ n = max_score scores.
Proof.
  intros Hwf Hne. destruct scores as [|b l]; [congruence|].
  unfold best_key, py_max, keys. cbn [map].
  rewrite (max_from_map (score_of (b :: l)) snd fst l b).
  - destruct (max_from_find l b) as [Hfind Hsnd].
    exists (fst (max_from snd b l)). split; [reflexivity|].
    rewrite Hfind. split; [reflexivity|].
    exists (snd (max_from snd b l)). split; [|exact Hsnd].
    apply find_some in Hfind. destruct Hfind as [Hin _].
    now destruct (max_from snd b l).
  - intros x Hx. now apply score_of_In.
Qed.

Lemma dict_wf_filter_scored norm table text :
  dict_wf table ->
  dict_wf (filter (fun p => (0 <? snd p)%nat) (scored norm table text)).
Proof.
  unfold dict_wf, keys, scored.
  induction table as [|[name kws] table IH]; simpl; intros Hnd; [constructor|].
  inversion Hnd as [|? ? Hnotin Hnd']; subst.
  destruct (0 <? _)%nat; simpl; auto.
  constructor; auto.
  intros Hin. apply Hnotin.
  apply in_map_iff in Hin. destruct Hin as ([k n] & Hk & Hin). simpl in Hk. subst k.
  apply filter_In in Hin. destruct Hin as [Hin _].
  apply in_map_iff in Hin. destruct Hin as ([k' kws'] & Heq & Hin).
  injection Heq as -> _. now apply (in_map fst) in Hin.
Qed.

(** The scores are empty exactly when the specification chooses nobody;
    otherwise [best_key] returns its choice. *)
Lemma score_choice norm table text :
  dict_wf table ->
  match score_table norm table text with
  | [] => choice (scored norm table text) = None
  | scores => exists c, best_key scores = Ok c /\
                        choice (scored norm table text) = Some c
  end.
Proof.
  intros Hwf. unfold choice.
  rewrite (score_table_filter norm table text Hwf).
  set (l := scored norm table text).
  destruct (filter _ l) as [|b fl] eqn:Ef.
  - assert (max_score l = 0%nat) as ->; [|reflexivity].
    rewrite <- max_score_filter. fold l. now rewrite Ef.
  - assert (Hwf' : dict_wf (b :: fl)).
    { rewrite <- Ef. now apply dict_wf_filter_scored. }
    destruct (best_key_choice (b :: fl) Hwf') as (c & Hbest & Hfind & n & Hin & Hn);
      [discriminate|].
    exists c. split; [exact Hbest|].
    assert (Hpos : (0 < max_score l)%nat).
    { rewrite <- max_score_filter. fold l. rewrite Ef, <- Hn.
      assert (In (c, n) (filter (fun p => (0 <? snd p)%nat) l)) by now rewrite Ef.
      apply filter_In in H. destruct H as [_ H]. now apply Nat.ltb_lt in H. }
    destruct (max_score l =? 0)%nat eqn:E0; [apply Nat.eqb_eq in E0; lia|].
    rewrite <- Hfind, <- Ef. fold l. rewrite max_score_filter.
    rewrite find_filter; [reflexivity|].
    intros x Hx. apply Nat.eqb_eq in Hx. apply Nat.ltb_lt. lia.
Qed.

(** *** The steps of [parse_query] *)

Lemma sport_keywords_wf : dict_wf sport_keywords.
Proof.
  unfold dict_wf, keys. simpl.
  repeat constructor; simpl; intuition discriminate.
Qed.

Lemma query_types_wf : dict_wf query_types.
Proof.
  unfold dict_wf, keys. simpl.
  repeat constructor; simpl; intuition discriminate.
Qed.

(** No keyword of [query_types] has a capital letter: testing it as it is
    written is testing it without regard to case. *)
Lemma scored_query_types text :
  scored id_norm query_types text = scored lower query_types text.
Proof. reflexivity. Qed.

Lemma detect_sport_run text r :
  detect_sport text r
  = Ok (with_choice (choice (scored lower sport_keywords text)) set_sport r).
Proof.
  unfold detect_sport.
  pose proof (score_choice lower sport_keywords text sport_keywords_wf) as H.
  destruct (score_table lower sport_keywords text) as [|b l].
  - now rewrite H.
  - destruct H as (c & -> & ->). reflexivity.
Qed.

Lemma detect_query_type_run text r :
  detect_query_type text r
  = Ok (with_choice (choice (scored lower query_types text)) set_query_type r).
Proof.
  unfold detect_query_type. rewrite <- scored_query_types.
  pose proof (score_choice id_norm query_types text query_types_wf) as H.
  destruct (score_table id_norm query_types text) as [|b l].
  - now rewrite H.
  - destruct H as (c & -> & ->). reflexivity.
Qed.

(** *** The digits the regular expressions capture *)

Lemma decimal_value_range c v : decimal_value c = Some v -> (0 <= v <= 9)%Z.
Proof.
  unfold decimal_value.
  destruct (find _ decimal_zeros) as [zero|] eqn:E; [|discriminate].
  intros [= <-]. apply find_some in E. destruct E as [_ E].
  apply andb_prop in E. destruct E as [H1 H2]. apply N.leb_le in H1, H2. lia.
Qed.

Lemma decimal_or_zero_range c : (0 <= decimal_or_zero c <= 9)%Z.
Proof.
  unfold decimal_or_zero. destruct (decimal_value c) as [v|] eqn:E; [|lia].
  now apply decimal_value_range in E.
Qed.

Lemma round_too_long_leb text g :
  round_digits text = Some g ->
  (Z.of_nat (length g) <=? int_max_str_digits)%Z = negb (round_too_long text).
Proof.
  intros H. unfold round_too_long. rewrite H, Z.ltb_antisym. now rewrite negb_involutive.
Qed.

Lemma py_int_digits l :
  l <> [] -> forallb is_decimal l = true ->
  py_int l
  = if (Z.of_nat (length l) <=? int_max_str_digits)%Z
    then Ok (int_of_digits 0 l) else Raise ValueError.
Proof.
  intros Hne Hd. unfold py_int. destruct l; [congruence|]. now rewrite Hd.
Qed.

Lemma re_search_anchored anchored l g :
  re_search anchored l = Some g ->
  exists l1 l2, l = l1 ++ l2 /\ anchored l2 = Some g.
Proof.
  induction l as [|c l IH]; simpl.
  - destruct (anchored []) eqn:E; [|discriminate]. intros [= <-]. now exists [], [].
  - destruct (anchored (c :: l)) eqn:E.
    + intros [= <-]. now exists [], (c :: l).
    + intros H. destruct (IH H) as (l1 & l2 & -> & Ha). now exists (c :: l1), l2.
Qed.

Lemma match_year_digits l g :
  match_year l = Some g -> forallb is_decimal g = true /\ length g = 4%nat.
Proof.
  unfold match_year.
  destruct l as [|a [|b [|c [|d l]]]]; try discriminate.
  destruct (is_decimal a && is_decimal b && is_decimal c && is_decimal d) eqn:E;
    [|discriminate].
  intros [= <-]. split; [|reflexivity].
  apply andb_prop in E. destruct E as [E Hd].
  apply andb_prop in E. destruct E as [E Hc].
  apply andb_prop in E. destruct E as [Ha Hb].
  cbn [forallb]. now rewrite Ha, Hb, Hc, Hd.
Qed.

Lemma span_digits_digits l :
  forallb is_decimal (fst (span_digits l)) = true /\
  (length (fst (span_digits l)) <= length l)%nat.
Proof.
  induction l as [|c l [IH1 IH2]]; simpl; [split; [reflexivity | lia]|].
  destruct (is_decimal c) eqn:E; [|split; [reflexivity | simpl; lia]].
  destruct (span_digits l) as [ds rest]. simpl in *. rewrite E, IH1. split; [reflexivity | lia].
Qed.

Lemma match_digits_round_digits l g :
  match_digits_round l = Some g ->
  g <> [] /\ forallb is_decimal g = true /\ (length g <= length l)%nat.
Proof.
  unfold match_digits_round.
  pose proof (span_digits_digits l) as [H1 H2].
  destruct (span_digits l) as [ds rest]. simpl in H1, H2.
  destruct ds as [|c ds]; [discriminate|].
  destruct (strip_prefix _ rest); [|discriminate].
  intros [= <-]. split; [discriminate | now split].
Qed.

Lemma strip_prefix_length p l l' :
  strip_prefix p l = Some l' -> (length l' <= length l)%nat.
Proof.
  revert l. induction p as [|a p IH]; intros l; simpl.
  - intros [= <-]. lia.
  - destruct l as [|b l]; [discriminate|].
    destruct (a =? b)%N; [|discriminate]. intros H. apply IH in H. simpl. lia.
Qed.

Lemma match_round_digits l g :
  match_round l = Some g ->
  g <> [] /\ forallb is_decimal g = true /\ (length g <= length l)%nat.
Proof.
  unfold match_round.
  destruct (strip_prefix _ l) as [l'|] eqn:Ep.
  - destruct (match_digits_round l') eqn:E.
    + intros [= <-]. apply match_digits_round_digits in E.
      apply strip_prefix_length in Ep. destruct E as (H1 & H2 & H3).
      split; [exact H1|]. split; [exact H2 | lia].
    + apply match_digits_round_digits.
  - apply match_digits_round_digits.
Qed.

Lemma search_year_int l g :
  re_search match_year l = Some g -> py_int g = Ok (int_of_digits 0 g).
Proof.
  intros H. apply re_search_anchored in H. destruct H as (l1 & l2 & _ & H).
  apply match_year_digits in H. destruct H as [Hd Hlen].
  rewrite py_int_digits; [now rewrite Hlen | | exact Hd].
  intros ->. discriminate.
Qed.

Lemma search_round_digits l g :
  re_search match_round l = Some g ->
  g <> [] /\ forallb is_decimal g = true /\ (length g <= length l)%nat.
Proof.
  intros H. apply re_search_anchored in H. destruct H as (l1 & l2 & -> & H).
  apply match_round_digits in H. destruct H as (H1 & H2 & H3).
  split; [exact H1|]. split; [exact H2|]. rewrite length_app. lia.
Qed.

Lemma search_round_int text g :
  round_digits text = Some g ->
  py_int g = if round_too_long text then Raise ValueError else Ok (int_of_digits 0 g).
Proof.
  intros H. destruct (search_round_digits _ _ H) as (Hne & Hd & _).
  rewrite (py_int_digits _ Hne Hd), (round_too_long_leb _ _ H).
  now destruct (round_too_long text).
Qed.

Lemma no_round_not_too_long text : round_digits text = None -> round_too_long text = false.
Proof. intros H. unfold round_too_long. now rewrite H. Qed.

(** *** Short texts have short rounds *)

Lemma code_points_length s : (length (code_points s) <= String.length s)%nat.
Proof.
  assert (H : forall n s, (String.length s <= n)%nat ->
                          (length (code_points s) <= String.length s)%nat).
  { clear s. induction n as [|n IH]; intros s Hn.
    - destruct s; simpl in *; lia.
    - destruct s as [|a s1]; [simpl; lia|].
      cbn [code_points String.length] in *.
      repeat match goal with
      | |- context [if ?b then _ else _] => destruct b
      | |- context [match ?x with EmptyString => _ | String _ _ => _ end] =>
          is_var x; destruct x
      end;
      cbn [length String.length] in *;
      match goal with
      | |- context [code_points ?x] => pose proof (IH x) as Hx
      end;
      cbn [String.length] in *; lia. }
  now apply (H (String.length s)).
Qed.

Lemma lower_length s : String.length (lower s) = String.length s.
Proof. induction s as [|c s IH]; simpl; congruence. Qed.

Lemma lstrip_length s : (String.length (lstrip s) <= String.length s)%nat.
Proof.
  induction s as [|c s IH]; simpl; [lia|]. destruct (is_space c); simpl; lia.
Qed.

Lemma rstrip_length s : (String.length (rstrip s) <= String.length s)%nat.
Proof.
  induction s as [|c s IH]; simpl; [lia|].
  destruct (rstrip s); [destruct (is_space c)|]; simpl in *; lia.
Qed.

Lemma normalize_length text : (String.length (normalize text) <= String.length text)%nat.
Proof.
  unfold normalize, strip.
  pose proof (rstrip_length (lstrip (lower text))).
  pose proof (lstrip_length (lower text)).
  pose proof (lower_length text). lia.
Qed.

Lemma short_text_round text :
  (Z.of_nat (String.length text) <= int_max_str_digits)%Z ->
  round_too_long (normalize text) = false.
Proof.
  intros Hlen. unfold round_too_long.
  destruct (round_digits (normalize text)) as [g|] eqn:E; [|reflexivity].
  apply search_round_digits in E. destruct E as (_ & _ & Hg).
  pose proof (code_points_length (normalize text)).
  pose proof (normalize_length text).
  apply Z.ltb_ge. lia.
Qed.

Lemma sport_in_getitem {A} (s : option string) (table : dict A) :
  sport_in s table = true -> exists v, sport_getitem s table = Ok v.
Proof.
  unfold sport_in, sport_getitem, dict_getitem.
  destruct s as [name|]; [|discriminate].
  intros H. apply dict_mem_true in H. destruct H as [v ->]. eauto.
Qed.

(** [_extract_parameters] raises when the round is too long for [int],
    and at no other step. *)
Lemma extract_parameters_run text sp :
  exists params,
    _extract_parameters text sp
    = if round_too_long text then Raise ValueError else Ok params.
Proof.
  unfold _extract_parameters. fold (round_digits text).
  assert (Hround : forall params : dict pyval,
    exists params',
      match round_digits text with
      | Some g => n <- py_int g ;; Ok (dict_set "round" (PInt n) params)
      | None => Ok params
      end = if round_too_long text then Raise ValueError else Ok params').
  { intros params. destruct (round_digits text) as [g|] eqn:Er.
    - rewrite (search_round_int _ _ Er).
      destruct (round_too_long text); cbn [bind]; [now exists [] | eauto].
    - rewrite (no_round_not_too_long _ Er). eauto. }
  destruct (re_search match_year (code_points text)) as [g|] eqn:Ey;
    [rewrite (search_year_int _ _ Ey)|]; cbn [bind];
  (destruct (sport_in sp player_names) eqn:Ep;
    [destruct (sport_in_getitem _ _ Ep) as [pn ->]; cbn [bind];
     destruct (find _ pn) as [[? ?]|] |]; cbn [bind];
   (destruct (sport_in sp team_names) eqn:Et;
     [destruct (sport_in_getitem _ _ Et) as [tn ->]; cbn [bind];
      destruct (find _ tn) as [[? ?]|];
      [destruct (sport_eq sp "football" && is_int _)|] |]; cbn [bind];
    apply Hround)).
Qed.

Lemma player_override_run text r :
  exists (fired : bool) (q : string),
    player_override text r
    = Ok (if fired
          then set_confidence (max2 (confidence r) (8 # 10)%Q) (set_query_type q r)
          else r).
Proof.
  unfold player_override.
  destruct (sport_in (sport r) player_names) eqn:E.
  - destruct (sport_in_getitem _ _ E) as [names ->]. cbn [bind].
    destruct (find _ (keys names)).
    + exists true. eauto.
    + exists false, EmptyString. reflexivity.
  - exists false, EmptyString. reflexivity.
Qed.

(** The rules of lines 202-227 leave the sport alone. *)
Lemma player_override_sport text r r' :
  player_override text r = Ok r' -> sport r' = sport r.
Proof.
  destruct (player_override_run text r) as ([|] & q & ->); now intros [= <-].
Qed.

Lemma football_scorers_rule_sport text r : sport (football_scorers_rule text r) = sport r.
Proof. unfold football_scorers_rule. now destruct (_ && _). Qed.

Lemma f1_teams_rule_sport text r : sport (f1_teams_rule text r) = sport r.
Proof. unfold f1_teams_rule. now destruct (_ && _). Qed.

Lemma f1_drivers_rule_sport text r : sport (f1_drivers_rule text r) = sport r.
Proof. unfold f1_drivers_rule. now destruct (_ && _). Qed.

(** [parse_query] step by step: only the extraction of the parameters
    can raise. *)
Lemma parse_query_run text :
  exists r1 r2 r3 params,
    let t := normalize text in
    let r5 := f1_teams_rule t (football_scorers_rule t r3) in
    let r6 := f1_drivers_rule t r5 in
    detect_sport t (initial_result t) = Ok r1 /\
    detect_query_type t r1 = Ok r2 /\
    player_override t r2 = Ok r3 /\
    recognise t = Ok r5 /\
    parse_query text
    = if round_too_long t then Raise ValueError
      else Ok (add_parameter_bonus (set_parameters params r6)).
Proof.
  unfold parse_query, recognise.
  set (t := normalize text).
  rewrite detect_sport_run. cbn [bind]. rewrite detect_query_type_run. cbn [bind].
  set (r1 := with_choice _ set_sport _).
  set (r2 := with_choice _ set_query_type _).
  destruct (player_override_run t r2) as (b & q & Hp).
  set (r3 := if b then _ else r2) in Hp.
  destruct (extract_parameters_run t
              (sport (f1_drivers_rule t (f1_teams_rule t (football_scorers_rule t r3)))))
    as [params Hparams].
  exists r1, r2, r3, params. cbn zeta.
  rewrite Hp. cbn [bind]. rewrite Hparams.
  repeat split; auto using detect_sport_run, detect_query_type_run.
  now destruct (round_too_long t).
Qed.

Lemma parse_query_returns text r :
  parse_query text = Ok r -> round_too_long (normalize text) = false.
Proof.
  destruct (parse_query_run text) as (r1 & r2 & r3 & params & H).
  cbn zeta in H. destruct H as (_ & _ & _ & _ & ->).
  now destruct (round_too_long (normalize text)).
Qed.

Lemma parse_query_cases text :
  (round_too_long (normalize text) = true -> parse_query text = Raise ValueError) /\
  (round_too_long (normalize text) = false -> exists r, parse_query text = Ok r).
Proof.
  destruct (parse_query_run text) as (r1 & r2 & r3 & params & H).
  cbn zeta in H. destruct H as (_ & _ & _ & _ & ->).
  split; intros ->; eauto.
Qed.

(** *** Steps of the confidence *)

Lemma with_choice_conf c set r :
  (forall name x, confidence (set name x) = confidence x) ->
  step_add (3 # 10) (confidence r) (confidence (with_choice c set r)).
Proof.
  intros H. unfold with_choice, step_add. destruct c; simpl; auto.
Qed.

Lemma detect_sport_conf text r r' :
  detect_sport text r = Ok r' -> step_add (3 # 10) (confidence r) (confidence r').
Proof.
  rewrite detect_sport_run. intros H.
  assert (E : r' = with_choice (choice (scored lower sport_keywords text)) set_sport r)
    by congruence.
  rewrite E. now apply with_choice_conf.
Qed.

Lemma detect_query_type_conf text r r' :
  detect_query_type text r = Ok r' -> step_add (3 # 10) (confidence r) (confidence r').
Proof.
  rewrite detect_query_type_run. intros H.
  assert (E : r' = with_choice (choice (scored lower query_types text)) set_query_type r)
    by congruence.
  rewrite E. now apply with_choice_conf.
Qed.

Lemma player_override_conf text r r' :
  player_override text r = Ok r' -> step_max (8 # 10) (confidence r) (confidence r').
Proof.
  destruct (player_override_run text r) as ([|] & q & ->); intros [= <-];
    unfold step_max; simpl; auto.
Qed.

Lemma football_scorers_rule_conf text r :
  step_max (7 # 10) (confidence r) (confidence (football_scorers_rule text r)).
Proof. unfold football_scorers_rule, step_max. destruct (_ && _); simpl; auto. Qed.

Lemma f1_teams_rule_conf text r :
  step_max (9 # 10) (confidence r) (confidence (f1_teams_rule text r)).
Proof. unfold f1_teams_rule, step_max. destruct (_ && _); simpl; auto. Qed.

Lemma f1_drivers_rule_conf text r :
  step_max (9 # 10) (confidence r) (confidence (f1_drivers_rule text r)).
Proof. unfold f1_drivers_rule, step_max. destruct (_ && _); simpl; auto. Qed.

Lemma add_parameter_bonus_conf r :
  step_add (4 # 10) (confidence r) (confidence (add_parameter_bonus r)).
Proof.
  unfold add_parameter_bonus, step_add. destruct (parameters r); simpl; auto.
Qed.

(** The confidence after the seven steps, whichever of them fire. *)
Lemma confidence_chain c1 c2 c3 c4 c5 c6 c7 :
  step_add (3 # 10) 0 c1 -> step_add (3 # 10) c1 c2 ->
  step_max (8 # 10) c2 c3 -> step_max (7 # 10) c3 c4 ->
  step_max (9 # 10) c4 c5 -> step_max (9 # 10) c5 c6 ->
  step_add (4 # 10) c6 c7 ->
  (0 <= c7)%Q /\ (c7 <= 13 # 10)%Q.
Proof.
  unfold step_add, step_max.
  intros [->| ->] [->| ->] [->| ->] [->| ->] [->| ->] [->| ->] [->| ->];
    split; vm_compute; discriminate.
Qed.

Lemma max2_Qmax a b : (max2 a b == Qmax a b)%Q.
Proof.
  unfold max2. destruct (Qle_bool b a) eqn:E.
  - apply Qle_bool_iff in E. symmetry. now apply Q.max_l.
  - symmetry. apply Q.max_r. apply Qlt_le_weak. apply Qnot_le_lt.
    intros H. apply Qle_bool_iff in H. congruence.
Qed.

(** C9 (implicit confidence bound).  With the increments and the maxima
    taken as exact rationals, the confidence of every result that
    [parse_query] returns lies between 0 and 1.3; the text
    [2024年F1车手积分榜] reaches 1.3. *)
Theorem confidence_bounds :
  (forall text r,
      parse_query text = Ok r ->
      (0 <= confidence r)%Q /\ (confidence r <= 13 # 10)%Q) /\
  (exists text r, parse_query text = Ok r /\ (confidence r == 13 # 10)%Q).
Proof.
  split.
  - intros text r Hr.
    destruct (parse_query_run text) as (r1 & r2 & r3 & params & H).
    cbn zeta in H. destruct H as (H1 & H2 & H3 & _ & Hq).
    rewrite (parse_query_returns _ _ Hr) in Hq.
    assert (E : r = add_parameter_bonus
                      (set_parameters params
                         (f1_drivers_rule (normalize text)
                            (f1_teams_rule (normalize text)
                               (football_scorers_rule (normalize text) r3)))))
      by congruence.
    rewrite E.
    eapply confidence_chain.
    + apply (detect_sport_conf _ _ _ H1).
    + apply (detect_query_type_conf _ _ _ H2).
    + apply (player_override_conf _ _ _ H3).
    + apply football_scorers_rule_conf.
    + apply f1_teams_rule_conf.
    + apply f1_drivers_rule_conf.
    + apply (add_parameter_bonus_conf (set_parameters params _)).
  - exists "2024年F1车手积分榜". eexists. split; [vm_compute; reflexivity|].
    reflexivity.
Qed.


Lemma max_score_attained l :
  max_score l = 0%nat \/ exists p, In p l /\ snd p = max_score l.
Proof.
  unfold max_score. induction l as [|q l IH]; simpl; [now left|].
  destruct IH as [IH|(p & Hp & IH)].
  - rewrite IH. destruct (snd q) eqn:Eq; [now left|].
    right. exists q. split; [now left|]. lia.
  - destruct (Nat.le_gt_cases (snd q) (snd p)).
    + right. exists p. split; [now right|]. lia.
    + right. exists q. split; [now left|]. lia.
Qed.


Lemma no_keyword_count norm table text :
  (forall kw, norm kw = lower kw) ->
  no_keyword table text = true ->
  forall p, In p (scored norm table text) -> snd p = 0%nat.
Proof.
  intros Hnorm Hno p Hp. unfold scored in Hp. apply in_map_iff in Hp.
  destruct Hp as ([name kws] & <- & Hin). simpl.
  unfold no_keyword in Hno. rewrite forallb_forall in Hno.
  specialize (Hno _ Hin). simpl in Hno. rewrite forallb_forall in Hno.
  unfold count_keywords.
  replace (filter _ kws) with (@nil string); [reflexivity|].
  symmetry. clear Hin. induction kws as [|kw kws IH]; simpl; [reflexivity|].
  rewrite Hnorm.
  pose proof (Hno kw (or_introl eq_refl)) as Hkw. apply negb_true_iff in Hkw.
  rewrite Hkw. apply IH. intros x Hx. apply Hno. now right.
Qed.

Lemma no_keyword_choice table text :
  no_keyword table text = true -> choice (scored lower table text) = None.
Proof.
  intros Hno. unfold choice.
  replace (max_score (scored lower table text)) with 0%nat; [reflexivity|].
  destruct (max_score_attained (scored lower table text)) as [H|(p & Hp & H)];
    [congruence|].
  rewrite <- H. symmetry. now apply (no_keyword_count lower table text).
Qed.

(** C7 as stated does not hold: on a text that names a round of 4301
    digits [parse_query] raises.  The pattern of line 266 captures the
    digits and [int] refuses more than 4300 of them; nothing in
    [parse_query] catches the [ValueError]. *)
Lemma parse_query_total_counterexample :
  parse_query (long_round 4301) = Raise ValueError.
Proof. vm_compute. reflexivity. Qed.

(** C7, amended.  [parse_query] raises [ValueError] when the round that
    the normalized text names has more digits than [int] converts (4300),
    and returns a result on every other text, so on every text of at most
    4300 bytes.  When it returns, and no keyword of [sport_keywords] and
    none of [query_types] occurs in the normalized text and no parameter is
    extracted, the result has no sport, no query type, no parameter and
    confidence 0. *)
Theorem parse_query_total text :
  (round_too_long (normalize text) = true -> parse_query text = Raise ValueError) /\
  (round_too_long (normalize text) = false -> exists r, parse_query text = Ok r) /\
  ((Z.of_nat (String.length text) <= int_max_str_digits)%Z ->
   exists r, parse_query text = Ok r) /\
  (forall r,
     parse_query text = Ok r ->
     no_keyword sport_keywords (normalize text) = true ->
     no_keyword query_types (normalize text) = true ->
     _extract_parameters (normalize text) None = Ok [] ->
     sport r = None /\ query_type r = None /\ parameters r = [] /\
     confidence r = 0%Q).
Proof.
  destruct (parse_query_run text) as (r1 & r2 & r3 & params & H).
  cbn zeta in H. destruct H as (_ & _ & _ & _ & Hq).
  split; [|split; [|split]].
  - intros E. now rewrite Hq, E.
  - intros E. rewrite Hq, E. eauto.
  - intros Hlen. rewrite Hq, (short_text_round _ Hlen). eauto.
  - intros r Hr Hs Hqt Hp. revert Hr. unfold parse_query, recognise.
    rewrite detect_sport_run, (no_keyword_choice _ _ Hs). cbn [bind with_choice].
    rewrite detect_query_type_run, (no_keyword_choice _ _ Hqt). cbn [bind with_choice].
    cbn. rewrite Hp. cbn. intros [= <-]. repeat split; reflexivity.
Qed.

(** The theorem at [随便说点什么]. *)
Lemma parse_query_total_witness :
  exists r,
    parse_query "随便说点什么" = Ok r /\
    sport r = None /\ query_type r = None /\ parameters r = [] /\ confidence r = 0%Q.
Proof.
  destruct (parse_query_total "随便说点什么") as (_ & Hreturns & _ & Hunset).
  destruct (Hreturns eq_refl) as [r Hr].
  exists r. split; [exact Hr|].
  apply (Hunset r Hr); vm_compute; reflexivity.
Defined.

(** C5, amended.  When the sport detected is [f1] and the normalized text
    contains both [车手] and [积分榜], the result that [parse_query]
    returns has the query type [standings]; the rule raises the confidence
    [c] it finds to [max(c, 0.9)], and the confidence returned is that
    value plus 0.4 when a parameter was extracted, hence at least 0.9. *)
Theorem f1_drivers_standings_override text r0 r :
  recognise (normalize text) = Ok r0 ->
  sport r0 = Some "f1" ->
  contains "车手" (normalize text) = true ->
  contains "积分榜" (normalize text) = true ->
  parse_query text = Ok r ->
  sport r = Some "f1" /\
  query_type r = Some "standings" /\
  (confidence r == Qmax (confidence r0) (9 # 10) + parameter_bonus (parameters r))%Q /\
  (9 # 10 <= confidence r)%Q.
Proof.
  intros Hrec Hsport Hd Hs Hr.
  destruct (parse_query_run text) as (r1 & r2 & r3 & params & H).
  cbn zeta in H. destruct H as (_ & _ & _ & Hrec' & Hq).
  rewrite (parse_query_returns _ _ Hr), Hr in Hq.
  rewrite Hrec in Hrec'. injection Hrec' as E. rewrite <- E in Hq. clear E.
  assert (Hr6 : f1_drivers_rule (normalize text) r0
                = set_confidence (max2 (confidence r0) (9 # 10)%Q)
                    (set_query_type "standings" r0)).
  { unfold f1_drivers_rule, sport_is. rewrite Hsport, Hd, Hs. reflexivity. }
  rewrite Hr6 in Hq. injection Hq as ->.
  assert (Hconf : (confidence
            (add_parameter_bonus
               (set_parameters params
                  (set_confidence (max2 (confidence r0) (9 # 10)%Q)
                     (set_query_type "standings" r0))))
          == Qmax (confidence r0) (9 # 10) + parameter_bonus params)%Q).
  { unfold add_parameter_bonus, parameter_bonus. destruct params; simpl.
    - rewrite max2_Qmax. ring.
    - rewrite max2_Qmax. reflexivity. }
  assert (Hpar : forall x, parameters (add_parameter_bonus x) = parameters x).
  { intros x. unfold add_parameter_bonus.
    destruct (parameters x) eqn:E; simpl; congruence. }
  split; [|split; [|split]].
  - unfold add_parameter_bonus. destruct params; simpl; exact Hsport.
  - unfold add_parameter_bonus. destruct params; reflexivity.
  - rewrite Hpar. exact Hconf.
  - rewrite Hconf.
    assert (9 # 10 <= Qmax (confidence r0) (9 # 10))%Q by apply Q.le_max_r.
    assert (0 <= parameter_bonus params)%Q.
    { unfold parameter_bonus. destruct params; vm_compute; discriminate. }
    rewrite <- (Qplus_0_r (9 # 10)). now apply Qplus_le_compat.
Qed.

(** The theorem at [查询F1车手积分榜]: sport [f1], query type [standings],
    confidence 0.9. *)
Lemma f1_drivers_standings_override_witness :
  exists r,
    parse_query "查询F1车手积分榜" = Ok r /\
    sport r = Some "f1" /\
    query_type r = Some "standings" /\
    (confidence r == 9 # 10)%Q /\
    (9 # 10 <= confidence r)%Q.
Proof.
  assert (Hr : parse_query "查询F1车手积分榜"
               = Ok (mkResult (Some "f1") (Some "standings") [] (9 # 10)%Q
                       "查询f1车手积分榜")) by (vm_compute; reflexivity).
  destruct (f1_drivers_standings_override "查询F1车手积分榜"
              (mkResult (Some "f1") (Some "standings") [] (60 # 100)%Q "查询f1车手积分榜")
              _ eq_refl eq_refl eq_refl eq_refl Hr)
    as (Hs & Ht & Hc & Hb).
  eexists. split; [exact Hr|]. split; [exact Hs|]. split; [exact Ht|].
  split; [|exact Hb]. rewrite Hc. reflexivity.
Defined.

(** C5 as stated does not hold: on [2024年F1车手积分榜] the rule applies,
    yet the confidence returned is not [max(c, 0.9)] (it is 1.3, the year
    having been extracted). *)
Lemma f1_drivers_standings_counterexample :
  exists r0 r,
    recognise (normalize "2024年F1车手积分榜") = Ok r0 /\
    sport r0 = Some "f1" /\
    contains "车手" (normalize "2024年F1车手积分榜") = true /\
    contains "积分榜" (normalize "2024年F1车手积分榜") = true /\
    parse_query "2024年F1车手积分榜" = Ok r /\
    query_type r = Some "standings" /\
    ~ (confidence r == Qmax (confidence r0) (9 # 10))%Q.
Proof.
  eexists. eexists.
  split; [vm_compute; reflexivity|].
  split; [reflexivity|].
  split; [vm_compute; reflexivity|].
  split; [vm_compute; reflexivity|].
  split; [vm_compute; reflexivity|].
  split; [reflexivity|].
  vm_compute. discriminate.
Qed.

End ParserFacts.

(* ================================================================== *)
(** ** Facts about the cache *)
(* ================================================================== *)

Module CacheFacts.
Import Py PySpec PyFacts QueryCache CacheSpec.

(** *** Closed forms of the methods *)

Lemma save_cache_run now st : _save_cache now st = (Ok tt, stamped now st).
Proof.
  unfold _save_cache, stamped, try_except, bindM, get, lift, put, ret, dict_getitem.
  destruct (dict_get "metadata" st) as [[| | | | |md]|]; reflexivity.
Qed.

Lemma stamped_other now st d :
  d <> "metadata" -> dict_get d (stamped now st) = dict_get d st.
Proof.
  intros Hd. unfold stamped.
  destruct (dict_get "metadata" st) as [[| | | | |md]|]; try reflexivity.
  apply dict_get_set_neq. congruence.
Qed.

Lemma generate_cache_key_expected query_type parameters :
  _generate_cache_key query_type parameters = expected_key query_type parameters.
Proof.
  unfold _generate_cache_key, expected_key, key_params, fragment. cbn [fold_left flat_map].
  destruct (dict_get "league_id" parameters), (dict_get "team" parameters),
    (dict_get "year" parameters), (dict_get "round" parameters); reflexivity.
Qed.

(** [store_query_result] in closed form. *)
Lemma store_query_result_run sport query_type parameters result_data text now now_save st :
  let key := _generate_cache_key query_type parameters in
  let entry := make_entry query_type parameters result_data text now in
  store_query_result sport query_type parameters result_data text now now_save st
  = match dict_get sport st with
    | None =>
        (Ok (Some key), stamped now_save (with_domain sport [(key, entry)] st))
    | Some (PDict m) =>
        (Ok (Some key), stamped now_save (with_domain sport (dict_set key entry m) st))
    | Some _ => (Ok None, st)
    end.
Proof.
  cbn zeta.
  unfold store_query_result, try_except, bindM, get, lift, put, ret, with_domain.
  unfold dict_mem, dict_getitem.
  destruct (dict_get sport st) as [slot|] eqn:E; cbn [negb].
  - rewrite E. destruct slot; cbn [py_setitem]; try reflexivity.
    now rewrite save_cache_run.
  - rewrite dict_get_set_eq. cbn [py_setitem dict_set].
    rewrite dict_set_set. now rewrite save_cache_run.
Qed.

Lemma get_query_result_run st sport cache_key :
  get_query_result st sport cache_key
  = match dict_get sport st with
    | Some (PDict m) => dict_get cache_key m
    | _ => None
    end.
Proof.
  unfold get_query_result, dict_mem, dict_getitem.
  destruct (dict_get sport st) as [slot|]; [|reflexivity]. cbn [bind].
  destruct slot as [| | |s|l|d]; cbn [py_contains bind py_getitem]; try reflexivity.
  - destruct (contains cache_key s); reflexivity.
  - destruct (existsb _ l); reflexivity.
  - unfold dict_mem, dict_getitem.
    destruct (dict_get cache_key d); reflexivity.
Qed.

(** C1 (cache-key determinism).  The key [store_query_result] returns is
    the query type followed by the fragment [name_value] of each of
    [league_id], [team], [year], [round] present in the parameters, in that
    order, joined by [_]; and the same parameters inserted in another order
    give the same key. *)
Theorem cache_key_deterministic sport query_type p1 result_data text now now_save st k :
  fst (store_query_result sport query_type p1 result_data text now now_save st)
    = Ok (Some k) ->
  k = expected_key query_type p1 /\
  (forall p2, dict_wf p1 -> Permutation p1 p2 ->
     fst (store_query_result sport query_type p2 result_data text now now_save st)
       = Ok (Some k)).
Proof.
  pose proof (store_query_result_run sport query_type p1 result_data text now now_save st)
    as H1.
  cbn zeta in H1. rewrite H1. clear H1. intros Hk.
  assert (Ek : k = _generate_cache_key query_type p1).
  { destruct (dict_get sport st) as [[| | | | |m]|]; cbn [fst] in Hk;
      try discriminate; congruence. }
  split; [rewrite Ek; apply generate_cache_key_expected|].
  intros p2 Hwf Hperm.
  assert (Hkey : _generate_cache_key query_type p2 = _generate_cache_key query_type p1).
  { rewrite !generate_cache_key_expected. unfold expected_key, fragment.
    cbn [flat_map].
    now rewrite !(dict_get_perm _ p1 p2 Hwf Hperm). }
  pose proof (store_query_result_run sport query_type p2 result_data text now now_save st)
    as H2.
  cbn zeta in H2. rewrite H2, Hkey, <- Ek. clear H2.
  destruct (dict_get sport st) as [[| | | | |m]|]; cbn [fst] in *;
    try discriminate; reflexivity.
Qed.

(** The theorem at the parameters [league_id: 2021, year: 2024], stored and
    then given in the other order. *)
Lemma cache_key_deterministic_witness :
  "standings_league_id_2021_year_2024"
    = expected_key "standings" [("league_id", PInt 2021); ("year", PInt 2024)] /\
  fst (store_query_result "football" "standings"
         [("year", PInt 2024); ("league_id", PInt 2021)]
         [("success", PBool true)] "英超积分榜" "2024-05-01T12:30:00" "2024-05-01T12:30:01"
         (empty_cache "2024-01-01T00:00:00"))
    = Ok (Some "standings_league_id_2021_year_2024").
Proof.
  destruct (cache_key_deterministic "football" "standings"
              [("league_id", PInt 2021); ("year", PInt 2024)]
              [("success", PBool true)] "英超积分榜" "2024-05-01T12:30:00"
              "2024-05-01T12:30:01" (empty_cache "2024-01-01T00:00:00")
              "standings_league_id_2021_year_2024") as [Hk Hp].
  - vm_compute. reflexivity.
  - split; [exact Hk|]. apply Hp.
    + unfold dict_wf, keys. simpl. repeat constructor; simpl; intuition discriminate.
    + apply perm_swap.
Defined.

(** C2 as stated does not hold for every domain and query type: stored
    under the name [metadata] with the query type [last_updated] and no
    parameter, the entry lands on the field that [_save_cache] stamps; the
    key is returned, and the lookup gives the stamp, not the entry. *)
Lemma store_get_roundtrip_counterexample :
  exists st',
    store_query_result "metadata" "last_updated" [] [("success", PBool true)]
      "x" "2024-05-01T12:30:00" "2024-05-01T12:30:01" (empty_cache "2024-01-01T00:00:00")
    = (Ok (Some "last_updated"), st') /\
    get_query_result st' "metadata" "last_updated" = Some (PStr "2024-05-01T12:30:01") /\
    ~ (exists entry,
         get_query_result st' "metadata" "last_updated" = Some (PDict entry) /\
         dict_get "result_data" entry = Some (PDict [("success", PBool true)])).
Proof.
  eexists. split; [vm_compute; reflexivity|]. split; [vm_compute; reflexivity|].
  intros (entry & H & _). vm_compute in H. discriminate.
Qed.

(** C2, amended.  Unless the domain is [metadata] and the key is
    [last_updated], when [store_query_result] returns the key [k] the
    lookup of [k] in that domain right afterwards returns the entry, whose
    [result_data], [parameters] and [original_text] are the ones stored and
    whose [timestamp] is the one the store read from the clock. *)
Theorem store_get_roundtrip sport query_type parameters result_data text now now_save st st' k :
  ~ (sport = "metadata" /\ k = "last_updated") ->
  store_query_result sport query_type parameters result_data text now now_save st
    = (Ok (Some k), st') ->
  exists entry,
    get_query_result st' sport k = Some (PDict entry) /\
    dict_get "result_data" entry = Some (PDict result_data) /\
    dict_get "parameters" entry = Some (PDict parameters) /\
    dict_get "original_text" entry = Some (PStr text) /\
    dict_get "timestamp" entry = Some (PStr now).
Proof.
  intros Hcorner.
  pose proof (store_query_result_run sport query_type parameters result_data text
                now now_save st) as H.
  cbn zeta in H. rewrite H. clear H.
  set (key := _generate_cache_key query_type parameters).
  set (entry := make_entry query_type parameters result_data text now).
  assert (G : forall m, key = k ->
    get_query_result (stamped now_save (with_domain sport (dict_set key entry m) st))
      sport key = Some entry).
  { intros m Hk. rewrite get_query_result_run.
    destruct (String.eqb_spec sport "metadata") as [->|Hne].
    - unfold stamped, with_domain. rewrite dict_get_set_eq, dict_get_set_eq.
      rewrite dict_get_set_neq; [apply dict_get_set_eq|].
      intros E. apply Hcorner. split; congruence.
    - rewrite stamped_other by exact Hne.
      unfold with_domain. rewrite dict_get_set_eq. apply dict_get_set_eq. }
  destruct (dict_get sport st) as [[| | | | |m]|]; try discriminate;
    intros [= Hk <-]; exists [ ("query_type", PStr query_type);
      ("parameters", PDict parameters);
      ("result_data", PDict result_data);
      ("original_text", PStr text);
      ("timestamp", PStr now);
      ("success",
       match dict_get "success" result_data with
       | Some v => v
       | None => PBool false
       end) ]; rewrite <- Hk.
  - split; [apply (G m Hk)|]. repeat split.
  - split; [apply (G [] Hk)|]. repeat split.
Qed.

(** The theorem at a football standings entry stored in a new cache. *)
Lemma store_get_roundtrip_witness :
  exists entry,
    get_query_result
      (snd (store_query_result "football" "standings" [("league_id", PInt 2021)]
              [("success", PBool true)] "英超积分榜" "2024-05-01T12:30:00"
              "2024-05-01T12:30:01" (empty_cache "2024-01-01T00:00:00")))
      "football" "standings_league_id_2021" = Some (PDict entry) /\
    dict_get "result_data" entry = Some (PDict [("success", PBool true)]) /\
    dict_get "parameters" entry = Some (PDict [("league_id", PInt 2021)]) /\
    dict_get "original_text" entry = Some (PStr "英超积分榜") /\
    dict_get "timestamp" entry = Some (PStr "2024-05-01T12:30:00").
Proof.
  apply (store_get_roundtrip "football" "standings" [("league_id", PInt 2021)]
           [("success", PBool true)] "英超积分榜" "2024-05-01T12:30:00"
           "2024-05-01T12:30:01" (empty_cache "2024-01-01T00:00:00")).
  - intros [H _]. discriminate.
  - vm_compute. reflexivity.
Defined.

(** C10 as stated does not hold for every domain string: when the store
    holds under the name a value that is not a mapping (a list, which only
    a cache file edited by hand gives), the item assignment of line 131
    raises, the handler returns [None], and nothing is stored. *)
Lemma store_creates_namespace_counterexample :
  let st := dict_set "tennis" (PList []) (empty_cache "2024-01-01T00:00:00") in
  store_query_result "tennis" "schedule" [("year", PInt 2024)] [("success", PBool true)]
    "网球赛程" "2024-05-01T12:30:00" "2024-05-01T12:30:01" st
  = (Ok None, st).
Proof. vm_compute. reflexivity. Qed.

(** C10, amended.  For every domain name whose slot, when the store has
    one, is a mapping, and in particular for a name the store does not
    have, [store_query_result] does not fail: it returns the computed key,
    and the store it leaves is the one where the domain holds its former
    mapping (an empty one when it had none) with the entry set under the
    key, stamped by [_save_cache].  The entry holds the query type, the
    parameters, the result, the text, the time of the store and the
    [success] flag of the result ([False] when it has none).  It is found
    under the key afterwards, unless the domain is [metadata] and the key
    [last_updated], which the stamp overwrites. *)
Theorem store_creates_namespace sport query_type parameters result_data text now now_save st :
  (forall slot, dict_get sport st = Some slot -> exists m, slot = PDict m) ->
  let key := _generate_cache_key query_type parameters in
  let entry :=
    PDict [ ("query_type", PStr query_type);
            ("parameters", PDict parameters);
            ("result_data", PDict result_data);
            ("original_text", PStr text);
            ("timestamp", PStr now);
            ("success",
             match dict_get "success" result_data with
             | Some flag => flag
             | None => PBool false
             end) ] in
  let inserted :=
    with_domain sport (dict_set key entry (mapping_or_empty sport st)) st in
  store_query_result sport query_type parameters result_data text now now_save st
    = (Ok (Some key), stamped now_save inserted) /\
  get_query_result inserted sport key = Some entry /\
  (dict_get sport st = None -> dict_get sport inserted = Some (PDict [(key, entry)])) /\
  (~ (sport = "metadata" /\ key = "last_updated") ->
   get_query_result (stamped now_save inserted) sport key = Some entry).
Proof.
  intros Hslot. cbn zeta.
  pose proof (store_query_result_run sport query_type parameters result_data text
                now now_save st) as H.
  cbn zeta in H. rewrite H. clear H.
  unfold mapping_or_empty, with_domain.
  split; [|split; [|split]].
  - destruct (dict_get sport st) as [slot|] eqn:E; [|reflexivity].
    destruct (Hslot slot eq_refl) as [m ->]. reflexivity.
  - rewrite get_query_result_run, dict_get_set_eq. apply dict_get_set_eq.
  - intros ->. now rewrite dict_get_set_eq.
  - intros Hcorner. rewrite get_query_result_run.
    destruct (String.eqb_spec sport "metadata") as [->|Hne].
    + unfold stamped. rewrite dict_get_set_eq, dict_get_set_eq.
      rewrite dict_get_set_neq; [apply dict_get_set_eq|].
      intros E. apply Hcorner. split; congruence.
    + rewrite stamped_other by exact Hne.
      rewrite dict_get_set_eq. apply dict_get_set_eq.
Qed.

(** The theorem at the domain [tennis], which a new cache does not have. *)
Lemma store_creates_namespace_witness :
  let entry :=
    PDict [ ("query_type", PStr "schedule");
            ("parameters", PDict [("year", PInt 2024)]);
            ("result_data", PDict [("success", PBool true)]);
            ("original_text", PStr "网球赛程");
            ("timestamp", PStr "2024-05-01T12:30:00");
            ("success", PBool true) ] in
  let st' :=
    stamped "2024-05-01T12:30:01"
      (with_domain "tennis" [("schedule_year_2024", entry)]
         (empty_cache "2024-01-01T00:00:00")) in
  store_query_result "tennis" "schedule" [("year", PInt 2024)] [("success", PBool true)]
    "网球赛程" "2024-05-01T12:30:00" "2024-05-01T12:30:01" (empty_cache "2024-01-01T00:00:00")
  = (Ok (Some "schedule_year_2024"), st') /\
  get_query_result st' "tennis" "schedule_year_2024" = Some entry.
Proof.
  cbn zeta.
  destruct (store_creates_namespace "tennis" "schedule" [("year", PInt 2024)]
              [("success", PBool true)] "网球赛程" "2024-05-01T12:30:00"
              "2024-05-01T12:30:01" (empty_cache "2024-01-01T00:00:00"))
    as (Hstore & _ & _ & Hfound).
  - intros slot H. vm_compute in H. discriminate.
  - split; [exact Hstore|]. apply Hfound. intros [H _]. discriminate.
Defined.

(** *** clear_cache *)

Lemma keys_dict_set_present {A} k (v v' : A) d :
  dict_get k d = Some v' -> keys (dict_set k v d) = keys d.
Proof.
  unfold keys. induction d as [|[k0 v0] d IH]; simpl; [discriminate|].
  destruct (String.eqb k k0) eqn:E; simpl.
  - apply String.eqb_eq in E. now subst.
  - intros H. now rewrite IH.
Qed.

Lemma keys_stamped now st : keys (stamped now st) = keys st.
Proof.
  unfold stamped. destruct (dict_get "metadata" st) as [[| | | | |md]|] eqn:E;
    try reflexivity.
  now apply (keys_dict_set_present _ _ (PDict md)).
Qed.

Lemma clear_cache_run sport now now_save st :
  clear_cache sport now now_save st
  = (Ok tt,
     stamped now_save
       match sport with
       | Some (String c s) =>
           if dict_mem (String c s) st then with_domain (String c s) [] st else st
       | _ => empty_cache now
       end).
Proof.
  unfold clear_cache, try_except, bindM, get, put, ret, with_domain.
  destruct sport as [[|c s]|]; try now rewrite save_cache_run.
  destruct (dict_mem (String c s) st); now rewrite save_cache_run.
Qed.

(** C8 as stated does not hold for every domain present in the store: in
    [ex_store], which [store_query_result] wrote, the empty name is a
    domain; clearing it takes the branch that clears everything, so the
    empty name is gone and the entry of [f1] with it. *)
Lemma clear_domain_counterexample :
  dict_mem EmptyString ex_store = true /\
  dict_get EmptyString
    (snd (clear_cache (Some EmptyString) "2024-05-01T12:30:00" "2024-05-01T12:30:01"
            ex_store)) = None /\
  dict_get "f1"
    (snd (clear_cache (Some EmptyString) "2024-05-01T12:30:00" "2024-05-01T12:30:01"
            ex_store)) = Some (PDict []) /\
  dict_get "f1"
    (snd (clear_cache (Some EmptyString) "2024-05-01T12:30:00" "2024-05-01T12:30:01"
            ex_store)) <> dict_get "f1" ex_store.
Proof.
  repeat split; try (vm_compute; reflexivity).
  vm_compute. discriminate.
Qed.

(** C8, amended.  For every store and every non-empty name present in it,
    other than that of the metadata record, [clear_cache] with that name
    leaves the name with an empty mapping and every other domain as it
    was, adds and removes no name; a second call right afterwards changes
    no domain (the metadata record alone receives a new stamp). *)
Theorem clear_domain_framed_idempotent sport now now_save now2 now_save2 st :
  sport <> EmptyString -> sport <> "metadata" ->
  dict_mem sport st = true ->
  let st1 := snd (clear_cache (Some sport) now now_save st) in
  let st2 := snd (clear_cache (Some sport) now2 now_save2 st1) in
  dict_get sport st1 = Some (PDict []) /\
  (forall d, d <> sport -> d <> "metadata" -> dict_get d st1 = dict_get d st) /\
  keys st1 = keys st /\
  (forall d, d <> "metadata" -> dict_get d st2 = dict_get d st1) /\
  keys st2 = keys st1.
Proof.
  intros Hne Hmeta Hmem. cbn zeta. rewrite !clear_cache_run. cbn [snd].
  destruct sport as [|c s]; [congruence|].
  rewrite Hmem.
  assert (H1 : dict_get (String c s) (stamped now_save (with_domain (String c s) [] st))
               = Some (PDict [])).
  { rewrite stamped_other by exact Hmeta. apply dict_get_set_eq. }
  assert (Hmem1 : dict_mem (String c s) (stamped now_save (with_domain (String c s) [] st))
                  = true).
  { apply dict_mem_true. eauto. }
  rewrite Hmem1.
  apply dict_mem_true in Hmem. destruct Hmem as [slot Hslot].
  split; [exact H1|]. split; [|split; [|split]].
  - intros d Hd Hdm. rewrite stamped_other by exact Hdm.
    unfold with_domain. apply dict_get_set_neq. congruence.
  - rewrite keys_stamped. unfold with_domain.
    now apply (keys_dict_set_present _ _ slot).
  - intros d Hdm. rewrite stamped_other by exact Hdm.
    unfold with_domain. rewrite dict_set_same; [reflexivity | exact H1].
  - rewrite keys_stamped. unfold with_domain at 1.
    now rewrite (dict_set_same _ _ _ H1).
Qed.

(** The theorem at the domain [f1] of a store with two entries. *)
Lemma clear_domain_framed_idempotent_witness :
  let st :=
    [ ("f1", PDict [("standings", PDict [("query_type", PStr "standings")])]);
      ("football", PDict [("schedule", PDict [("query_type", PStr "schedule")])]);
      ("nba", PDict []);
      ("metadata", PDict [("last_updated", PStr "2024-01-01T00:00:00");
                          ("version", PStr "1.0")]) ] in
  let st1 := snd (clear_cache (Some "f1") "2024-05-01T12:30:00" "2024-05-01T12:30:01" st) in
  let st2 := snd (clear_cache (Some "f1") "2024-05-01T12:31:00" "2024-05-01T12:31:01" st1) in
  dict_get "f1" st1 = Some (PDict []) /\
  (forall d, d <> "f1" -> d <> "metadata" -> dict_get d st1 = dict_get d st) /\
  keys st1 = keys st /\
  (forall d, d <> "metadata" -> dict_get d st2 = dict_get d st1) /\
  keys st2 = keys st1.
Proof.
  cbn zeta.
  apply (clear_domain_framed_idempotent "f1" "2024-05-01T12:30:00" "2024-05-01T12:30:01"
           "2024-05-01T12:31:00" "2024-05-01T12:31:01").
  - discriminate.
  - discriminate.
  - reflexivity.
Defined.

(** *** Loading and expiry *)

Lemma filter_filter {A} (p q : A -> bool) l :
  filter p (filter q l) = filter (fun x => q x && p x) l.
Proof.
  induction l as [|x l IH]; simpl; [reflexivity|].
  destruct (q x); simpl; [destruct (p x)|]; now rewrite IH.
Qed.

Lemma dict_wf_filter {A} (p : string * A -> bool) (d : dict A) :
  dict_wf d -> dict_wf (filter p d).
Proof.
  unfold dict_wf, keys. induction d as [|kv d IH]; simpl; intros H; [constructor|].
  inversion H as [|? ? Hnotin Hnd]; subst.
  destruct (p kv); simpl; auto. constructor; auto.
  intros Hin. apply Hnotin. apply in_map_iff in Hin.
  destruct Hin as (x & Hx & Hin). apply filter_In in Hin.
  rewrite <- Hx. apply in_map. tauto.
Qed.

Lemma NoDup_keys_filter {A} (p : string * A -> bool) (d : dict A) :
  dict_wf d -> NoDup (map fst (filter p d)).
Proof. apply dict_wf_filter. Qed.

Lemma among_In ks k : among ks k = true <-> In k ks.
Proof.
  unfold among. rewrite existsb_exists. split.
  - intros (x & Hx & E). apply String.eqb_eq in E. now subst.
  - intros H. exists k. split; [exact H | apply String.eqb_refl].
Qed.

Lemma bindM_run {S A B} (m : M S A) (f : A -> M S B) s :
  bindM m f s
  = match m s with
    | (Ok a, s') => f a s'
    | (Raise e, s') => (Raise e, s')
    end.
Proof. reflexivity. Qed.

Lemma bindM_get {S A} (f : S -> M S A) s : bindM get f s = f s s.
Proof. reflexivity. Qed.

Section LoadingFacts.
Variable fromisoformat : string -> option datetime.

(** The second loop of lines 96-98 deletes the collected keys. *)
Lemma delete_keys_run sport ks : forall data cur,
  dict_get sport data = Some (PDict cur) ->
  dict_wf cur -> NoDup ks -> (forall k, In k ks -> In k (keys cur)) ->
  for_each ks (fun key =>
      data <~ get ;;
      slot <~ lift (dict_getitem sport data) ;;
      slot <~ lift (py_delitem slot key) ;;
      put (dict_set sport slot data)) data
  = (Ok tt,
     dict_set sport (PDict (filter (fun kv => negb (among ks (fst kv))) cur)) data).
Proof.
  induction ks as [|k ks IH]; intros data cur Hget Hwf Hnd Hsub.
  - cbn [for_each ret]. rewrite filter_all by reflexivity.
    now rewrite (dict_set_same _ _ _ Hget).
  - cbn [for_each]. unfold bindM at 1. unfold bindM at 1, get at 1.
    unfold bindM at 1, lift at 1, dict_getitem. rewrite Hget.
    unfold bindM at 1, lift at 1. cbn [py_delitem]. unfold dict_del.
    assert (Hk : dict_mem k cur = true).
    { apply dict_mem_true.
      destruct (dict_get k cur) eqn:E; eauto.
      apply dict_get_None in E. exfalso. apply E, Hsub. now left. }
    rewrite Hk. cbn [bind]. unfold put at 1.
    inversion Hnd as [|? ? Hnotin Hnd']; subst.
    rewrite (IH _ (dict_remove k cur)).
    + rewrite dict_set_set. rewrite (dict_remove_filter k cur Hwf), filter_filter.
      f_equal. f_equal. f_equal. apply filter_ext. intros [k0 v0]. simpl.
      rewrite (String.eqb_sym k0 k). now rewrite negb_orb.
    + apply dict_get_set_eq.
    + rewrite (dict_remove_filter k cur Hwf). now apply dict_wf_filter.
    + exact Hnd'.
    + intros k' Hk'. rewrite (dict_remove_filter k cur Hwf).
      unfold keys. apply in_map_iff.
      specialize (Hsub k' (or_intror Hk')). unfold keys in Hsub.
      apply in_map_iff in Hsub. destruct Hsub as ([k0 v0] & E & Hin). simpl in E. subst k0.
      exists (k', v0). split; [reflexivity|]. apply filter_In. split; [exact Hin|].
      simpl. apply negb_true_iff. apply String.eqb_neq. intros ->. contradiction.
Qed.

Lemma expired_keys_filter cutoff (m : dict pyval) :
  dict_wf m ->
  filter (fun kv => negb (among (map fst (filter (fun kv => is_expired fromisoformat cutoff (snd kv)) m)) (fst kv))) m
  = filter (fun kv => negb (is_expired fromisoformat cutoff (snd kv))) m.
Proof.
  intros Hwf. apply filter_ext_in. intros [k v] Hin. simpl. f_equal.
  destruct (is_expired fromisoformat cutoff v) eqn:E.
  - apply among_In. apply in_map_iff. exists (k, v). split; [reflexivity|].
    apply filter_In. split; [exact Hin | exact E].
  - destruct (among _ k) eqn:Ea; [|reflexivity].
    apply among_In in Ea. apply in_map_iff in Ea.
    destruct Ea as ([k' v'] & Ek & Hin'). simpl in Ek. subst k'.
    apply filter_In in Hin'. destruct Hin' as [Hin' E']. simpl in E'.
    assert (v' = v).
    { pose proof (In_dict_get k v m Hwf Hin) as H1.
      pose proof (In_dict_get k v' m Hwf Hin') as H2. congruence. }
    subst v'. congruence.
Qed.

Lemma clean_sports_run cutoff l : forall data,
  (forall s, In s l -> slot_ok data s) ->
  for_each l (fun sport =>
      data <~ get ;;
      if dict_mem sport data then
        slot <~ lift (dict_getitem sport data) ;;
        items <~ lift (py_items slot) ;;
        let expired_keys :=
          map fst (filter (fun kv => is_expired fromisoformat cutoff (snd kv)) items) in
        for_each expired_keys (fun key =>
          data <~ get ;;
          slot <~ lift (dict_getitem sport data) ;;
          slot <~ lift (py_delitem slot key) ;;
          put (dict_set sport slot data))
      else ret tt) data
  = (Ok tt, fold_left (fun d s => clean_domain fromisoformat cutoff s d) l data).
Proof.
  induction l as [|s l IH]; intros data Hok; [reflexivity|].
  cbn [for_each fold_left]. rewrite bindM_run, bindM_get.
  assert (Hstep :
    (if dict_mem s data then
        slot <~ lift (dict_getitem s data) ;;
        items <~ lift (py_items slot) ;;
        let expired_keys :=
          map fst (filter (fun kv => is_expired fromisoformat cutoff (snd kv)) items) in
        for_each expired_keys (fun key =>
          data <~ get ;;
          slot <~ lift (dict_getitem s data) ;;
          slot <~ lift (py_delitem slot key) ;;
          put (dict_set s slot data))
      else ret tt) data = (Ok tt, clean_domain fromisoformat cutoff s data)).
  { unfold clean_domain, dict_mem, dict_getitem.
    destruct (dict_get s data) as [slot|] eqn:E; [|reflexivity].
    destruct (Hok s (or_introl eq_refl) slot E) as (m & -> & Hwf).
    unfold bindM at 1, lift at 1. unfold bindM at 1, lift at 1. cbn [py_items].
    cbn zeta. rewrite (delete_keys_run s _ data m E Hwf).
    - now rewrite expired_keys_filter.
    - now apply NoDup_keys_filter.
    - intros k Hk. unfold keys. apply in_map_iff in Hk.
      destruct Hk as (kv & <- & Hin). apply filter_In in Hin. apply in_map. tauto. }
  cbv beta zeta in Hstep |- *. rewrite Hstep. apply IH.
  intros s' Hs' slot Hslot. unfold clean_domain in Hslot.
  destruct (dict_get s data) as [[| | | | |m]|] eqn:E;
    try (apply (Hok s' (or_intror Hs') slot Hslot)).
  destruct (String.eqb_spec s s') as [<-|Hne].
  - rewrite dict_get_set_eq in Hslot. injection Hslot as <-.
    destruct (Hok s (or_introl eq_refl) _ E) as (m0 & [= <-] & Hwf).
    eexists. split; [reflexivity|]. now apply dict_wf_filter.
  - rewrite dict_get_set_neq in Hslot by exact Hne.
    apply (Hok s' (or_intror Hs') slot Hslot).
Qed.

Lemma clean_expired_data_run now days data :
  (forall s, In s sports -> slot_ok data s) ->
  _clean_expired_data fromisoformat now days data
  = (Ok tt, fold_left (fun d s => clean_domain fromisoformat (minus_days now days) s d) sports data).
Proof.
  intros Hok. unfold _clean_expired_data, try_except.
  pose proof (clean_sports_run (minus_days now days) sports data Hok) as H.
  cbv beta zeta in H |- *. now rewrite H.
Qed.

Lemma verdict_is_expired now days v b :
  verdict fromisoformat now days v b -> is_expired fromisoformat (minus_days now days) v = b.
Proof.
  unfold is_expired, dict_mem, dict_getitem.
  destruct 1 as [v Hv|e He|e ts He Hts|e s t He Hs Ht|e s t He Hs Ht Hlt|e s t He Hs Ht Hle].
  - destruct v; try reflexivity. now destruct (Hv d).
  - now rewrite He.
  - rewrite He. cbn [bind]. destruct (py_fromisoformat fromisoformat ts) eqn:E.
    + now destruct (Hts a).
    + reflexivity.
  - rewrite He. cbn [bind py_fromisoformat]. rewrite Hs. cbn [bind].
    unfold dt_lt, minus_days. cbn [aware micros].
    destruct (Bool.eqb (aware t) (aware now)) eqn:E; [|reflexivity].
    apply Bool.eqb_prop in E. contradiction.
  - rewrite He. cbn [bind py_fromisoformat]. rewrite Hs. cbn [bind].
    unfold dt_lt, minus_days. cbn [aware micros].
    rewrite Ht, Bool.eqb_reflx. now apply Z.ltb_lt.
  - rewrite He. cbn [bind py_fromisoformat]. rewrite Hs. cbn [bind].
    unfold dt_lt, minus_days. cbn [aware micros].
    rewrite Ht, Bool.eqb_reflx. now apply Z.ltb_ge.
Qed.

(** Every value falls under one of the cases. *)
Lemma verdict_total now days v : exists b, verdict fromisoformat now days v b.
Proof.
  destruct v as [| | | | |e];
    try (exists false; apply kept_not_a_mapping; intros e; discriminate).
  destruct (dict_get "timestamp" e) as [ts|] eqn:He;
    [|exists false; now apply kept_without_timestamp].
  destruct (py_fromisoformat fromisoformat ts) as [t|x] eqn:Ep.
  - assert (exists s, ts = PStr s /\ fromisoformat s = Some t) as (s & -> & Hs).
    { destruct ts; try discriminate. simpl in Ep.
      destruct (fromisoformat s) eqn:E; [|discriminate]. exists s. split; congruence. }
    destruct (Bool.bool_dec (aware t) (aware now)) as [Ha|Ha].
    + destruct (Z_lt_dec (micros t) (micros now - days * 86400000000)).
      * exists true. eapply removed_older; eauto.
      * exists false. eapply kept_not_older; eauto. lia.
    + exists true. eapply removed_incomparable; eauto.
  - exists true. eapply removed_unreadable; eauto. intros t. congruence.
Qed.

Lemma clean_domain_other cutoff s s' data :
  s <> s' -> dict_get s (clean_domain fromisoformat cutoff s' data) = dict_get s data.
Proof.
  intros Hne. unfold clean_domain.
  destruct (dict_get s' data) as [[| | | | |m]|]; try reflexivity.
  apply dict_get_set_neq. congruence.
Qed.

Lemma clean_domain_same cutoff s data m :
  dict_get s data = Some (PDict m) ->
  dict_get s (clean_domain fromisoformat cutoff s data)
  = Some (PDict (filter (fun kv => negb (is_expired fromisoformat cutoff (snd kv))) m)).
Proof.
  intros H. unfold clean_domain. rewrite H. apply dict_get_set_eq.
Qed.

Lemma load_cache_domain data now now_iso sport m :
  (forall s, In s sports -> slot_ok data s) ->
  In sport sports ->
  dict_get sport data = Some (PDict m) ->
  dict_get sport (_load_cache fromisoformat (Some (Ok data)) now now_iso)
  = Some (PDict (filter
       (fun kv => negb (is_expired fromisoformat (minus_days now 7) (snd kv))) m)).
Proof.
  intros Hok Hin Hget. unfold _load_cache.
  rewrite (clean_expired_data_run now 7 data Hok). cbn [snd sports fold_left].
  simpl in Hin. destruct Hin as [<-|[<-|[<-|[]]]].
  - rewrite !clean_domain_other by discriminate. now apply clean_domain_same.
  - rewrite clean_domain_other by discriminate. apply clean_domain_same.
    now rewrite clean_domain_other by discriminate.
  - apply clean_domain_same. now rewrite !clean_domain_other by discriminate.
Qed.

(** C3, amended.  When the cache is loaded from a document in which the
    slots of [f1], [football] and [nba] are mappings, each of these domains
    comes out as a mapping that holds entries of the document only, and of
    an entry of the document: it is removed when its timestamp parses and
    is older than seven days, when its timestamp is there and cannot be
    parsed, and when it parses but cannot be compared with the cutoff (it
    carries a UTC offset); it is kept when its timestamp parses and is not
    older than seven days, and also when it has no timestamp at all (or is
    not a mapping). *)
Theorem load_time_expiry data now now_iso sport m :
  (forall s, In s sports -> slot_ok data s) ->
  In sport sports ->
  dict_get sport data = Some (PDict m) ->
  exists m',
    dict_get sport (_load_cache fromisoformat (Some (Ok data)) now now_iso)
      = Some (PDict m') /\
    (forall key value, In (key, value) m' -> In (key, value) m) /\
    (forall key value b, In (key, value) m -> verdict fromisoformat now 7 value b ->
       if b then ~ In key (keys m') else In (key, value) m').
Proof.
  intros Hok Hin Hget.
  exists (filter
    (fun kv => negb (is_expired fromisoformat (minus_days now 7) (snd kv))) m).
  split; [now apply load_cache_domain|]. split.
  - intros key value H. apply filter_In in H. tauto.
  - intros key value b Hkv Hv. apply verdict_is_expired in Hv.
    destruct (Hok sport Hin _ Hget) as (m0 & [= <-] & Hwf).
    destruct b.
    + intros Hk. unfold keys in Hk. apply in_map_iff in Hk.
      destruct Hk as ([k v'] & Ek & Hf). simpl in Ek. subst k.
      apply filter_In in Hf. destruct Hf as [Hin' Hexp]. simpl in Hexp.
      assert (v' = value).
      { pose proof (In_dict_get key value m Hwf Hkv).
        pose proof (In_dict_get key v' m Hwf Hin'). congruence. }
      subst v'. rewrite Hv in Hexp. discriminate.
    + apply filter_In. split; [exact Hkv|]. simpl. now rewrite Hv.
Qed.

End LoadingFacts.

Lemma ex_now_reading : fromisoformat_basic "2024-05-01T12:00:00" = Some ex_now.
Proof. vm_compute. reflexivity. Qed.

Lemma ex_document_slots : forall s, In s sports -> slot_ok ex_document s.
Proof.
  intros s Hs slot Hslot. simpl in Hs.
  destruct Hs as [<-|[<-|[<-|[]]]]; vm_compute in Hslot; injection Hslot as <-;
    eexists; (split; [reflexivity|]); unfold dict_wf, keys; simpl;
    repeat constructor; simpl; intuition discriminate.
Qed.

(** The theorem at [ex_document], loaded at [ex_now]: of the motorsport
    entries, the one eight days old, the one with an unreadable timestamp
    and the one with a UTC offset are gone; the one just under seven days
    old and the one without a timestamp are there. *)
Lemma load_time_expiry_witness :
  exists m',
    dict_get "f1"
      (_load_cache fromisoformat_basic (Some (Ok ex_document)) ex_now "2024-05-01T12:00:00")
      = Some (PDict m') /\
    ~ In "old" (keys m') /\
    ~ In "garbled" (keys m') /\
    ~ In "zoned" (keys m') /\
    In ("fresh", ex_entry "2024-04-24T12:00:01") m' /\
    In ("bare", ex_bare) m'.
Proof.
  destruct (load_time_expiry fromisoformat_basic ex_document ex_now "2024-05-01T12:00:00"
              "f1" ex_f1 ex_document_slots (or_introl eq_refl) eq_refl)
    as (m' & Hget & _ & Hv).
  exists m'. split; [exact Hget|].
  split; [|split; [|split; [|split]]].
  - apply (Hv "old" (ex_entry "2024-04-23T12:00:00") true); [simpl; tauto|].
    eapply removed_older; [reflexivity | vm_compute; reflexivity | reflexivity
                          | vm_compute; reflexivity].
  - apply (Hv "garbled" (ex_entry "yesterday") true); [simpl; tauto|].
    eapply removed_unreadable; [reflexivity|]. intros t H. vm_compute in H. discriminate.
  - apply (Hv "zoned" (ex_entry "2024-04-30T12:00:00+08:00") true); [simpl; tauto|].
    eapply removed_incomparable; [reflexivity | vm_compute; reflexivity|].
    vm_compute. discriminate.
  - apply (Hv "fresh" (ex_entry "2024-04-24T12:00:01") false); [simpl; tauto|].
    eapply kept_not_older; [reflexivity | vm_compute; reflexivity | reflexivity|].
    vm_compute. discriminate.
  - apply (Hv "bare" ex_bare false); [simpl; tauto|].
    apply kept_without_timestamp. reflexivity.
Defined.

(** C3 as stated does not hold for an entry without a timestamp: the entry
    [bare] of [ex_document] has none, and it is still there after the
    load. *)
Lemma load_time_expiry_counterexample :
  In ("bare", ex_bare) ex_f1 /\
  (exists e, ex_bare = PDict e /\ dict_get "timestamp" e = None) /\
  get_query_result
    (_load_cache fromisoformat_basic (Some (Ok ex_document)) ex_now "2024-05-01T12:00:00")
    "f1" "bare" = Some ex_bare.
Proof.
  split; [simpl; tauto|]. split; [eexists; split; reflexivity|].
  vm_compute. reflexivity.
Qed.

(** *** The options of a domain *)

Lemma subseq_refl {A} (l : list A) : subseq l l.
Proof. induction l; auto. Qed.

Lemma subseq_filter {A} (p : A -> bool) (l : list A) : subseq (filter p l) l.
Proof. induction l as [|x l IH]; simpl; auto. destruct (p x); auto. Qed.

Lemma subseq_map {A B} (f : A -> B) l1 l2 :
  subseq l1 l2 -> subseq (map f l1) (map f l2).
Proof. induction 1; simpl; auto. Qed.

Lemma subseq_trans {A} (l1 l2 l3 : list A) :
  subseq l1 l2 -> subseq l2 l3 -> subseq l1 l3.
Proof.
  intros H12 H23. revert l1 H12.
  induction H23 as [l|x l2 l3 H IH|x l2 l3 H IH]; intros l1 H12.
  - inversion H12; subst. apply subseq_nil.
  - apply subseq_skip. now apply IH.
  - inversion H12; subst; auto.
Qed.

Lemma py_eq_str_true v s : py_eq_str v s = true -> v = PStr s.
Proof.
  destruct v; simpl; try discriminate. intros H. apply String.eqb_eq in H. now subst.
Qed.

(** One entry gives at most one option, made from it. *)
Lemma option_of_sound sport query_type year k v opts :
  option_of sport query_type year (k, v) = Ok opts ->
  (opts = [] \/ exists o, opts = [o] /\ cache_key o = k) /\
  forall o, In o opts ->
    exists entry, v = PDict entry /\
      dict_get "query_type" entry = Some (PStr query_type) /\
      py_truthy (field "success" entry) = true /\
      timestamp o = field "timestamp" entry.
Proof.
  unfold option_of.
  destruct v as [| | | | |entry]; try discriminate.
  cbn [py_get bind].
  destruct (py_eq_str _ query_type) eqn:Eqt;
    [|intros [= <-]; split; [now left | intros o []]].
  assert (Hqt : dict_get "query_type" entry = Some (PStr query_type)).
  { apply py_eq_str_true in Eqt. destruct (dict_get "query_type" entry); congruence. }
  fold (field "success" entry). fold (field "timestamp" entry).
  destruct (py_truthy (field "success" entry)) eqn:Es;
    [|intros [= <-]; split; [now left | intros o []]].
  assert (Hone : forall o, cache_key o = k -> timestamp o = field "timestamp" entry ->
    (([o] : list OptionView) = [] \/ exists o', [o] = [o'] /\ cache_key o' = k) /\
    forall o', In o' [o] ->
      exists entry', PDict entry = PDict entry' /\
        dict_get "query_type" entry' = Some (PStr query_type) /\
        py_truthy (field "success" entry') = true /\
        timestamp o' = field "timestamp" entry').
  { intros o Hk Ht. split; [right; eauto|].
    intros o' [<-|[]]. exists entry. auto. }
  assert (Hnone :
    (([] : list OptionView) = [] \/ exists o', [] = [o'] /\ cache_key o' = k) /\
    forall o', In o' [] ->
      exists entry', PDict entry = PDict entry' /\
        dict_get "query_type" entry' = Some (PStr query_type) /\
        py_truthy (field "success" entry') = true /\
        timestamp o' = field "timestamp" entry').
  { split; [now left | intros o' []]. }
  destruct (match dict_get "parameters" entry with Some x => x | None => PDict [] end)
    as [| | | | |parameters]; cbn [py_get bind];
    repeat match goal with
    | |- context [if ?b then _ else _] => destruct b
    end; try discriminate; try (intros [= <-]; exact Hnone).
  - destruct (_get_league_name _); cbn [bind]; [|discriminate].
    intros [= <-]. now apply Hone.
  - intros [= <-]. now apply Hone.
  - intros [= <-]. now apply Hone.
Qed.

(** The loop appends, entry after entry, the options of the entries. *)
Lemma collect_sound sport query_type year items : forall acc opts,
  foldM (add_option sport query_type year) items acc = Ok opts ->
  exists new,
    opts = acc ++ new /\
    subseq (map cache_key new) (keys items) /\
    forall o, In o new -> from_entry items query_type o.
Proof.
  induction items as [|[k v] items IH]; intros acc opts.
  - intros [= <-]. exists []. rewrite app_nil_r. repeat split; auto. intros o [].
  - cbn [foldM]. unfold add_option at 1.
    destruct (option_of sport query_type year (k, v)) as [new1|] eqn:E;
      cbn [bind]; [|discriminate].
    intros H. destruct (IH _ _ H) as (new & -> & Hsub & Hfrom).
    destruct (option_of_sound _ _ _ _ _ _ E) as [Hshape Hentry].
    exists (new1 ++ new). rewrite app_assoc. split; [reflexivity|]. split.
    + rewrite map_app. cbn [keys map fst].
      destruct Hshape as [->|(o & -> & Hk)]; simpl.
      * now apply subseq_skip.
      * rewrite Hk. now apply subseq_take.
    + intros o Ho. apply in_app_or in Ho. destruct Ho as [Ho|Ho].
      * destruct (Hentry o Ho) as (entry & -> & Hq & Hs & Ht).
        exists entry. split; [|auto].
        destruct Hshape as [->|(o' & -> & Hk)]; [destruct Ho|].
        destruct Ho as [<-|[]]. rewrite Hk. now left.
      * destruct (Hfrom o Ho) as (entry & Hin & Hrest).
        exists entry. split; [now right | exact Hrest].
Qed.

(** C6 (filtering and ordering of the options).  Every option that
    [get_available_options] returns was made from an entry of the domain
    whose [query_type] is the requested one and whose success flag holds
    (so an entry of another type, or one that did not succeed, gives no
    option); the options are in descending order of their timestamps; and
    the options of one rank, tied on the timestamp, stand in the order of
    their entries in the domain. *)
Theorem options_filtered_sorted st sport query_type year :
  let options := get_available_options st sport query_type year in
  let m := mapping_or_empty sport st in
  (forall o, In o options -> from_entry m query_type o) /\
  StronglySorted (no_rise timestamp) options /\
  (forall v, subseq (map cache_key (filter (tied timestamp v) options)) (keys m)).
Proof.
  cbn zeta. unfold get_available_options.
  assert (Hnil : (forall o, In o [] -> from_entry (mapping_or_empty sport st) query_type o) /\
    StronglySorted (no_rise timestamp) [] /\
    (forall v, subseq (map cache_key (filter (tied timestamp v) []))
                 (keys (mapping_or_empty sport st)))).
  { repeat split; simpl; auto. - intros o []. - constructor. }
  destruct (collect_options st sport query_type year) as [collected|] eqn:Ec;
    cbn [bind]; [|exact Hnil].
  destruct (py_sort_reverse timestamp collected) as [sorted|] eqn:Es; [|exact Hnil].
  destruct (py_sort_reverse_ok _ _ _ Es) as (Hperm & Hsorted & Hstable).
  assert (Hc : subseq (map cache_key collected) (keys (mapping_or_empty sport st)) /\
               forall o, In o collected -> from_entry (mapping_or_empty sport st) query_type o).
  { unfold collect_options, dict_mem, dict_getitem, mapping_or_empty in *.
    destruct (dict_get sport st) as [slot|]; cbn [bind] in Ec.
    - destruct slot as [| | | | |m]; try discriminate. cbn [py_items bind] in Ec.
      destruct (collect_sound _ _ _ _ _ _ Ec) as (new & -> & Hsub & Hfrom).
      split; assumption.
    - injection Ec as <-. split; [constructor | intros o []]. }
  destruct Hc as [Hsub Hfrom].
  split; [|split].
  - intros o Ho. apply Hfrom. eapply Permutation_in; [|exact Ho].
    now apply Permutation_sym.
  - exact Hsorted.
  - intros v. rewrite Hstable.
    eapply subseq_trans; [|exact Hsub]. apply subseq_map, subseq_filter.
Qed.

(** On [ex_options_store]: the failed entry and the one of another type
    give no option; the latest comes first, and the two of the same
    instant keep the order of their entries. *)
Example options_of_ex_options_store :
  map cache_key (get_available_options ex_options_store "football" "standings" 2024)
  = ["b"; "d"; "a"].
Proof. vm_compute. reflexivity. Qed.

End CacheFacts.

(* ================================================================== *)
(** ** More facts about the cache *)
(* ================================================================== *)

Module StoreFacts.
Import Py PySpec PyFacts QueryCache CacheSpec CacheFacts.

Lemma prefix_app (s rest : string) : String.prefix s (s ++ rest) = true.
Proof.
  induction s as [|c s IH]; simpl; [now destruct rest|].
  destruct (ascii_dec c c); [exact IH | congruence].
Qed.

Lemma prefix_self (s : string) : String.prefix s s = true.
Proof.
  induction s as [|c s IH]; simpl; [reflexivity|].
  destruct (ascii_dec c c); [exact IH | congruence].
Qed.

Lemma cache_key_agree query_type p1 p2 :
  (forall name, In name key_params -> dict_get name p1 = dict_get name p2) ->
  _generate_cache_key query_type p1 = _generate_cache_key query_type p2.
Proof.
  intros H. rewrite !generate_cache_key_expected. unfold expected_key, fragment.
  cbn [flat_map]. rewrite !H by (simpl; tauto). reflexivity.
Qed.

(** X1 (the cache key reads four parameters only).  Two parameter mappings
    that agree on [league_id], [team], [year] and [round] get the same key
    from [_generate_cache_key], whatever else they hold (the [player] of a
    player query is no part of the key); and the key begins with the query
    type. *)
Theorem cache_key_reads_four_names query_type p1 p2 :
  (forall name, In name key_params -> dict_get name p1 = dict_get name p2) ->
  _generate_cache_key query_type p1 = _generate_cache_key query_type p2 /\
  String.prefix query_type (_generate_cache_key query_type p1) = true.
Proof.
  intros H. split.
  - now apply cache_key_agree.
  - rewrite generate_cache_key_expected. unfold expected_key, join.
    generalize (flat_map (fragment p1) ["league_id"; "team"; "year"; "round"]).
    intros l. destruct l as [|x l]; cbn [concat].
    + apply prefix_self.
    + apply prefix_app.
Qed.

(** The theorem at two player queries: one key for both players. *)
Lemma cache_key_reads_four_names_witness :
  _generate_cache_key "player_stats" [("player", PStr "Stephen Curry")]
  = _generate_cache_key "player_stats" [("player", PStr "LeBron James")] /\
  String.prefix "player_stats"
    (_generate_cache_key "player_stats" [("player", PStr "Stephen Curry")]) = true.
Proof.
  apply (cache_key_reads_four_names "player_stats" [("player", PStr "Stephen Curry")]
           [("player", PStr "LeBron James")]).
  intros name H. simpl in H.
  destruct H as [<-|[<-|[<-|[<-|[]]]]]; reflexivity.
Defined.

(** *** What a store leaves alone *)

Lemma keys_dict_set_absent {A} k (v : A) d :
  dict_get k d = None -> keys (dict_set k v d) = keys d ++ [k].
Proof.
  intros H. rewrite (dict_set_fresh _ _ _ H). unfold keys. now rewrite map_app.
Qed.

Lemma keys_with_domain sport m st :
  keys (with_domain sport m st) = keys st ++ (if dict_mem sport st then [] else [sport]).
Proof.
  unfold with_domain, dict_mem.
  destruct (dict_get sport st) as [v|] eqn:E.
  - rewrite (keys_dict_set_present _ _ v _ E). now rewrite app_nil_r.
  - now apply keys_dict_set_absent.
Qed.

(** X2 (what [store_query_result] leaves alone).  Whatever the store and the
    arguments, the call changes no other domain (the metadata record
    apart, which is stamped) and, in the domain it writes, no other key;
    the names of the store stay as they are, in their order, the name of
    the sport being added after them when it was not there. *)
Theorem store_frames_other_entries sport query_type parameters result_data text now now_save st :
  let st' :=
    snd (store_query_result sport query_type parameters result_data text now now_save st) in
  (forall d, d <> sport -> d <> "metadata" -> dict_get d st' = dict_get d st) /\
  (forall k, sport <> "metadata" -> k <> _generate_cache_key query_type parameters ->
     get_query_result st' sport k = get_query_result st sport k) /\
  keys st' = keys st ++ (if dict_mem sport st then [] else [sport]).
Proof.
  cbn zeta.
  pose proof (store_query_result_run sport query_type parameters result_data text
                now now_save st) as H.
  cbn zeta in H. rewrite H. clear H.
  set (key := _generate_cache_key query_type parameters).
  set (entry := make_entry query_type parameters result_data text now).
  split; [|split].
  - intros d Hd Hm.
    destruct (dict_get sport st) as [[| | | | |m]|]; cbn [snd]; try reflexivity;
      rewrite stamped_other by exact Hm; unfold with_domain;
      apply dict_get_set_neq; congruence.
  - intros k Hs Hk. rewrite !get_query_result_run.
    destruct (dict_get sport st) as [[| | | | |m]|] eqn:E; cbn [snd];
      try (now rewrite E);
      rewrite stamped_other by exact Hs; unfold with_domain; rewrite dict_get_set_eq.
    + apply dict_get_set_neq. congruence.
    + simpl. destruct (String.eqb k key) eqn:Ek; [|reflexivity].
      apply String.eqb_eq in Ek. congruence.
  - destruct (dict_get sport st) as [[| | | | |m]|] eqn:E; cbn [snd];
      try (unfold dict_mem; rewrite E; now rewrite app_nil_r);
      rewrite keys_stamped; apply keys_with_domain.
Qed.

(** X3 (when [store_query_result] gives up).  The call never raises.  It
    returns the computed key, or [None]; [None] exactly when the store
    holds under the sport a value that is not a mapping; and then the store
    is left as it was, not even stamped. *)
Theorem store_fails_only_on_broken_slot sport query_type parameters result_data text now now_save st :
  let r := store_query_result sport query_type parameters result_data text now now_save st in
  (fst r = Ok (Some (_generate_cache_key query_type parameters)) \/ fst r = Ok None) /\
  (fst r = Ok None <->
   exists v, dict_get sport st = Some v /\ forall m, v <> PDict m) /\
  (fst r = Ok None -> snd r = st).
Proof.
  cbn zeta.
  pose proof (store_query_result_run sport query_type parameters result_data text
                now now_save st) as H.
  cbn zeta in H. rewrite H. clear H.
  destruct (dict_get sport st) as [[| | | | |m]|] eqn:E; cbn [fst snd];
    (split; [auto|split; [split|]]); try discriminate; try reflexivity;
    try (intros _; eexists; split; [reflexivity|]; intros m'; discriminate);
    try (intros _; reflexivity).
  - intros (v & [= <-] & Hv). now destruct (Hv m).
  - intros (v & Hv & _). discriminate.
Qed.

(** X4 (a second result under the same key replaces the first).  In a store
    whose slot for the sport, other than the metadata record, is a mapping
    or absent, when two results are stored one after the other with the
    same query type and with parameters that agree on the four names of
    the key, the second call returns the key of the first, the lookup of
    that key then gives the second entry, and the second call adds no key
    to the domain and no name to the store. *)
Theorem store_same_key_replaces sport query_type p1 p2 rd1 rd2 text1 text2
    now1 save1 now2 save2 st :
  (forall name, In name key_params -> dict_get name p1 = dict_get name p2) ->
  (forall slot, dict_get sport st = Some slot -> exists m, slot = PDict m) ->
  sport <> "metadata" ->
  let st1 := snd (store_query_result sport query_type p1 rd1 text1 now1 save1 st) in
  let st2 := snd (store_query_result sport query_type p2 rd2 text2 now2 save2 st1) in
  let key := _generate_cache_key query_type p1 in
  fst (store_query_result sport query_type p2 rd2 text2 now2 save2 st1) = Ok (Some key) /\
  get_query_result st2 sport key = Some (make_entry query_type p2 rd2 text2 now2) /\
  keys (mapping_or_empty sport st2) = keys (mapping_or_empty sport st1) /\
  keys st2 = keys st1.
Proof.
  intros Hkey Hslot Hmeta. cbn zeta.
  pose proof (cache_key_agree query_type p1 p2 Hkey) as Ek.
  pose proof (store_query_result_run sport query_type p1 rd1 text1 now1 save1 st) as H1.
  cbn zeta in H1. rewrite H1. clear H1.
  set (key := _generate_cache_key query_type p1) in *.
  set (e1 := make_entry query_type p1 rd1 text1 now1).
  assert (exists m1, snd
     match dict_get sport st with
     | Some (PDict m) => (Ok (Some key), stamped save1 (with_domain sport (dict_set key e1 m) st))
     | Some _ => (@Ok (option string) None, st)
     | None => (Ok (Some key), stamped save1 (with_domain sport [(key, e1)] st))
     end = stamped save1 (with_domain sport m1 st) /\ dict_get key m1 = Some e1)
    as (m1 & -> & Hm1).
  { destruct (dict_get sport st) as [slot|] eqn:E.
    - destruct (Hslot slot eq_refl) as [m ->]. exists (dict_set key e1 m).
      split; [reflexivity | apply dict_get_set_eq].
    - exists [(key, e1)]. split; [reflexivity|]. simpl. now rewrite String.eqb_refl. }
  set (st1 := stamped save1 (with_domain sport m1 st)).
  assert (Hget1 : dict_get sport st1 = Some (PDict m1)).
  { unfold st1. rewrite stamped_other by exact Hmeta. apply dict_get_set_eq. }
  pose proof (store_query_result_run sport query_type p2 rd2 text2 now2 save2 st1) as H2.
  cbn zeta in H2. rewrite H2. clear H2. rewrite Hget1, <- Ek. cbn [fst snd].
  fold key.
  set (e2 := make_entry query_type p2 rd2 text2 now2).
  split; [reflexivity|]. split; [|split].
  - rewrite get_query_result_run, stamped_other by exact Hmeta.
    unfold with_domain. rewrite dict_get_set_eq. apply dict_get_set_eq.
  - unfold mapping_or_empty. rewrite stamped_other by exact Hmeta.
    unfold with_domain at 1. rewrite dict_get_set_eq, Hget1.
    now apply (keys_dict_set_present _ _ e1).
  - rewrite keys_stamped. unfold with_domain.
    now apply (keys_dict_set_present _ _ (PDict m1)).
Qed.

(** The theorem at the statistics of two players, stored one after the other. *)
Lemma store_same_key_replaces_witness :
  let st := empty_cache "2024-01-01T00:00:00" in
  let p1 := [("player", PStr "Stephen Curry")] in
  let p2 := [("player", PStr "LeBron James")] in
  let rd := [("success", PBool true)] in
  let st1 := snd (store_query_result "nba" "player_stats" p1 rd "库里数据"
                    "2024-05-01T12:00:00" "2024-05-01T12:00:01" st) in
  let st2 := snd (store_query_result "nba" "player_stats" p2 rd "詹姆斯数据"
                    "2024-05-01T12:10:00" "2024-05-01T12:10:01" st1) in
  let key := _generate_cache_key "player_stats" p1 in
  fst (store_query_result "nba" "player_stats" p2 rd "詹姆斯数据"
         "2024-05-01T12:10:00" "2024-05-01T12:10:01" st1) = Ok (Some key) /\
  get_query_result st2 "nba" key
    = Some (make_entry "player_stats" p2 rd "詹姆斯数据" "2024-05-01T12:10:00") /\
  keys (mapping_or_empty "nba" st2) = keys (mapping_or_empty "nba" st1) /\
  keys st2 = keys st1.
Proof.
  cbn zeta.
  apply (store_same_key_replaces "nba" "player_stats" [("player", PStr "Stephen Curry")]
           [("player", PStr "LeBron James")]).
  - intros name H. simpl in H. destruct H as [<-|[<-|[<-|[<-|[]]]]]; reflexivity.
  - intros slot H. vm_compute in H. injection H as <-. eauto.
  - discriminate.
Defined.

End StoreFacts.

Module ListingFacts.
Import Py PySpec PyFacts QueryCache CacheSpec CacheFacts CoverageSpec StoreFacts.

(** *** _save_cache and clear_cache *)

(** X5 ([_save_cache] writes one field).  The call never raises; it keeps the
    names of the store and the value of every name but [metadata]; in a
    metadata mapping it sets [last_updated] to the time given and leaves
    every other field, [version] among them; and when the store has no
    metadata mapping it changes nothing. *)
Theorem save_cache_touches_stamp_only now st :
  let st' := snd (_save_cache now st) in
  fst (_save_cache now st) = Ok tt /\
  keys st' = keys st /\
  (forall d, d <> "metadata" -> dict_get d st' = dict_get d st) /\
  (forall md, dict_get "metadata" st = Some (PDict md) ->
     exists md',
       dict_get "metadata" st' = Some (PDict md') /\
       dict_get "last_updated" md' = Some (PStr now) /\
       (forall f, f <> "last_updated" -> dict_get f md' = dict_get f md)) /\
  ((forall md, dict_get "metadata" st <> Some (PDict md)) -> st' = st).
Proof.
  cbn zeta. rewrite save_cache_run. cbn [fst snd].
  split; [reflexivity|]. split; [apply keys_stamped|].
  split; [intros d Hd; now apply stamped_other|]. split.
  - intros md Hmd. unfold stamped. rewrite Hmd.
    exists (dict_set "last_updated" (PStr now) md).
    split; [apply dict_get_set_eq|]. split; [apply dict_get_set_eq|].
    intros f Hf. apply dict_get_set_neq. congruence.
  - intros Hno. unfold stamped.
    destruct (dict_get "metadata" st) as [[| | | | |md]|] eqn:E; try reflexivity.
    now destruct (Hno md).
Qed.

Lemma options_of_nothing sport query_type year :
  forall items opts,
    (forall item, In item items ->
       option_of sport query_type year item = Ok [] \/
       exists e, option_of sport query_type year item = Raise e) ->
    foldM (add_option sport query_type year) items [] = Ok opts -> opts = [].
Proof.
  induction items as [|item items IH]; intros opts Hno; cbn [foldM].
  - now intros [= <-].
  - unfold add_option at 1.
    destruct (Hno item (or_introl eq_refl)) as [->|[e ->]]; cbn [bind app];
      [|discriminate].
    apply IH. intros x Hx. apply Hno. now right.
Qed.

Lemma options_when_collect_empty st sport query_type year :
  (forall opts, collect_options st sport query_type year = Ok opts -> opts = []) ->
  get_available_options st sport query_type year = [].
Proof.
  intros H. unfold get_available_options.
  destruct (collect_options st sport query_type year) as [opts|e] eqn:E; cbn [bind];
    [|reflexivity].
  now rewrite (H opts eq_refl).
Qed.

(** X6 (clearing everything).  [clear_cache] without a sport, or with the
    empty string as sport, leaves the store of a new cache whatever the
    store was: the three domains empty, the names that
    [store_query_result] had added gone, the metadata written anew with
    the time of the save.  It is the store [_load_cache] starts from when
    there is no cache file or the file cannot be read.  In it no lookup in
    a domain finds anything, and no listing offers anything. *)
Theorem clear_all_resets now now_save now_load st :
  snd (clear_cache None now now_save st) = empty_cache now_save /\
  snd (clear_cache (Some EmptyString) now now_save st) = empty_cache now_save /\
  (forall fromisoformat t e,
     _load_cache fromisoformat None t now_load = empty_cache now_load /\
     _load_cache fromisoformat (Some (Raise e)) t now_load = empty_cache now_load) /\
  (forall sport k, sport <> "metadata" ->
     get_query_result (empty_cache now_save) sport k = None) /\
  (forall sport query_type year,
     get_available_options (empty_cache now_save) sport query_type year = []).
Proof.
  split; [now rewrite clear_cache_run|]. split; [now rewrite clear_cache_run|].
  split; [intros; split; reflexivity|]. split.
  - intros sport k Hs. rewrite get_query_result_run. unfold empty_cache. cbn [dict_get].
    destruct (String.eqb sport "f1"); [reflexivity|].
    destruct (String.eqb sport "football"); [reflexivity|].
    destruct (String.eqb sport "nba"); [reflexivity|].
    destruct (String.eqb sport "metadata") eqn:E; [|reflexivity].
    apply String.eqb_eq in E. contradiction.
  - intros sport query_type year. apply options_when_collect_empty.
    intros opts. unfold collect_options, dict_mem, dict_getitem, empty_cache.
    cbn [dict_get].
    destruct (String.eqb sport "f1"); [now intros [= <-]|].
    destruct (String.eqb sport "football"); [now intros [= <-]|].
    destruct (String.eqb sport "nba"); [now intros [= <-]|].
    destruct (String.eqb sport "metadata"); [discriminate | now intros [= <-]].
Qed.

(** *** What get_available_options offers *)

Lemma option_of_outside sport query_type year item :
  String.eqb query_type "standings" && String.eqb sport "football" = false ->
  String.eqb query_type "schedule" && String.eqb sport "nba" = false ->
  String.eqb query_type "standings" && String.eqb sport "f1" = false ->
  option_of sport query_type year item = Ok [] \/
  exists e, option_of sport query_type year item = Raise e.
Proof.
  intros H1 H2 H3. unfold option_of. destruct item as [k v]. rewrite H1, H2, H3.
  destruct (py_get v "query_type" PNone) as [qt|e]; cbn [bind]; [|eauto].
  destruct (py_eq_str qt query_type); [|now left].
  destruct (py_get v "success" PNone) as [s|e]; cbn [bind]; [|eauto].
  destruct (py_truthy s); [|now left].
  destruct (py_get v "parameters" (PDict [])) as [p|e]; cbn [bind]; [now left | eauto].
Qed.

Lemma not_both_eqb a b x y :
  ~ (a = x /\ b = y) -> String.eqb a x && String.eqb b y = false.
Proof.
  intros H. destruct (String.eqb_spec a x), (String.eqb_spec b y); try reflexivity.
  now destruct H.
Qed.

(** X7 (three views only).  [get_available_options] returns the empty list
    for every pair of a sport and a query type other than football
    standings, nba schedule and f1 standings, whatever the store holds:
    cached top scorers, player statistics or race results are never
    offered. *)
Theorem options_only_for_three_views st sport query_type year :
  ~ (query_type = "standings" /\ sport = "football") ->
  ~ (query_type = "schedule" /\ sport = "nba") ->
  ~ (query_type = "standings" /\ sport = "f1") ->
  get_available_options st sport query_type year = [].
Proof.
  intros H1 H2 H3. apply options_when_collect_empty. intros opts.
  unfold collect_options.
  destruct (dict_mem sport st); [|now intros [= <-]].
  destruct (dict_getitem sport st) as [slot|e]; cbn [bind]; [|discriminate].
  destruct (py_items slot) as [items|e]; cbn [bind]; [|discriminate].
  apply options_of_nothing. intros item _.
  apply option_of_outside; now apply not_both_eqb.
Qed.

(** The theorem at the top scorers of a league, stored and then asked for. *)
Lemma options_only_for_three_views_witness :
  get_available_options
    (snd (store_query_result "football" "top_scorers" [("league_id", PInt 2021)]
            [("success", PBool true)] "英超射手榜" "2024-05-01T12:00:00"
            "2024-05-01T12:00:01" (empty_cache "2024-01-01T00:00:00")))
    "football" "top_scorers" 2024 = [].
Proof.
  apply options_only_for_three_views; intros [H1 H2]; discriminate.
Defined.

(** Every option comes from an entry of the domain. *)
Lemma options_from_entries st sport query_type year o :
  In o (get_available_options st sport query_type year) ->
  from_entry (mapping_or_empty sport st) query_type o.
Proof.
  unfold get_available_options.
  destruct (collect_options st sport query_type year) as [collected|] eqn:Ec;
    cbn [bind]; [|intros []].
  destruct (py_sort_reverse timestamp collected) as [sorted|] eqn:Es; [|intros []].
  destruct (py_sort_reverse_ok _ _ _ Es) as (Hperm & _ & _).
  intros Ho. apply Permutation_sym in Hperm.
  pose proof (Permutation_in _ Hperm Ho) as Hc. clear Ho Hperm Es.
  unfold collect_options, dict_mem, dict_getitem, mapping_or_empty in *.
  destruct (dict_get sport st) as [slot|]; cbn [bind] in Ec.
  - destruct slot as [| | | | |m]; try discriminate. cbn [py_items bind] in Ec.
    destruct (collect_sound _ _ _ _ _ _ Ec) as (new & -> & _ & Hfrom).
    now apply Hfrom.
  - injection Ec as <-. destruct Hc.
Qed.

Lemma dict_wf_set {A} k (v : A) d : dict_wf d -> dict_wf (dict_set k v d).
Proof.
  intros Hwf. unfold dict_wf.
  destruct (dict_get k d) as [v'|] eqn:E.
  - now rewrite (keys_dict_set_present _ _ v' _ E).
  - rewrite (keys_dict_set_absent _ _ _ E).
    apply dict_get_None in E.
    apply NoDup_app; [exact Hwf | repeat constructor; simpl; tauto |].
    intros x Hx [<-|[]]. contradiction.
Qed.

(** X8 (a failed result is not offered).  When [store_query_result] stores a
    result whose [success] flag is missing or does not hold, in a store
    whose slot for the sport is a mapping or absent, no option that
    [get_available_options] returns for that sport afterwards, whatever
    the query type asked for, carries the key of that result: the failed
    result has taken the place of what stood under the key before. *)
Theorem failed_result_is_not_offered sport query_type parameters result_data text
    now now_save st qt year :
  slot_ok st sport ->
  py_truthy (success_flag result_data) = false ->
  let st' :=
    snd (store_query_result sport query_type parameters result_data text now now_save st) in
  forall o, In o (get_available_options st' sport qt year) ->
    cache_key o <> _generate_cache_key query_type parameters.
Proof.
  intros Hok Hflag. cbn zeta. intros o Ho Hkey.
  apply options_from_entries in Ho.
  destruct Ho as (entry & Hin & _ & Hsucc & _).
  rewrite Hkey in Hin. clear Hkey.
  pose proof (store_query_result_run sport query_type parameters result_data text
                now now_save st) as H.
  cbn zeta in H. rewrite H in Hin. clear H.
  set (key := _generate_cache_key query_type parameters) in *.
  set (e := make_entry query_type parameters result_data text now) in *.
  assert (Hcase : exists m, dict_wf m /\
    snd match dict_get sport st with
        | Some (PDict m) =>
            (Ok (Some key), stamped now_save (with_domain sport (dict_set key e m) st))
        | Some _ => (@Ok (option string) None, st)
        | None => (Ok (Some key), stamped now_save (with_domain sport [(key, e)] st))
        end = stamped now_save (with_domain sport (dict_set key e m) st)).
  { destruct (dict_get sport st) as [slot|] eqn:E.
    - destruct (Hok slot E) as (m & -> & Hwf). exists m. split; [exact Hwf | reflexivity].
    - exists []. split; [constructor | reflexivity]. }
  destruct Hcase as (m & Hwf & Hst). rewrite Hst in Hin. clear Hst.
  assert (Hfound :
    dict_wf (mapping_or_empty sport (stamped now_save (with_domain sport (dict_set key e m) st)))
    /\ (dict_get key
          (mapping_or_empty sport (stamped now_save (with_domain sport (dict_set key e m) st)))
        = Some e \/
        dict_get key
          (mapping_or_empty sport (stamped now_save (with_domain sport (dict_set key e m) st)))
        = Some (PStr now_save))).
  { unfold mapping_or_empty.
    destruct (String.eqb_spec sport "metadata") as [->|Hne].
    - unfold stamped, with_domain. rewrite dict_get_set_eq, dict_get_set_eq.
      split; [now apply dict_wf_set, dict_wf_set|].
      destruct (String.eqb_spec "last_updated" key) as [<-|Hk].
      + right. apply dict_get_set_eq.
      + left. rewrite dict_get_set_neq by exact Hk. apply dict_get_set_eq.
    - rewrite stamped_other by exact Hne. unfold with_domain. rewrite dict_get_set_eq.
      split; [now apply dict_wf_set|]. left. apply dict_get_set_eq. }
  destruct Hfound as [Hwf' Hget].
  apply (In_dict_get _ _ _ Hwf') in Hin.
  destruct Hget as [Hget|Hget]; rewrite Hget in Hin; [|discriminate].
  unfold e, make_entry in Hin. injection Hin as <-.
  unfold field in Hsucc. cbn [dict_get String.eqb Ascii.eqb Bool.eqb] in Hsucc.
  unfold success_flag in Hflag. congruence.
Qed.

(** The theorem at f1 standings that timed out. *)
Lemma failed_result_is_not_offered_witness :
  py_truthy (success_flag [("success", PBool false); ("error", PStr "timeout")]) = false /\
  forall o,
    In o (get_available_options
            (snd (store_query_result "f1" "standings" [("year", PInt 2024)]
                    [("success", PBool false); ("error", PStr "timeout")]
                    "2024年F1积分榜" "2024-05-01T12:00:00" "2024-05-01T12:00:01"
                    (empty_cache "2024-01-01T00:00:00")))
            "f1" "standings" 2024) ->
    cache_key o <> _generate_cache_key "standings" [("year", PInt 2024)].
Proof.
  split; [reflexivity|].
  apply (failed_result_is_not_offered "f1" "standings" [("year", PInt 2024)]
           [("success", PBool false); ("error", PStr "timeout")]).
  - intros slot H. vm_compute in H. injection H as <-.
    exists []. split; [reflexivity | constructor].
  - reflexivity.
Defined.

(** X9 (a result stored in an empty domain is the one option).  After
    [store_query_result] has stored a successful result in a domain that
    was empty or absent, [get_available_options] returns exactly one
    option: for football standings with a [league_id] that holds, the
    league id under the name [_get_league_name] gives; for an nba schedule
    with a [team], the team under the label [<team> 赛程]; for f1
    standings, [f1_<year>] under the label [<year>年 F1积分榜], the year
    being the parameter, or else the current year.  The option carries the
    key returned, the text and the time of the store. *)
Theorem stored_result_is_offered sport query_type parameters result_data text
    now now_save st year :
  dict_get sport st = None \/ dict_get sport st = Some (PDict []) ->
  py_truthy (success_flag result_data) = true ->
  let st' :=
    snd (store_query_result sport query_type parameters result_data text now now_save st) in
  let key := _generate_cache_key query_type parameters in
  (sport = "football" -> query_type = "standings" ->
   forall league_id league_name,
     dict_get "league_id" parameters = Some league_id -> py_truthy league_id = true ->
     _get_league_name league_id = Ok league_name ->
     get_available_options st' sport query_type year
     = [mkOption league_id league_name key (PStr text) (PStr now)]) /\
  (sport = "nba" -> query_type = "schedule" ->
   forall team,
     dict_get "team" parameters = Some team -> py_truthy team = true ->
     get_available_options st' sport query_type year
     = [mkOption team (py_str team ++ " 赛程") key (PStr text) (PStr now)]) /\
  (sport = "f1" -> query_type = "standings" ->
   let y := match dict_get "year" parameters with Some y => y | None => PInt year end in
   get_available_options st' sport query_type year
   = [mkOption (PStr ("f1_" ++ py_str y)) (py_str y ++ "年 F1积分榜") key (PStr text)
        (PStr now)]).
Proof.
  intros Hslot Hflag. cbn zeta.
  pose proof (store_query_result_run sport query_type parameters result_data text
                now now_save st) as H.
  cbn zeta in H. rewrite H. clear H.
  set (key := _generate_cache_key query_type parameters).
  set (e := make_entry query_type parameters result_data text now).
  assert (Hst : snd match dict_get sport st with
        | Some (PDict m) =>
            (Ok (Some key), stamped now_save (with_domain sport (dict_set key e m) st))
        | Some _ => (@Ok (option string) None, st)
        | None => (Ok (Some key), stamped now_save (with_domain sport [(key, e)] st))
        end = stamped now_save (with_domain sport [(key, e)] st)).
  { destruct Hslot as [-> | ->]; reflexivity. }
  rewrite Hst. clear Hst.
  assert (Hrun : sport <> "metadata" ->
    get_available_options (stamped now_save (with_domain sport [(key, e)] st))
      sport query_type year
    = match option_of sport query_type year (key, e) with
      | Ok l => match py_sort_reverse timestamp l with Ok r => r | Raise _ => [] end
      | Raise _ => []
      end).
  { intros Hne. unfold get_available_options, collect_options, dict_mem, dict_getitem.
    rewrite stamped_other by exact Hne. unfold with_domain. rewrite dict_get_set_eq.
    cbn [bind py_items foldM]. unfold add_option.
    destruct (option_of sport query_type year (key, e)); reflexivity. }
  assert (Hqt : py_eq_str (PStr query_type) query_type = true)
    by apply String.eqb_refl.
  unfold success_flag in Hflag.
  split; [|split].
  - intros -> -> league_id league_name Hl Ht Hn.
    rewrite Hrun by discriminate. unfold option_of, e, make_entry.
    cbn [py_get dict_get String.eqb Ascii.eqb Bool.eqb bind andb].
    rewrite Hflag, Hl, Ht, Hn. reflexivity.
  - intros -> -> team Hteam Ht.
    rewrite Hrun by discriminate. unfold option_of, e, make_entry.
    cbn [py_get dict_get String.eqb Ascii.eqb Bool.eqb bind andb].
    rewrite Hflag, Hteam, Ht. reflexivity.
  - intros -> ->.
    rewrite Hrun by discriminate. unfold option_of, e, make_entry.
    cbn [py_get dict_get String.eqb Ascii.eqb Bool.eqb bind andb].
    rewrite Hflag. reflexivity.
Qed.

(** The theorem at the standings of league 2021 in a new cache. *)
Lemma stored_result_is_offered_witness :
  get_available_options
    (snd (store_query_result "football" "standings" [("league_id", PInt 2021)]
            [("success", PBool true)] "英超积分榜" "2024-05-01T12:00:00"
            "2024-05-01T12:00:01" (empty_cache "2024-01-01T00:00:00")))
    "football" "standings" 2024
  = [mkOption (PInt 2021) "英超"
       (_generate_cache_key "standings" [("league_id", PInt 2021)])
       (PStr "英超积分榜") (PStr "2024-05-01T12:00:00")].
Proof.
  apply (proj1 (stored_result_is_offered "football" "standings" [("league_id", PInt 2021)]
                  [("success", PBool true)] "英超积分榜" "2024-05-01T12:00:00"
                  "2024-05-01T12:00:01" (empty_cache "2024-01-01T00:00:00") 2024
                  (or_intror eq_refl) eq_refl)); reflexivity.
Defined.

End ListingFacts.

Module ExpiryFacts.
Import Py PySpec PyFacts QueryCache CacheSpec CacheFacts CoverageSpec StoreFacts ListingFacts.

Lemma map_slot_id {A} (s : string) (f : string * A -> string * A) (d : dict A) :
  ~ In s (keys d) ->
  map (fun kv => if String.eqb (fst kv) s then f kv else kv) d = d.
Proof.
  unfold keys. induction d as [|[k v] d IH]; simpl; intros H; [reflexivity|].
  destruct (String.eqb_spec k s) as [->|Hne]; [tauto|].
  rewrite IH; tauto.
Qed.

Lemma keys_map_slot {A} (g : string * A -> string * A) (d : dict A) :
  (forall kv, fst (g kv) = fst kv) -> keys (map g d) = keys d.
Proof.
  intros H. unfold keys. rewrite map_map. apply map_ext. exact H.
Qed.

Lemma dict_get_map_slot {A} (g : string * A -> string * A) (h : string -> A -> A)
    (d : dict A) k :
  (forall kv, g kv = (fst kv, h (fst kv) (snd kv))) ->
  dict_get k (map g d) = option_map (h k) (dict_get k d).
Proof.
  intros H. induction d as [|[k' v] d IH]; simpl; [reflexivity|].
  rewrite H. simpl. destruct (String.eqb_spec k k') as [->|Hne]; [reflexivity | exact IH].
Qed.

Lemma incl_dict_remove {A} k (d : dict A) : incl (dict_remove k d) d.
Proof.
  induction d as [|[k' v] d IH]; simpl; [apply incl_refl|].
  destruct (String.eqb k k').
  - apply incl_tl, incl_refl.
  - intros x [<-|Hx]; [now left | right; now apply IH].
Qed.

Section Cleaning.
Variable fromisoformat : string -> option datetime.

(** *** The scan in closed form *)

Lemma clean_domain_map cutoff s data :
  dict_wf data ->
  clean_domain fromisoformat cutoff s data
  = map (fun kv => if String.eqb (fst kv) s
                   then (fst kv, clean_value fromisoformat cutoff (snd kv)) else kv) data.
Proof.
  unfold clean_domain, dict_wf, keys.
  induction data as [|[k v] data IH]; intros Hnd; [reflexivity|].
  inversion Hnd as [|? ? Hnotin Hnd']; subst.
  cbn [dict_get map fst snd]. rewrite (String.eqb_sym k s).
  destruct (String.eqb_spec s k) as [->|Hne].
  - rewrite map_slot_id by exact Hnotin.
    destruct v; cbn [clean_value dict_set]; try reflexivity.
    now rewrite String.eqb_refl.
  - rewrite <- (IH Hnd').
    destruct (dict_get s data) as [[| | | | |m]|]; cbn [dict_set]; try reflexivity.
    apply String.eqb_neq in Hne. now rewrite Hne.
Qed.

Lemma clean_all_map cutoff data :
  dict_wf data ->
  fold_left (fun d s => clean_domain fromisoformat cutoff s d) sports data
  = map (clean_slot fromisoformat cutoff) data.
Proof.
  intros Hwf. cbn [sports fold_left].
  assert (Hk : forall s (kv : string * pyval),
    fst (if String.eqb (fst kv) s
         then (fst kv, clean_value fromisoformat cutoff (snd kv)) else kv) = fst kv).
  { intros s kv. now destruct (String.eqb (fst kv) s). }
  assert (Hwf1 : forall s d, dict_wf d ->
    dict_wf (map (fun kv : string * pyval => if String.eqb (fst kv) s
         then (fst kv, clean_value fromisoformat cutoff (snd kv)) else kv) d)).
  { intros s d Hd. unfold dict_wf. rewrite keys_map_slot; [exact Hd | apply Hk]. }
  rewrite (clean_domain_map cutoff "f1" data Hwf).
  rewrite (clean_domain_map cutoff "football" _ (Hwf1 _ _ Hwf)).
  rewrite (clean_domain_map cutoff "nba" _ (Hwf1 _ _ (Hwf1 _ _ Hwf))).
  rewrite !map_map. apply map_ext. intros [k v]. unfold clean_slot, among, sports.
  cbn [fst snd existsb].
  destruct (String.eqb_spec k "f1") as [->|H1]; [reflexivity|].
  cbn [fst snd orb].
  destruct (String.eqb_spec k "football") as [->|H2]; [reflexivity|].
  cbn [fst snd orb].
  destruct (String.eqb_spec k "nba") as [->|H3]; reflexivity.
Qed.

(** [_clean_expired_data] on a document whose three domains are mappings:
    it returns, and the document is left with these domains cleaned. *)
Lemma clean_expired_closed now days data :
  dict_wf data ->
  (forall s, In s sports -> slot_ok data s) ->
  _clean_expired_data fromisoformat now days data
  = (Ok tt, map (clean_slot fromisoformat (minus_days now days)) data).
Proof.
  intros Hwf Hok. rewrite (clean_expired_data_run fromisoformat now days data Hok).
  now rewrite clean_all_map.
Qed.

Lemma clean_slot_shape cutoff kv :
  clean_slot fromisoformat cutoff kv
  = (fst kv,
     (fun k v => if among sports k then clean_value fromisoformat cutoff v else v)
       (fst kv) (snd kv)).
Proof.
  unfold clean_slot. destruct kv as [k v]. cbn [fst snd].
  now destruct (among sports k).
Qed.

Lemma dict_get_cleaned cutoff data k :
  dict_get k (map (clean_slot fromisoformat cutoff) data)
  = option_map (fun v => if among sports k then clean_value fromisoformat cutoff v else v)
      (dict_get k data).
Proof.
  apply (dict_get_map_slot (clean_slot fromisoformat cutoff)
           (fun k v => if among sports k then clean_value fromisoformat cutoff v else v)).
  apply clean_slot_shape.
Qed.

Lemma keys_cleaned cutoff data :
  keys (map (clean_slot fromisoformat cutoff) data) = keys data.
Proof.
  apply keys_map_slot. intros kv. rewrite clean_slot_shape. reflexivity.
Qed.

Lemma slot_ok_cleaned cutoff data s :
  slot_ok data s -> slot_ok (map (clean_slot fromisoformat cutoff) data) s.
Proof.
  intros Hok slot. rewrite dict_get_cleaned.
  destruct (dict_get s data) as [v|] eqn:E; [|discriminate].
  destruct (Hok v E) as (m & -> & Hwf). cbn [option_map].
  destruct (among sports s); cbn [clean_value]; intros [= <-].
  - eexists. split; [reflexivity|]. now apply dict_wf_filter.
  - eauto.
Qed.

(** *** Time only makes entries expire *)

Lemma is_expired_later c1 c2 v :
  aware c1 = aware c2 -> (micros c1 <= micros c2)%Z ->
  is_expired fromisoformat c1 v = true -> is_expired fromisoformat c2 v = true.
Proof.
  intros Ha Hm. unfold is_expired.
  destruct v as [| | | | |entry]; try discriminate.
  destruct (dict_mem "timestamp" entry); [|discriminate].
  destruct (dict_getitem "timestamp" entry) as [ts|]; cbn [bind]; [|reflexivity].
  destruct (py_fromisoformat fromisoformat ts) as [t|]; cbn [bind]; [|reflexivity].
  unfold dt_lt. rewrite <- Ha.
  destruct (Bool.eqb (aware t) (aware c1)); [|reflexivity].
  rewrite !Z.ltb_lt. lia.
Qed.

Lemma clean_value_later c1 c2 v :
  aware c1 = aware c2 -> (micros c1 <= micros c2)%Z ->
  clean_value fromisoformat c2 (clean_value fromisoformat c1 v)
  = clean_value fromisoformat c2 v.
Proof.
  intros Ha Hm. destruct v as [| | | | |m]; try reflexivity.
  cbn [clean_value]. rewrite filter_filter. f_equal. apply filter_ext.
  intros [k v]. cbn [snd].
  destruct (is_expired fromisoformat c1 v) eqn:E1; [|reflexivity].
  now rewrite (is_expired_later c1 c2 v Ha Hm E1).
Qed.

(** X10 (a later scan makes the earlier one redundant).  On a document whose
    three scanned domains are mappings, a scan at one instant followed by
    a scan at the same or a later instant (of the same kind of clock)
    leaves what the later scan alone leaves; in particular a scan repeated
    at the same instant changes nothing more. *)
Theorem later_cleaning_subsumes data now1 now2 days :
  dict_wf data ->
  (forall s, In s sports -> slot_ok data s) ->
  aware now1 = aware now2 -> (micros now1 <= micros now2)%Z ->
  let once := snd (_clean_expired_data fromisoformat now1 days data) in
  _clean_expired_data fromisoformat now2 days once
  = (Ok tt, snd (_clean_expired_data fromisoformat now2 days data)) /\
  _clean_expired_data fromisoformat now1 days once = (Ok tt, once).
Proof.
  intros Hwf Hok Ha Hm. cbn zeta.
  rewrite !(clean_expired_closed _ _ data Hwf Hok). cbn [snd].
  assert (Hwf' : dict_wf (map (clean_slot fromisoformat (minus_days now1 days)) data)).
  { unfold dict_wf. now rewrite keys_cleaned. }
  assert (Hok' : forall s, In s sports ->
            slot_ok (map (clean_slot fromisoformat (minus_days now1 days)) data) s).
  { intros s Hs. apply slot_ok_cleaned. now apply Hok. }
  rewrite !(clean_expired_closed _ _ _ Hwf' Hok').
  assert (Hcomp : forall n2, aware now1 = aware n2 -> (micros now1 <= micros n2)%Z ->
    map (clean_slot fromisoformat (minus_days n2 days))
      (map (clean_slot fromisoformat (minus_days now1 days)) data)
    = map (clean_slot fromisoformat (minus_days n2 days)) data).
  { intros n2 Ha2 Hm2. rewrite map_map. apply map_ext. intros [k v].
    unfold clean_slot. cbn [fst snd].
    destruct (among sports k) eqn:E; cbn [fst snd]; rewrite E; [|reflexivity].
    f_equal. apply clean_value_later; unfold minus_days; cbn [aware micros];
      [exact Ha2 | lia]. }
  split.
  - now rewrite Hcomp.
  - rewrite Hcomp; [reflexivity | reflexivity | lia].
Qed.

(** X11 (loading a document without expired entries).  When the three scanned
    domains of a document are mappings and none of their entries is one
    that the scan collects, [_load_cache] returns the document as it was
    read. *)
Theorem load_keeps_unexpired_document data now now_iso :
  dict_wf data ->
  (forall s, In s sports -> slot_ok data s) ->
  (forall s m key value,
     In s sports -> dict_get s data = Some (PDict m) -> In (key, value) m ->
     is_expired fromisoformat (minus_days now 7) value = false) ->
  _load_cache fromisoformat (Some (Ok data)) now now_iso = data.
Proof.
  intros Hwf Hok Hfresh. unfold _load_cache.
  rewrite (clean_expired_closed now 7 data Hwf Hok). cbn [snd].
  rewrite <- (map_id data) at 2. apply map_ext_in. intros [k v] Hin.
  unfold clean_slot. cbn [fst snd].
  destruct (among sports k) eqn:E; [|reflexivity].
  apply among_In in E. f_equal.
  destruct v as [| | | | |m]; try reflexivity. cbn [clean_value]. f_equal.
  apply filter_all. intros [key value] Hkv. cbn [snd].
  rewrite (Hfresh k m key value E (In_dict_get _ _ _ Hwf Hin) Hkv). reflexivity.
Qed.

(** *** A slot that is not a mapping *)

Lemma for_each_app {S A} (l1 l2 : list A) (body : A -> M S unit) s :
  for_each (l1 ++ l2) body s
  = match for_each l1 body s with
    | (Ok _, s') => for_each l2 body s'
    | (Raise e, s') => (Raise e, s')
    end.
Proof.
  revert s. induction l1 as [|x l1 IH]; intros s; [reflexivity|].
  cbn [app for_each]. unfold bindM.
  destruct (body x s) as [[[]|e] s']; [apply IH | reflexivity].
Qed.

Lemma fold_clean_other cutoff l : forall data s,
  ~ In s l ->
  dict_get s (fold_left (fun d s' => clean_domain fromisoformat cutoff s' d) l data)
  = dict_get s data.
Proof.
  induction l as [|x l IH]; intros data s Hs; [reflexivity|].
  cbn [fold_left]. rewrite IH by (simpl in Hs; tauto).
  apply clean_domain_other. simpl in Hs. intros ->. tauto.
Qed.

Lemma sports_NoDup : NoDup sports.
Proof. unfold sports. repeat constructor; simpl; intuition discriminate. Qed.

(** X12 (a slot that is not a mapping stops the scan).  The domains are
    scanned in the order f1, football, nba.  When the document holds under
    one of them a value that is not a mapping, the scan ends there without
    raising: the domains before it have been cleaned, that one and those
    after it are as they were read, expired entries included. *)
Theorem broken_slot_stops_cleaning data now days pre s post v :
  sports = pre ++ s :: post ->
  (forall s', In s' pre -> slot_ok data s') ->
  dict_get s data = Some v -> (forall m, v <> PDict m) ->
  let cleaned :=
    fold_left (fun d s' => clean_domain fromisoformat (minus_days now days) s' d) pre data in
  _clean_expired_data fromisoformat now days data = (Ok tt, cleaned) /\
  (forall s', In s' (s :: post) -> dict_get s' cleaned = dict_get s' data).
Proof.
  intros Hsplit Hok Hv Hbroken. cbn zeta.
  pose proof sports_NoDup as Hnd. rewrite Hsplit in Hnd.
  assert (Hnotin : forall s', In s' (s :: post) -> ~ In s' pre).
  { intros s' Hs' Hpre. apply NoDup_app_remove_l in Hnd as Hnd2.
    clear Hnd2. revert Hnd Hs' Hpre. clear. intros Hnd Hs' Hpre.
    induction pre as [|x pre IH]; [destruct Hpre|].
    simpl in Hnd. inversion Hnd as [|? ? Hx Hnd']; subst.
    destruct Hpre as [->|Hpre]; [|now apply IH].
    apply Hx. apply in_or_app. now right. }
  split.
  - unfold _clean_expired_data, try_except. rewrite Hsplit, for_each_app.
    pose proof (clean_sports_run fromisoformat (minus_days now days) pre data Hok) as Hrun.
    cbv beta zeta in Hrun |- *. rewrite Hrun. clear Hrun.
    cbn [for_each]. rewrite bindM_run, bindM_get.
    unfold dict_mem, dict_getitem.
    rewrite fold_clean_other by (apply Hnotin; now left). rewrite Hv.
    unfold bindM, lift.
    destruct v as [| | | | |m]; cbn [py_items]; try reflexivity.
    now destruct (Hbroken m).
  - intros s' Hs'. apply fold_clean_other. now apply Hnotin.
Qed.

(** *** What the scan never does *)

Lemma for_each_inv {S A} (P : S -> Prop) (l : list A) (body : A -> M S unit) :
  (forall x s, In x l -> P s -> P (snd (body x s))) ->
  forall s, P s -> P (snd (for_each l body s)).
Proof.
  induction l as [|x l IH]; intros H s Hs; cbn [for_each]; [exact Hs|].
  unfold bindM. pose proof (H x s (or_introl eq_refl) Hs) as Hx.
  destruct (body x s) as [[u|e] s']; cbn [snd] in *; [|exact Hx].
  apply IH; [|exact Hx]. intros y t Hy. apply H. now right.
Qed.

Lemma shrunk_remove key m v :
  shrunk v (PDict m) -> shrunk v (PDict (dict_remove key m)).
Proof.
  intros [Hv|(m0 & m' & -> & [= ->] & Hincl)]; right.
  - subst v. exists m, (dict_remove key m). repeat split. apply incl_dict_remove.
  - exists m0, (dict_remove key m'). repeat split.
    eapply incl_tran; [apply incl_dict_remove | exact Hincl].
Qed.

Lemma delete_step_untouched data sport key st :
  In sport sports -> untouched data st ->
  untouched data
    (snd ((data <~ get ;;
           slot <~ lift (dict_getitem sport data) ;;
           slot <~ lift (py_delitem slot key) ;;
           put (dict_set sport slot data)) st)).
Proof.
  intros Hs H. unfold bindM, get, lift, put, dict_getitem.
  destruct (dict_get sport st) as [slot|] eqn:E; [|exact H].
  destruct slot as [| | | | |m]; cbn [py_delitem]; try exact H.
  unfold dict_del. destruct (dict_mem key m); cbn [bind snd]; [|exact H].
  destruct H as (Hkeys & Hother & Hshrunk). split; [|split].
  - rewrite <- Hkeys. now apply (keys_dict_set_present _ _ (PDict m)).
  - intros d Hd. rewrite dict_get_set_neq; [now apply Hother|]. intros ->. contradiction.
  - intros d v'. destruct (String.eqb_spec sport d) as [<-|Hne].
    + rewrite dict_get_set_eq. intros [= <-].
      destruct (Hshrunk sport (PDict m) E) as (v & Hv & Hsh).
      exists v. split; [exact Hv | now apply shrunk_remove].
    + rewrite dict_get_set_neq by exact Hne. apply Hshrunk.
Qed.

Lemma untouched_refl data : untouched data data.
Proof.
  split; [reflexivity|]. split; [reflexivity|].
  intros d v' H. exists v'. split; [exact H | now left].
Qed.

(** X13 (the scan only removes).  On every document, well formed or not,
    [_clean_expired_data] returns without raising, keeps the names of the
    document, leaves every name other than f1, football and nba with its
    value (the metadata, and any domain of another name, whose entries
    therefore never expire), and under a scanned name leaves the value as
    it was or a mapping that holds entries of the former one only. *)
Theorem cleaning_only_removes now days data :
  fst (_clean_expired_data fromisoformat now days data) = Ok tt /\
  untouched data (snd (_clean_expired_data fromisoformat now days data)).
Proof.
  unfold _clean_expired_data, try_except. cbv zeta.
  match goal with |- context [for_each sports ?b data] => set (body := b) end.
  assert (Hinv : untouched data (snd (for_each sports body data))).
  { apply for_each_inv; [|apply untouched_refl].
    intros sport st Hs Hst. unfold body. rewrite bindM_get.
    destruct (dict_mem sport st); [|exact Hst].
    unfold bindM at 1, lift at 1.
    destruct (dict_getitem sport st) as [slot|e]; [|exact Hst].
    unfold bindM at 1, lift at 1.
    destruct (py_items slot) as [items|e]; [|exact Hst].
    apply for_each_inv; [|exact Hst].
    intros key st' _ Hst'. now apply delete_step_untouched. }
  destruct (for_each sports body data) as [[[]|e] st]; cbn [fst snd] in *;
    split; auto.
Qed.

End Cleaning.

Lemma ex_document_wf : dict_wf ex_document.
Proof.
  unfold dict_wf, keys. simpl. repeat constructor; simpl; intuition discriminate.
Qed.

(** The theorem at [ex_document], scanned at [ex_now] and a day later. *)
Lemma later_cleaning_subsumes_witness :
  let later := mkDatetime false (micros ex_now + 86400000000) in
  let once := snd (_clean_expired_data fromisoformat_basic ex_now 7 ex_document) in
  _clean_expired_data fromisoformat_basic later 7 once
  = (Ok tt, snd (_clean_expired_data fromisoformat_basic later 7 ex_document)) /\
  _clean_expired_data fromisoformat_basic ex_now 7 once = (Ok tt, once).
Proof.
  cbn zeta.
  apply (later_cleaning_subsumes fromisoformat_basic ex_document ex_now
           (mkDatetime false (micros ex_now + 86400000000)) 7).
  - exact ex_document_wf.
  - exact ex_document_slots.
  - reflexivity.
  - simpl. lia.
Defined.

(** The theorem at [ex_fresh_document], loaded at [ex_now]. *)
Lemma load_keeps_unexpired_document_witness :
  _load_cache fromisoformat_basic (Some (Ok ex_fresh_document)) ex_now "2024-05-01T12:00:00"
  = ex_fresh_document.
Proof.
  apply (load_keeps_unexpired_document fromisoformat_basic ex_fresh_document ex_now).
  - unfold dict_wf, keys. simpl. repeat constructor; simpl; intuition discriminate.
  - intros s Hs slot Hslot. simpl in Hs.
    destruct Hs as [<-|[<-|[<-|[]]]]; vm_compute in Hslot; injection Hslot as <-;
      eexists; (split; [reflexivity|]); unfold dict_wf, keys; simpl;
      repeat constructor; simpl; intuition discriminate.
  - intros s m key value Hs Hget Hin. simpl in Hs.
    destruct Hs as [<-|[<-|[<-|[]]]]; vm_compute in Hget; injection Hget as <-;
      simpl in Hin;
      repeat match goal with
      | H : _ \/ _ |- _ => destruct H as [H|H]
      | H : (_, _) = (_, _) |- _ => injection H as <- <-
      | H : False |- _ => destruct H
      end; vm_compute; reflexivity.
Defined.

(** The theorem at [ex_broken_document]: the old nba entry stays. *)
Lemma broken_slot_stops_cleaning_witness :
  let cleaned :=
    fold_left (fun d s' => clean_domain fromisoformat_basic (minus_days ex_now 7) s' d)
      ["f1"] ex_broken_document in
  _clean_expired_data fromisoformat_basic ex_now 7 ex_broken_document = (Ok tt, cleaned) /\
  (forall s', In s' ["football"; "nba"] ->
     dict_get s' cleaned = dict_get s' ex_broken_document).
Proof.
  cbn zeta.
  apply (broken_slot_stops_cleaning fromisoformat_basic ex_broken_document ex_now 7
           ["f1"] "football" ["nba"] (PList [])).
  - reflexivity.
  - intros s' [<-|[]] slot Hslot. vm_compute in Hslot. injection Hslot as <-.
    eexists. split; [reflexivity|]. unfold dict_wf, keys. simpl.
    repeat constructor; simpl; intuition discriminate.
  - reflexivity.
  - intros m. discriminate.
Defined.

End ExpiryFacts.

(* ================================================================== *)
(** ** The rules of the parser *)
(* ================================================================== *)

Module RuleFacts.
Import Py PySpec PyFacts QueryParser ParserSpec ParserFacts RuleSpec.

(** *** The parameters, group by group *)

Lemma existsb_find {A} (p : A -> bool) (l : list A) :
  existsb p l = match find p l with Some _ => true | None => false end.
Proof.
  induction l as [|x l IH]; simpl; [reflexivity|]. now destruct (p x).
Qed.

Lemma find_keys {A} (p : string -> bool) (d : dict A) :
  find p (keys d) = option_map fst (find (fun kv => p (fst kv)) d).
Proof.
  unfold keys. induction d as [|[k v] d IH]; simpl; [reflexivity|].
  now destruct (p k).
Qed.

Lemma table_of_getitem {A} (sport : option string) (tables : dict (dict A)) :
  sport_in sport tables = true ->
  sport_getitem sport tables = Ok (table_of sport tables).
Proof.
  unfold sport_in, sport_getitem, table_of, dict_mem, dict_getitem.
  destruct sport as [s|]; [|discriminate].
  now destruct (dict_get s tables).
Qed.

Lemma table_of_absent {A} (sport : option string) (tables : dict (dict A)) :
  sport_in sport tables = false -> table_of sport tables = [].
Proof.
  unfold sport_in, table_of, dict_mem.
  destruct sport as [s|]; [|reflexivity].
  now destruct (dict_get s tables).
Qed.

Lemma extract_parameters_groups text sport :
  _extract_parameters text sport
  = if round_too_long text then Raise ValueError
    else Ok (year_parameter text ++ player_parameter text sport
             ++ team_parameter text sport ++ round_parameter text).
Proof.
  unfold _extract_parameters, year_parameter, player_parameter, team_parameter,
    round_parameter.
  fold (round_digits text).
  destruct (re_search match_year (code_points text)) as [g|] eqn:Ey;
    [rewrite (search_year_int _ _ Ey)|]; cbn [bind];
  (destruct (sport_in sport player_names) eqn:Ep;
    [rewrite (table_of_getitem _ _ Ep); cbn [bind];
     destruct (find _ (table_of sport player_names)) as [[? ?]|]
    |rewrite (table_of_absent _ _ Ep); cbn [find]]; cbn [bind];
   (destruct (sport_in sport team_names) eqn:Et;
     [rewrite (table_of_getitem _ _ Et); cbn [bind];
      destruct (find _ (table_of sport team_names)) as [[? ?]|];
      [destruct (sport_eq sport "football" && is_int _)|]
     |rewrite (table_of_absent _ _ Et); cbn [find]]; cbn [bind];
    (destruct (round_digits text) as [g'|] eqn:Er;
      [rewrite (search_round_int _ _ Er); now destruct (round_too_long text)
      |now rewrite (no_round_not_too_long _ Er)]))).
Qed.

Lemma match_year_range l g :
  match_year l = Some g -> (0 <= int_of_digits 0 g <= 9999)%Z.
Proof.
  unfold match_year.
  destruct l as [|a [|b [|c [|d l]]]]; try discriminate.
  destruct (is_decimal a && is_decimal b && is_decimal c && is_decimal d);
    [|discriminate].
  intros [= <-].
  pose proof (decimal_or_zero_range a). pose proof (decimal_or_zero_range b).
  pose proof (decimal_or_zero_range c). pose proof (decimal_or_zero_range d).
  cbn [int_of_digits]. lia.
Qed.

Lemma int_of_digits_nonneg l : forall acc,
  (0 <= acc)%Z -> (0 <= int_of_digits acc l)%Z.
Proof.
  induction l as [|c l IH]; intros acc Hacc; cbn [int_of_digits]; [auto|].
  pose proof (decimal_or_zero_range c). apply IH. lia.
Qed.

Lemma table_of_player_names sport :
  table_of sport player_names <> [] -> sport = Some "nba".
Proof.
  unfold table_of. destruct sport as [s|]; [|congruence].
  unfold player_names. cbn [dict_get].
  destruct (String.eqb_spec s "nba") as [->|]; congruence.
Qed.

Lemma table_of_team_names sport :
  table_of sport team_names <> [] -> sport = Some "nba" \/ sport = Some "football".
Proof.
  unfold table_of. destruct sport as [s|]; [|congruence].
  unfold team_names. cbn [dict_get].
  destruct (String.eqb_spec s "nba") as [->|]; [now left|].
  destruct (String.eqb_spec s "football") as [->|]; [now right | congruence].
Qed.

Lemma nba_teams_are_names :
  Forall (fun kv => exists team_en, snd kv = PStr team_en)
    (table_of (Some "nba") team_names).
Proof. cbn. repeat constructor; eexists; reflexivity. Qed.

Lemma football_leagues_are_numbers :
  Forall (fun kv => exists league_id, snd kv = PInt league_id)
    (table_of (Some "football") team_names).
Proof. cbn. repeat constructor; eexists; reflexivity. Qed.

Lemma year_parameter_of text sport k v :
  In (k, v) (year_parameter text) -> parameter_of text sport k v.
Proof.
  unfold year_parameter.
  destruct (re_search match_year (code_points text)) as [g|] eqn:E; [|intros []].
  intros [[= <- <-]|[]]. apply is_year.
  apply re_search_anchored in E. destruct E as (l1 & l2 & _ & E).
  now apply match_year_range in E.
Qed.

Lemma round_parameter_of text sport k v :
  In (k, v) (round_parameter text) -> parameter_of text sport k v.
Proof.
  unfold round_parameter.
  destruct (re_search match_round (code_points text)) as [g|] eqn:E; [|intros []].
  intros [[= <- <-]|[]]. apply is_round. apply int_of_digits_nonneg. lia.
Qed.

Lemma player_parameter_of text sport k v :
  In (k, v) (player_parameter text sport) -> parameter_of text sport k v.
Proof.
  unfold player_parameter.
  destruct (find _ (table_of sport player_names)) as [[cn en]|] eqn:E; [|intros []].
  intros [[= <- <-]|[]].
  assert (Hs : sport = Some "nba").
  { apply table_of_player_names. intros H. rewrite H in E. discriminate. }
  apply find_some in E. destruct E as [Hin Hc]. rewrite Hs in Hin.
  now apply (is_player text sport cn en).
Qed.

Lemma team_parameter_of text sport k v :
  In (k, v) (team_parameter text sport) -> parameter_of text sport k v.
Proof.
  unfold team_parameter.
  destruct (find _ (table_of sport team_names)) as [[cn en]|] eqn:E; [|intros []].
  intros [[= <- <-]|[]].
  assert (Hs : sport = Some "nba" \/ sport = Some "football").
  { apply table_of_team_names. intros H. rewrite H in E. discriminate. }
  apply find_some in E. destruct E as [Hin Hc]. cbn [fst] in Hc.
  destruct Hs as [Hs|Hs]; rewrite Hs in Hin |- *.
  - pose proof nba_teams_are_names as Hall. rewrite Forall_forall in Hall.
    destruct (Hall _ Hin) as [name Hname]. cbn [snd] in Hname. subst en.
    cbn [sport_eq String.eqb Ascii.eqb Bool.eqb andb].
    now apply (is_team text (Some "nba") cn name).
  - pose proof football_leagues_are_numbers as Hall. rewrite Forall_forall in Hall.
    destruct (Hall _ Hin) as [id Hid]. cbn [snd] in Hid. subst en.
    cbn [sport_eq String.eqb Ascii.eqb Bool.eqb andb is_int as_int].
    now apply (is_league text (Some "football") cn id).
Qed.

Lemma groups_parameter_of text sport k v :
  In (k, v) (year_parameter text ++ player_parameter text sport
             ++ team_parameter text sport ++ round_parameter text) ->
  parameter_of text sport k v.
Proof.
  intros H. apply in_app_or in H. destruct H as [H|H];
    [now apply year_parameter_of|].
  apply in_app_or in H. destruct H as [H|H]; [now apply player_parameter_of|].
  apply in_app_or in H. destruct H as [H|H];
    [now apply team_parameter_of | now apply round_parameter_of].
Qed.

Lemma groups_keys text sport :
  subseq (keys (year_parameter text ++ player_parameter text sport
                ++ team_parameter text sport ++ round_parameter text))
    ["year"; "player"; "team"; "round"] \/
  subseq (keys (year_parameter text ++ player_parameter text sport
                ++ team_parameter text sport ++ round_parameter text))
    ["year"; "player"; "league_id"; "round"].
Proof.
  unfold year_parameter, player_parameter, team_parameter, round_parameter.
  destruct (re_search match_year (code_points text));
    destruct (find _ (table_of sport player_names)) as [[? ?]|];
    destruct (find _ (table_of sport team_names)) as [[? ?]|];
    try destruct (sport_eq sport "football" && is_int _);
    destruct (re_search match_round (code_points text)); cbn [app keys map fst];
    first [left; now repeat constructor | right; now repeat constructor].
Qed.

(** X14 (what [_extract_parameters] can return).  It raises [ValueError]
    when the round that the text names has more digits than [int]
    converts (4300), and returns on every other text, whatever the sport.
    Each parameter it returns is one of: [year], a number from 0 to 9999;
    [round], a number not below 0; [player], the English name of a player
    of the nba table one of whose aliases occurs in the text, for the
    sport nba only; [team], likewise the name of a team, for nba only;
    [league_id], the number of a league whose name occurs in the text, for
    football only.  The names come in the order year, player, team or
    league_id, round, each at most once, and [team] never with
    [league_id].  The digits are those of any script, as [\d] and [int]
    take them. *)
Theorem extracted_parameters_shape text sport :
  (round_too_long text = true -> _extract_parameters text sport = Raise ValueError) /\
  (round_too_long text = false ->
   exists params,
     _extract_parameters text sport = Ok params /\
     (forall k v, In (k, v) params -> parameter_of text sport k v) /\
     (subseq (keys params) ["year"; "player"; "team"; "round"] \/
      subseq (keys params) ["year"; "player"; "league_id"; "round"])).
Proof.
  rewrite extract_parameters_groups. split; intros ->; [reflexivity|].
  eexists. split; [reflexivity|]. split.
  - apply groups_parameter_of.
  - apply groups_keys.
Qed.

(** The theorem at a text with a year and a round in full-width digits,
    and at a round of 4301 digits. *)
Lemma extracted_parameters_shape_witness :
  _extract_parameters (long_round 4301) None = Raise ValueError /\
  exists params,
    _extract_parameters "２０２４年第３轮" (Some "f1") = Ok params /\
    (forall k v, In (k, v) params -> parameter_of "２０２４年第３轮" (Some "f1") k v) /\
    (subseq (keys params) ["year"; "player"; "team"; "round"] \/
     subseq (keys params) ["year"; "player"; "league_id"; "round"]).
Proof.
  split.
  - apply (proj1 (extracted_parameters_shape (long_round 4301) None)).
    vm_compute. reflexivity.
  - apply (proj2 (extracted_parameters_shape "２０２４年第３轮" (Some "f1"))).
    vm_compute. reflexivity.
Defined.

(** *** The rules as one table *)

Lemma player_override_table text r :
  player_override text r
  = Ok (if names_player text (sport r)
        then set_confidence (max2 (confidence r) (8 # 10)%Q)
               (set_query_type (if asks_statistics text then "player_stats" else "players")
                  r)
        else r).
Proof.
  unfold player_override, names_player, asks_statistics.
  destruct (sport_in (sport r) player_names) eqn:E.
  - rewrite (table_of_getitem _ _ E). cbn [bind].
    rewrite (existsb_find _ (keys (table_of (sport r) player_names))).
    now destruct (find _ (keys (table_of (sport r) player_names))).
  - now rewrite (table_of_absent _ _ E).
Qed.

Lemma choice_in_keys norm table text c :
  choice (scored norm table text) = Some c -> In c (keys table).
Proof.
  unfold choice. destruct (max_score _ =? 0)%nat; [discriminate|].
  destruct (find _ (scored norm table text)) as [[name n]|] eqn:E; [|discriminate].
  intros [= <-]. apply find_some in E. destruct E as [Hin _].
  unfold scored in Hin. apply in_map_iff in Hin.
  destruct Hin as ([k kws] & [= <- _] & Hin). now apply (in_map fst) in Hin.
Qed.

Lemma sport_choice_cases text :
  let cs := choice (scored lower sport_keywords text) in
  cs = None \/ cs = Some "f1" \/ cs = Some "football" \/ cs = Some "nba".
Proof.
  cbn zeta. destruct (choice (scored lower sport_keywords text)) as [c|] eqn:E;
    [|now left].
  apply choice_in_keys in E. simpl in E. right.
  destruct E as [<-|[<-|[<-|[]]]]; auto.
Qed.

Lemma add_parameter_bonus_fields p r :
  let r' := add_parameter_bonus (set_parameters p r) in
  sport r' = sport r /\ query_type r' = query_type r /\ parameters r' = p /\
  original_text r' = original_text r /\
  (confidence r' == confidence r + parameter_bonus p)%Q.
Proof.
  cbn zeta. unfold add_parameter_bonus, set_parameters, parameter_bonus.
  cbn [parameters]. destruct p as [|kv p]; cbn; repeat split; try reflexivity.
  ring.
Qed.

Lemma with_choice_sport cs r : sport r = None -> sport (with_choice cs set_sport r) = cs.
Proof. unfold with_choice. destruct cs; auto. Qed.

Lemma with_choice_query_type_sport cq r : sport (with_choice cq set_query_type r) = sport r.
Proof. unfold with_choice. now destruct cq. Qed.

(** Each field of a result of [parse_query] in closed form. *)
Lemma parse_query_closed text r :
  parse_query text = Ok r ->
  let t := normalize text in
  let cs := choice (scored lower sport_keywords t) in
  let cq := choice (scored lower query_types t) in
  sport r = cs /\
  query_type r = decided_query_type t cs cq /\
  parameters r = year_parameter t ++ player_parameter t cs
                 ++ team_parameter t cs ++ round_parameter t /\
  (confidence r == decided_confidence t cs cq + parameter_bonus (parameters r))%Q /\
  original_text r = t.
Proof.
  intros Hr. pose proof (parse_query_returns _ _ Hr) as Hrtl.
  revert Hr. cbn zeta. unfold parse_query, recognise.
  set (t := normalize text) in *.
  rewrite detect_sport_run. cbn [bind]. rewrite detect_query_type_run. cbn [bind].
  rewrite player_override_table. cbn [bind].
  rewrite extract_parameters_groups, Hrtl. cbn [bind].
  rewrite f1_drivers_rule_sport, f1_teams_rule_sport, football_scorers_rule_sport.
  set (cs := choice (scored lower sport_keywords t)).
  set (cq := choice (scored lower query_types t)).
  set (r2 := with_choice cq set_query_type (with_choice cs set_sport (initial_result t))).
  assert (Hs2 : sport r2 = cs).
  { unfold r2. rewrite with_choice_query_type_sport. now apply with_choice_sport. }
  rewrite Hs2.
  assert (Hs3 : sport (if names_player t cs
            then set_confidence (max2 (confidence r2) (8 # 10)%Q)
                   (set_query_type
                      (if asks_statistics t then "player_stats" else "players") r2)
            else r2) = cs).
  { now destruct (names_player t cs). }
  rewrite Hs3.
  set (p := year_parameter t ++ player_parameter t cs
            ++ team_parameter t cs ++ round_parameter t).
  intros [= <-].
  match goal with
  | |- context [add_parameter_bonus (set_parameters p ?x)] =>
      destruct (add_parameter_bonus_fields p x) as (H1 & H2 & H3 & H4 & H5)
  end.
  cbn zeta in H1, H2, H3, H4, H5.
  rewrite H1, H2, H3, H4, H5. clear H1 H2 H3 H4 H5.
  rewrite f1_drivers_rule_sport, f1_teams_rule_sport, football_scorers_rule_sport, Hs3.
  split; [reflexivity|].
  assert (Hq : query_type r2 = cq /\
               (confidence r2 == (match cs with Some _ => 3 # 10 | None => 0 end)
                                 + (match cq with Some _ => 3 # 10 | None => 0 end))%Q /\
               original_text r2 = t).
  { unfold r2, with_choice. destruct cs, cq; cbn; repeat split; reflexivity. }
  destruct Hq as (Hq & Hc & Ht).
  assert (Hbase : (confidence r2 <= 6 # 10)%Q /\ (0 <= confidence r2)%Q).
  { rewrite Hc. destruct cs, cq; split; vm_compute; discriminate. }
  assert (Hnp : names_player t cs = true -> cs = Some "nba").
  { unfold names_player. intros H.
    apply table_of_player_names. intros E. rewrite E in H. discriminate. }
  unfold f1_drivers_rule, f1_teams_rule, football_scorers_rule, sport_is,
    decided_query_type, decided_confidence, asks_drivers, asks_constructors, asks_scorers.
  clear Hs3. clearbody r2.
  assert (Hmax : forall m, (6 # 10 < m)%Q -> max2 (confidence r2) m = m).
  { intros m Hm. unfold max2. destruct (Qle_bool m (confidence r2)) eqn:E; [|reflexivity].
    apply Qle_bool_iff in E. exfalso. destruct Hbase as [Hb _].
    apply (Qlt_irrefl m). eapply Qle_lt_trans; [exact E|].
    eapply Qle_lt_trans; [exact Hb | exact Hm]. }
  assert (Hidem : forall m, max2 m m = m).
  { intros m. unfold max2. now destruct (Qle_bool m m). }
  destruct (sport_choice_cases t) as [E|[E|[E|E]]]; fold cs in E; rewrite E in *;
    generalize (contains "车手" t) (contains "车队" t) (contains "积分榜" t)
      (contains "射手" t) (contains "进球" t) (asks_statistics t);
    intros b1 b2 b3 b4 b5 b6;
    [ assert (Hn : names_player t None = false) by reflexivity; rewrite Hn
    | assert (Hn : names_player t (Some "f1") = false) by reflexivity; rewrite Hn
    | assert (Hn : names_player t (Some "football") = false) by reflexivity; rewrite Hn
    | destruct (names_player t (Some "nba")) ];
    destruct b1, b2, b3, b4, b5, b6;
    repeat (rewrite ?Hs2;
            cbn [sport_eq String.eqb Ascii.eqb Bool.eqb andb orb sport set_confidence
                 set_query_type query_type confidence original_text]);
    (split; [first [reflexivity | exact Hq]|]); (split; [reflexivity|]);
    (split; [|exact Ht]);
    apply Qplus_inj_r; rewrite ?Hmax by reflexivity; rewrite ?Hidem; rewrite ?Hc;
    reflexivity.
Qed.





(** X15 (the query type, rule by rule).  The query type that [parse_query]
    returns is given by one table in which the rule written last comes
    first: [standings] when the sport is f1 and the text has [车手] and
    [积分榜]; else [teams] when the sport is f1 and the text has [车队] and
    [积分榜]; else [top_scorers] when the sport is football and the text
    has [射手] or [进球]; else [player_stats] or [players] when the sport
    has a table of players and the text names one, according to whether a
    word of statistics occurs; else the type with the highest keyword
    count. *)
Theorem query_type_decision text r :
  parse_query text = Ok r ->
  query_type r
  = decided_query_type (normalize text) (sport r)
      (choice (scored lower query_types (normalize text))).
Proof.
  intros Hr. destruct (parse_query_closed text r Hr) as (Hs & Hq & _).
  cbn zeta in Hs, Hq. now rewrite Hs.
Qed.

(** The theorem at [库里数据]. *)
Lemma query_type_decision_witness :
  Some "player_stats"
  = decided_query_type (normalize "库里数据") (Some "nba")
      (choice (scored lower query_types (normalize "库里数据"))).
Proof.
  apply (query_type_decision "库里数据"
           (mkResult (Some "nba") (Some "player_stats") [("player", PStr "Stephen Curry")]
              (120 # 100)%Q "库里数据")).
  vm_compute. reflexivity.
Defined.

(** X16 (the confidence, rule by rule, in exact arithmetic).  With the
    sums taken as exact rationals, as the specification takes them, the
    confidence that [parse_query] returns is the bonus of the parameters
    (0.4 when there is one) added to: 0.9 when one of the two f1 rules
    applies; else 0.7 when the football rule applies; else 0.8 when a
    player is named; else 0.3 for a sport detected plus 0.3 for a query
    type detected.  The source adds these as binary floating-point
    numbers: its value is the floating-point sum of the same terms, which
    for 0.8 + 0.4 is 1.2000000000000002 and not 1.2. *)
Theorem confidence_decision text r :
  parse_query text = Ok r ->
  (confidence r
   == decided_confidence (normalize text) (sport r)
        (choice (scored lower query_types (normalize text)))
      + parameter_bonus (parameters r))%Q.
Proof.
  intros Hr. destruct (parse_query_closed text r Hr) as (Hs & _ & _ & Hc & _).
  cbn zeta in Hs, Hc. now rewrite Hs.
Qed.

(** The theorem at [西甲射手榜]: 0.7 for the rule and 0.4 for the league. *)
Lemma confidence_decision_witness :
  (110 # 100
   == decided_confidence (normalize "西甲射手榜") (Some "football")
        (choice (scored lower query_types (normalize "西甲射手榜")))
      + parameter_bonus [("league_id", PInt 2014)])%Q.
Proof.
  apply (confidence_decision "西甲射手榜"
           (mkResult (Some "football") (Some "top_scorers") [("league_id", PInt 2014)]
              (110 # 100)%Q "西甲射手榜")).
  vm_compute. reflexivity.
Defined.

Lemma decided_confidence_floor text sport detected :
  (decided_confidence text sport detected < 3 # 10)%Q ->
  sport = None /\ detected = None.
Proof.
  unfold decided_confidence.
  destruct (asks_drivers text sport || asks_constructors text sport);
    [vm_compute; discriminate|].
  destruct (asks_scorers text sport); [vm_compute; discriminate|].
  destruct (names_player text sport); [vm_compute; discriminate|].
  destruct sport, detected; vm_compute; intros H; try discriminate; auto.
Qed.

Lemma decided_without_sport text detected :
  decided_query_type text None detected = detected /\
  decided_confidence text None detected
  = (0 + match detected with Some _ => 3 # 10 | None => 0 end)%Q.
Proof. split; reflexivity. Qed.

(** Below 0.3 there is only 0, the confidence of a result in which nothing
    was recognised. *)
Lemma low_confidence_closed text cs cq p (c : Q) :
  (c == decided_confidence text cs cq + parameter_bonus p)%Q ->
  ((c < 3 # 10)%Q <-> cs = None /\ decided_query_type text cs cq = None /\ p = []) /\
  ((c < 3 # 10)%Q -> (c == 0)%Q).
Proof.
  intros Hc.
  assert (Hzero : cs = None -> decided_query_type text cs cq = None -> p = [] ->
                  (c == 0)%Q).
  { intros -> H2 ->. rewrite Hc.
    destruct (decided_without_sport text cq) as [Eq Ec]. rewrite Ec.
    rewrite Eq in H2. rewrite H2. reflexivity. }
  assert (Hlow : (c < 3 # 10)%Q ->
                 cs = None /\ decided_query_type text cs cq = None /\ p = []).
  { intros Hlt. rewrite Hc in Hlt.
    assert (Hpos : (0 <= decided_confidence text cs cq)%Q).
    { unfold decided_confidence.
      repeat match goal with
      | |- context [if ?b then _ else _] => destruct b
      end; vm_compute; discriminate. }
    assert (Hp : p = []).
    { destruct p as [|kv p]; [reflexivity|]. exfalso.
      cbn [parameter_bonus] in Hlt.
      apply (Qlt_irrefl (3 # 10)). eapply Qle_lt_trans; [|exact Hlt].
      apply Qle_trans with (0 + (4 # 10))%Q; [vm_compute; discriminate|].
      apply Qplus_le_compat; [exact Hpos | apply Qle_refl]. }
    rewrite Hp in Hlt. cbn [parameter_bonus] in Hlt. rewrite Qplus_0_r in Hlt.
    destruct (decided_confidence_floor _ _ _ Hlt) as [H1 H2].
    split; [exact H1|]. split; [|exact Hp]. rewrite H1, H2. reflexivity. }
  split; [split|].
  - exact Hlow.
  - intros (H1 & H2 & H3). rewrite (Hzero H1 H2 H3). reflexivity.
  - intros Hlt. destruct (Hlow Hlt) as (H1 & H2 & H3). now apply Hzero.
Qed.

(** X17 (the threshold of the callers).  The confidence that [parse_query]
    returns is below 0.3, the bound under which [process_query_text] and
    the text handler of the web application refuse a query, exactly when
    nothing was recognised: no sport, no query type, no parameter; and
    then it is 0.  The sums of the source are floating-point; they are the
    rational ones up to rounding, and the least of them above 0 is 0.3
    itself, so that the comparison comes out the same. *)
Theorem threshold_rejects_only_the_unrecognised text r :
  parse_query text = Ok r ->
  ((confidence r < 3 # 10)%Q <-> nothing_recognised r) /\
  ((confidence r < 3 # 10)%Q -> (confidence r == 0)%Q).
Proof.
  intros Hr. destruct (parse_query_closed text r Hr) as (Hs & Hq & _ & Hc & _).
  cbn zeta in Hs, Hq, Hc.
  destruct (low_confidence_closed _ _ _ _ _ Hc) as [Hiff Hzero].
  split; [|exact Hzero].
  unfold nothing_recognised. rewrite Hs, Hq. exact Hiff.
Qed.

(** The theorem at [随便说点什么], in which nothing is recognised. *)
Lemma threshold_rejects_only_the_unrecognised_witness :
  ((0 < 3 # 10)%Q <-> nothing_recognised (mkResult None None [] 0 "随便说点什么")) /\
  ((0 < 3 # 10)%Q -> (0 == 0)%Q).
Proof.
  apply (threshold_rejects_only_the_unrecognised "随便说点什么"
           (mkResult None None [] 0 "随便说点什么")).
  vm_compute. reflexivity.
Defined.

(** X18 (what [parse_query] can return).  In a result of [parse_query],
    the sport is [None] or a name of [sport_keywords]; the query type is
    [None] or a name of [query_types], also when a rule has set it; the
    parameters are those [_extract_parameters] finds in the normalized
    text for the sport returned, each of one of the kinds that
    [parameter_of] lists; and [original_text] is the text lower-cased and
    stripped, not the text given (stated for the texts of ASCII and
    Chinese characters, [plain], on which [lower] and [strip] are
    Python's). *)
Theorem parse_result_shape text r :
  parse_query text = Ok r ->
  (forall s, sport r = Some s -> In s (keys sport_keywords)) /\
  (forall q, query_type r = Some q -> In q (keys query_types)) /\
  _extract_parameters (normalize text) (sport r) = Ok (parameters r) /\
  (forall k v, In (k, v) (parameters r) -> parameter_of (normalize text) (sport r) k v) /\
  (plain text = true -> original_text r = strip (lower text)).
Proof.
  intros Hr. destruct (parse_query_closed text r Hr) as (Hs & Hq & Hp & _ & Ht).
  cbn zeta in Hs, Hq, Hp, Ht.
  split; [|split; [|split; [|split]]].
  - intros s H. rewrite Hs in H. now apply choice_in_keys in H.
  - intros q H. rewrite Hq in H. unfold decided_query_type in H.
    repeat match type of H with
    | context [if ?b then _ else _] => destruct b
    end; try (injection H as <-; simpl; tauto).
    now apply choice_in_keys in H.
  - rewrite extract_parameters_groups, (parse_query_returns _ _ Hr), Hp, Hs. reflexivity.
  - intros k v H. rewrite Hp in H. rewrite Hs. now apply groups_parameter_of.
  - intros _. exact Ht.
Qed.

(** The theorem at [ NBA 湖人队赛程，2024年 ]. *)
Lemma parse_result_shape_witness :
  exists r,
    parse_query " NBA 湖人队赛程，2024年 " = Ok r /\
    sport r = Some "nba" /\
    query_type r = Some "schedule" /\
    parameters r = [("year", PInt 2024); ("team", PStr "Lakers")] /\
    original_text r = "nba 湖人队赛程，2024年".
Proof.
  assert (Hr : parse_query " NBA 湖人队赛程，2024年 "
               = Ok (mkResult (Some "nba") (Some "schedule")
                       [("year", PInt 2024); ("team", PStr "Lakers")]
                       (1000 # 1000)%Q "nba 湖人队赛程，2024年"))
    by (vm_compute; reflexivity).
  destruct (parse_result_shape _ _ Hr) as (_ & _ & _ & _ & Ht).
  eexists. split; [exact Hr|]. split; [reflexivity|]. split; [reflexivity|].
  split; [reflexivity|]. apply Ht. vm_compute. reflexivity.
Defined.

(** X19 (the label of a league is the name heard).  When [parse_query]
    extracts a [league_id], [_get_league_name] maps it to a name that
    occurs in the normalized text: the label under which the cache offers
    the standings is the league the query named. *)
Theorem league_label_is_the_alias_heard text r :
  parse_query text = Ok r ->
  forall league_id,
    dict_get "league_id" (parameters r) = Some league_id ->
    exists alias,
      QueryCache._get_league_name league_id = Ok alias /\
      contains alias (normalize text) = true.
Proof.
  intros Hr. destruct (parse_query_closed text r Hr) as (Hs & _ & Hp & _).
  cbn zeta in Hs, Hp. intros league_id H.
  apply dict_get_In in H. rewrite Hp in H. apply groups_parameter_of in H.
  inversion H as [| | | |alias id Hsport Hin Hc]; subst.
  exists alias. split; [|exact Hc].
  cbn in Hin.
  repeat match goal with
  | H : _ \/ _ |- _ => destruct H as [H|H]
  | H : (_, _) = (_, _) |- _ => injection H as <- <-
  | H : False |- _ => destruct H
  end; reflexivity.
Qed.

(** The theorem at [西甲积分榜]. *)
Lemma league_label_is_the_alias_heard_witness :
  exists alias,
    QueryCache._get_league_name (PInt 2014) = Ok alias /\
    contains alias (normalize "西甲积分榜") = true.
Proof.
  apply (league_label_is_the_alias_heard "西甲积分榜"
           (mkResult (Some "football") (Some "standings") [("league_id", PInt 2014)]
              (1000 # 1000)%Q "西甲积分榜")).
  - vm_compute. reflexivity.
  - reflexivity.
Defined.

End RuleFacts.

(* ================================================================== *)
(** ** Facts about the query system *)
(* ================================================================== *)

Module SystemFacts.
Import Py PySpec PyFacts QueryParser ParserSpec ParserFacts RuleSpec RuleFacts.
Import CacheSpec CacheFacts VoiceQuerySystem SystemSpec.

(** *** The season of a year *)

Lemma season_str_years :
  forallb
    (fun n =>
       match season_str (PInt (Z.of_nat n)) with
       | Returned (PStr s) =>
           String.eqb s
             (str_of_Z (Z.of_nat n) ++ "-" ++ two_digits ((Z.of_nat n + 1) mod 100))
       | _ => false
       end)
    (seq (Z.to_nat 1000) (Z.to_nat 8999)) = true.
Proof. vm_compute. reflexivity. Qed.

(** X20 (the season of a year).  The season that a query for the statistics
    of a player passes to the backend (line 670): for a year from 1000 to
    9998, the year, a hyphen and the last two digits of the next year
    ([2023-24]); for the year 0, and without a year, [None]; on a
    non-empty string the addition raises. *)
Theorem season_str_of_a_year :
  (forall y, (1000 <= y <= 9998)%Z ->
     season_str (PInt y)
     = Returned (PStr (str_of_Z y ++ "-" ++ two_digits ((y + 1) mod 100)))) /\
  season_str (PInt 0) = Returned PNone /\
  season_str PNone = Returned PNone /\
  (forall s, s <> EmptyString -> exists message, season_str (PStr s) = Raised message).
Proof.
  split; [|split; [reflexivity|split; [reflexivity|]]].
  - intros y Hy.
    pose proof season_str_years as H. rewrite forallb_forall in H.
    specialize (H (Z.to_nat y)). rewrite Z2Nat.id in H by lia.
    assert (Hin : In (Z.to_nat y) (seq (Z.to_nat 1000) (Z.to_nat 8999))) by (apply in_seq; lia).
    specialize (H Hin).
    destruct (season_str (PInt y)) as [[| | |s| |]|]; try discriminate.
    apply String.eqb_eq in H. now subst.
  - intros s Hs. destruct s; [congruence|]. eexists. reflexivity.
Qed.

(** *** From the text to the backend *)

Lemma parse_query_fields text r :
  parse_query text = Ok r ->
  let t := normalize text in
  let cq := choice (scored lower query_types t) in
  query_type r = decided_query_type t (sport r) cq /\
  parameters r = year_parameter t ++ player_parameter t (sport r)
                 ++ team_parameter t (sport r) ++ round_parameter t /\
  (confidence r == decided_confidence t (sport r) cq + parameter_bonus (parameters r))%Q /\
  (forall s, sport r = Some s -> s = "f1" \/ s = "football" \/ s = "nba").
Proof.
  intros Hr. cbn zeta.
  destruct (parse_query_closed text r Hr) as (Hs & Hq & Hp & Hc & _).
  cbn zeta in Hs, Hq, Hp, Hc.
  rewrite <- Hs in Hq, Hp, Hc. repeat split; auto.
  intros s H. rewrite Hs in H. apply choice_in_keys in H. simpl in H.
  destruct H as [<-|[<-|[<-|[]]]]; auto.
Qed.

Lemma year_parameter_read text sport :
  let p := year_parameter text ++ player_parameter text sport
           ++ team_parameter text sport ++ round_parameter text in
  dict_get "year" p = None \/
  exists y, dict_get "year" p = Some (PInt y) /\ (0 <= y <= 9999)%Z.
Proof.
  cbn zeta. unfold year_parameter.
  destruct (re_search match_year (code_points text)) as [g|] eqn:E.
  - right. exists (int_of_digits 0 g). split; [reflexivity|].
    apply re_search_anchored in E. destruct E as (l1 & l2 & _ & E).
    now apply match_year_range in E.
  - left. cbn [app].
    unfold player_parameter, team_parameter, round_parameter.
    destruct (find _ (table_of sport player_names)) as [[? ?]|];
      destruct (find _ (table_of sport team_names)) as [[? ?]|];
      try destruct (sport_eq sport "football" && is_int _);
      destruct (re_search match_round (code_points text)); reflexivity.
Qed.

(** X21 (from the text to the f1 backend).  For a text whose sport is f1 and
    that has [积分榜] and one of [车手] and [车队], [_execute_query] on the
    result of [parse_query] answers with what one call of the backend
    returns, or with the report of what it raises: the drivers' standings
    when the text has [车手], the constructors' standings otherwise, of
    the year found in the text, or of 2023 when it has none. *)
Theorem drivers_standings_reach_the_backend apis api text r :
  parse_query text = Ok r ->
  sport r = Some "f1" ->
  contains "积分榜" (normalize text) = true ->
  contains "车手" (normalize text) = true \/ contains "车队" (normalize text) = true ->
  f1_api apis = Some api ->
  exists year,
    (dict_get "year" (parameters r) = None /\ year = 2023%Z \/
     dict_get "year" (parameters r) = Some (PInt year) /\ (0 <= year <= 9999)%Z) /\
    _execute_query apis r
    = guarded (if contains "车手" (normalize text)
               then get_driver_standings api (PInt year)
               else get_constructor_standings api (PInt year)).
Proof.
  intros Hr Hs Hb Hdc Hapi.
  destruct (parse_query_fields text r Hr) as (Hq & Hp & _ & _). cbn zeta in Hq, Hp.
  rewrite Hs in Hq.
  pose proof (year_parameter_read (normalize text) (sport r)) as Hy.
  cbn zeta in Hy. rewrite <- Hp in Hy.
  assert (Hq' : query_type r
                = Some (if contains "车手" (normalize text) then "standings" else "teams")).
  { rewrite Hq. unfold decided_query_type, asks_drivers, asks_constructors.
    cbn [sport_eq String.eqb Ascii.eqb Bool.eqb andb]. rewrite Hb.
    destruct (contains "车手" (normalize text)); [reflexivity|].
    destruct Hdc as [Hd|Hc]; [discriminate|]. now rewrite Hc. }
  assert (Hrun : forall year, param (parameters r) "year" (PInt 2023) = PInt year ->
    _execute_query apis r
    = guarded (if contains "车手" (normalize text)
               then get_driver_standings api (PInt year)
               else get_constructor_standings api (PInt year))).
  { intros year Hyear. unfold _execute_query. rewrite Hs, Hq', Hapi.
    cbn [sport_eq String.eqb Ascii.eqb Bool.eqb]. unfold _query_f1_data.
    destruct (contains "车手" (normalize text));
      cbn [type_is sport_eq String.eqb Ascii.eqb Bool.eqb]; now rewrite Hyear. }
  destruct Hy as [Hy|(y & Hy & Hrange)].
  - exists 2023%Z. split; [now left|]. apply Hrun. unfold param. now rewrite Hy.
  - exists y. split; [now right|]. apply Hrun. unfold param. now rewrite Hy.
Qed.

(** The theorem at [2024年F1车手积分榜]. *)
Lemma drivers_standings_reach_the_backend_witness :
  exists year,
    (dict_get "year"
       (parameters (mkResult (Some "f1") (Some "standings") [("year", PInt 2024)]
                      (130 # 100)%Q "2024年f1车手积分榜")) = None /\ year = 2023%Z \/
     dict_get "year"
       (parameters (mkResult (Some "f1") (Some "standings") [("year", PInt 2024)]
                      (130 # 100)%Q "2024年f1车手积分榜")) = Some (PInt year) /\
     (0 <= year <= 9999)%Z) /\
    _execute_query ex_backends
      (mkResult (Some "f1") (Some "standings") [("year", PInt 2024)]
         (130 # 100)%Q "2024年f1车手积分榜")
    = guarded (if contains "车手" (normalize "2024年F1车手积分榜")
               then named "drivers" else named "constructors").
Proof.
  apply (drivers_standings_reach_the_backend ex_backends
           {| get_current_season_schedule := named "schedule";
              get_driver_standings := fun _ => named "drivers";
              get_constructor_standings := fun _ => named "constructors";
              get_race_results := fun _ _ => named "results" |}
           "2024年F1车手积分榜").
  - vm_compute. reflexivity.
  - reflexivity.
  - vm_compute. reflexivity.
  - left. vm_compute. reflexivity.
  - reflexivity.
Defined.

Lemma league_parameter_read text :
  let p := year_parameter text ++ player_parameter text (Some "football")
           ++ team_parameter text (Some "football") ++ round_parameter text in
  dict_get "league_id" p = None \/
  exists league_cn league_id,
    In (league_cn, PInt league_id) (table_of (Some "football") team_names) /\
    contains league_cn text = true /\
    dict_get "league_id" p = Some (PInt league_id).
Proof.
  cbn zeta.
  assert (Hp : player_parameter text (Some "football") = []) by reflexivity.
  rewrite Hp. cbn [app]. unfold team_parameter.
  destruct (find _ (table_of (Some "football") team_names)) as [[cn v]|] eqn:E.
  - right. apply find_some in E. destruct E as [Hin Hc]. cbn [fst] in Hc.
    pose proof football_leagues_are_numbers as Hall. rewrite Forall_forall in Hall.
    destruct (Hall _ Hin) as [id Hid]. cbn [snd] in Hid. subst v.
    exists cn, id. split; [exact Hin|]. split; [exact Hc|].
    cbn [sport_eq String.eqb Ascii.eqb Bool.eqb andb is_int as_int].
    unfold year_parameter. destruct (re_search match_year (code_points text)); reflexivity.
  - left. unfold year_parameter, round_parameter.
    destruct (re_search match_year (code_points text)),
      (re_search match_round (code_points text)); reflexivity.
Qed.

(** X22 (from the text to the football backend).  For a text whose sport is
    football and that has [射手] or [进球], [_execute_query] answers with
    the top scorers of the league named in the text, or of league 2021
    when it names none, for the season of the year found in the text, or
    for [None]. *)
Theorem top_scorers_reach_the_backend apis api text r :
  parse_query text = Ok r ->
  sport r = Some "football" ->
  contains "射手" (normalize text) = true \/ contains "进球" (normalize text) = true ->
  football_api apis = Some api ->
  exists league season,
    (dict_get "league_id" (parameters r) = None /\ league = 2021%Z \/
     exists league_cn,
       In (league_cn, PInt league) (table_of (Some "football") team_names) /\
       contains league_cn (normalize text) = true /\
       dict_get "league_id" (parameters r) = Some (PInt league)) /\
    (dict_get "year" (parameters r) = None /\ season = PNone \/
     exists year, dict_get "year" (parameters r) = Some (PInt year) /\ season = PInt year) /\
    _execute_query apis r = guarded (get_top_scorers api (PInt league) season).
Proof.
  intros Hr Hs Hword Hapi.
  destruct (parse_query_fields text r Hr) as (Hq & Hp & _ & _). cbn zeta in Hq, Hp.
  rewrite Hs in Hq, Hp.
  assert (Hq' : query_type r = Some "top_scorers").
  { rewrite Hq. unfold decided_query_type, asks_drivers, asks_constructors, asks_scorers.
    cbn [sport_eq String.eqb Ascii.eqb Bool.eqb andb].
    destruct Hword as [H|H]; rewrite H; [reflexivity|].
    now rewrite orb_true_r. }
  pose proof (league_parameter_read (normalize text)) as Hl.
  pose proof (year_parameter_read (normalize text) (Some "football")) as Hy.
  cbn zeta in Hl, Hy. rewrite <- Hp in Hl, Hy.
  assert (Hrun : _execute_query apis r
                 = guarded (get_top_scorers api (param (parameters r) "league_id" (PInt 2021))
                              (param (parameters r) "year" PNone))).
  { unfold _execute_query. rewrite Hs, Hq', Hapi. reflexivity. }
  rewrite Hrun. unfold param.
  destruct Hl as [Hl|(cn & id & Hin & Hc & Hl)]; rewrite Hl;
    destruct Hy as [Hy|(y & Hy & _)]; rewrite Hy.
  - exists 2021%Z, PNone. split; [now left|]. split; [now left | reflexivity].
  - exists 2021%Z, (PInt y). split; [now left|]. split; [right; eauto | reflexivity].
  - exists id, PNone. split; [right; eauto|]. split; [now left | reflexivity].
  - exists id, (PInt y). split; [right; eauto|]. split; [right; eauto | reflexivity].
Qed.

(** The theorem at [西甲射手榜]. *)
Lemma top_scorers_reach_the_backend_witness :
  exists league season,
    (dict_get "league_id" (parameters (parsed "西甲射手榜")) = None /\ league = 2021%Z \/
     exists league_cn,
       In (league_cn, PInt league) (table_of (Some "football") team_names) /\
       contains league_cn (normalize "西甲射手榜") = true /\
       dict_get "league_id" (parameters (parsed "西甲射手榜")) = Some (PInt league)) /\
    (dict_get "year" (parameters (parsed "西甲射手榜")) = None /\ season = PNone \/
     exists year,
       dict_get "year" (parameters (parsed "西甲射手榜")) = Some (PInt year) /\
       season = PInt year) /\
    _execute_query ex_backends (parsed "西甲射手榜") = guarded (named "scorers").
Proof.
  apply (top_scorers_reach_the_backend ex_backends
           {| get_today_matches := named "today";
              get_standings := fun _ _ => named "standings";
              get_top_scorers := fun _ _ => named "scorers";
              get_live_matches := named "live" |}
           "西甲射手榜" (parsed "西甲射手榜")).
  - vm_compute. reflexivity.
  - vm_compute. reflexivity.
  - left. vm_compute. reflexivity.
  - reflexivity.
Defined.

Lemma player_parameter_read text :
  names_player text (Some "nba") = true ->
  exists player_cn player_en,
    In (player_cn, player_en) (table_of (Some "nba") player_names) /\
    contains player_cn text = true /\
    dict_get "player"
      (year_parameter text ++ player_parameter text (Some "nba")
       ++ team_parameter text (Some "nba") ++ round_parameter text)
    = Some (PStr player_en).
Proof.
  unfold names_player. rewrite existsb_find, find_keys.
  unfold player_parameter.
  destruct (find _ (table_of (Some "nba") player_names)) as [[cn en]|] eqn:E;
    [|discriminate].
  intros _. exists cn, en. apply find_some in E. destruct E as [Hin Hc].
  split; [exact Hin|]. split; [exact Hc|].
  unfold year_parameter. destruct (re_search match_year (code_points text)); reflexivity.
Qed.

(** X23 (from the text to the nba backend).  For a text whose sport is nba,
    that names a player and has a word of statistics, [_execute_query]
    answers with the statistics of a player of the table one of whose
    aliases occurs in the text, asked for under the English name, for the
    season of the year found in the text ([None] when it has none). *)
Theorem player_statistics_reach_the_backend apis api text r :
  parse_query text = Ok r ->
  sport r = Some "nba" ->
  names_player (normalize text) (Some "nba") = true ->
  asks_statistics (normalize text) = true ->
  nba_api apis = Some api ->
  exists player_cn player_en season,
    In (player_cn, player_en) (table_of (Some "nba") player_names) /\
    contains player_cn (normalize text) = true /\
    season_str (param (parameters r) "year" PNone) = Returned season /\
    (dict_get "year" (parameters r) = None -> season = PNone) /\
    _execute_query apis r
    = guarded (get_player_stats_by_name api (PStr player_en) season).
Proof.
  intros Hr Hs Hn Hst Hapi.
  destruct (parse_query_fields text r Hr) as (Hq & Hp & _ & _). cbn zeta in Hq, Hp.
  rewrite Hs in Hq, Hp.
  destruct (player_parameter_read _ Hn) as (cn & en & Hin & Hc & Hplayer).
  rewrite <- Hp in Hplayer.
  assert (Hq' : query_type r = Some "player_stats").
  { rewrite Hq. unfold decided_query_type, asks_drivers, asks_constructors, asks_scorers.
    cbn [sport_eq String.eqb Ascii.eqb Bool.eqb andb]. now rewrite Hn, Hst. }
  pose proof (year_parameter_read (normalize text) (Some "nba")) as Hy.
  cbn zeta in Hy. rewrite <- Hp in Hy.
  assert (Hseason : exists season,
            season_str (param (parameters r) "year" PNone) = Returned season /\
            (dict_get "year" (parameters r) = None -> season = PNone)).
  { unfold param. destruct Hy as [Hy|(y & Hy & _)]; rewrite Hy.
    - exists PNone. split; [reflexivity | auto].
    - unfold season_str. cbn [as_int].
      destruct (py_truthy (PInt y)); eexists; (split; [reflexivity | discriminate]). }
  destruct Hseason as (season & Hseason & Hnone).
  exists cn, en, season. repeat split; auto.
  unfold _execute_query. rewrite Hs, Hq', Hapi.
  cbn [sport_eq String.eqb Ascii.eqb Bool.eqb]. unfold _query_nba_data.
  cbn [type_is sport_eq String.eqb Ascii.eqb Bool.eqb].
  now rewrite Hplayer, Hseason.
Qed.

(** The theorem at [库里2023年场均得分]. *)
Lemma player_statistics_reach_the_backend_witness :
  exists player_cn player_en season,
    In (player_cn, player_en) (table_of (Some "nba") player_names) /\
    contains player_cn (normalize "库里2023年场均得分") = true /\
    season_str (param (parameters (parsed "库里2023年场均得分")) "year" PNone)
    = Returned season /\
    (dict_get "year" (parameters (parsed "库里2023年场均得分")) = None -> season = PNone) /\
    _execute_query ex_backends (parsed "库里2023年场均得分")
    = guarded (named "stats").
Proof.
  apply (player_statistics_reach_the_backend ex_backends
           {| get_teams := named "teams";
              get_league_standings := named "standings";
              get_team_schedule_by_name := fun _ => named "schedule";
              get_team_players := fun _ => named "players";
              get_player_stats_by_name := fun _ _ => named "stats" |}
           "库里2023年场均得分" (parsed "库里2023年场均得分"));
    vm_compute; reflexivity.
Defined.

(** *** process_query_text *)

Lemma below_threshold_lt c : below_threshold c = true <-> (c < 3 # 10)%Q.
Proof.
  unfold below_threshold. rewrite negb_true_iff. split.
  - intros H. apply Qnot_le_lt. intros Hle. apply Qle_bool_iff in Hle. congruence.
  - intros H. destruct (Qle_bool (3 # 10) c) eqn:E; [|reflexivity].
    apply Qle_bool_iff in E. exfalso. now apply (Qlt_not_le _ _ H).
Qed.

Lemma parse_below_threshold text r :
  parse_query text = Ok r ->
  (below_threshold (confidence r) = true <-> nothing_recognised r).
Proof.
  intros Hr. destruct (parse_query_fields text r Hr) as (Hq & _ & Hc & _).
  cbn zeta in Hq, Hc.
  destruct (low_confidence_closed _ _ _ _ _ Hc) as [Hiff _].
  rewrite below_threshold_lt, Hiff. unfold nothing_recognised. now rewrite <- Hq.
Qed.

Lemma process_run apis text now now_save stamp system r :
  parse_query text = Ok r -> ~ nothing_recognised r ->
  forall key cache',
    store_result (sport r) (query_type r) (parameters r) (_execute_query apis r) text
      now now_save (cache system) = (Ok key, cache') ->
    answers text r (_execute_query apis r) key stamp cache'
      (process_query_text apis text now now_save stamp system).
Proof.
  intros Hr Hrec key cache' Hstore. unfold answers, process_query_text. rewrite Hr.
  destruct (below_threshold (confidence r)) eqn:E.
  - apply (parse_below_threshold text r Hr) in E. contradiction.
  - now rewrite Hstore.
Qed.

(** X24 ([process_query_text] reports, refuses or answers).  The method
    returns on every text.  When [parse_query] raises, which it does when
    the round of the text has more than 4300 digits, the reply is the
    report of the exception (line 539: no success, the message of the
    [ValueError]), and the cache and the last result are as they were.
    When [parse_query] returns, the method refuses, leaving the cache and
    the last result as they were, exactly when nothing was recognised;
    otherwise it reports success with the data of [_execute_query],
    whatever the [success] flag of that data says, and records the reply
    as the last result. *)
Theorem process_answers_what_is_recognised apis text now now_save stamp system :
  (round_too_long (normalize text) = true ->
   process_query_text apis text now now_save stamp system
   = (Ok (Failed ValueError), system)) /\
  (round_too_long (normalize text) = false ->
   exists r,
     parse_query text = Ok r /\
     (nothing_recognised r ->
      process_query_text apis text now now_save stamp system
      = (Ok (Refused text), system)) /\
     (~ nothing_recognised r ->
      exists cache_key cache',
        answers text r (_execute_query apis r) cache_key stamp cache'
          (process_query_text apis text now now_save stamp system))).
Proof.
  destruct (parse_query_cases text) as (Hraise & Hreturn).
  split.
  - intros E. unfold process_query_text. now rewrite (Hraise E).
  - intros E. destruct (Hreturn E) as [r Hr].
    exists r. split; [exact Hr|]. split.
    + intros Hnone. apply (parse_below_threshold text r Hr) in Hnone.
      unfold process_query_text. now rewrite Hr, Hnone.
    + intros Hrec.
      destruct (store_result (sport r) (query_type r) (parameters r)
                  (_execute_query apis r) text now now_save (cache system))
        as [[key|e] cache'] eqn:Hstore.
      * exists key, cache'. now apply process_run.
      * exfalso. revert Hstore. unfold store_result.
        destruct (query_type r) as [q|]; [|discriminate].
        destruct (_execute_query apis r) as [| | | | |d]; try discriminate.
        destruct (sport r) as [s|].
        -- pose proof (store_query_result_run s q (parameters r) d text now now_save
                         (cache_data (cache system))) as H.
           cbn zeta in H. rewrite H.
           destruct (dict_get s (cache_data (cache system))) as [[| | | | |m]|];
             discriminate.
        -- destruct (unnamed (cache system)) as [[| | | | |m]|]; discriminate.
Qed.

(** The theorem at a round of 4301 digits: the reply is the report of the
    [ValueError], and nothing is changed. *)
Lemma process_answers_what_is_recognised_witness :
  process_query_text ex_backends (long_round 4301) "2024-05-01T12:00:00"
    "2024-05-01T12:00:01" "2024-05-01T12:00:02" ex_system
  = (Ok (Failed ValueError), ex_system).
Proof.
  apply (proj1 (process_answers_what_is_recognised ex_backends (long_round 4301)
                  "2024-05-01T12:00:00" "2024-05-01T12:00:01" "2024-05-01T12:00:02"
                  ex_system)).
  vm_compute. reflexivity.
Defined.

(** X25 (an answer is cached under its key).  When the text gives a sport and
    a query type and the data is a dictionary, in a cache whose slot for
    the sport is a mapping or absent, the reply carries the key computed
    from the query type and the parameters, and the lookup of that key
    under the sport then gives an entry with the data, the parameters and
    the text as it was given (not the normalized text of the parse); the
    slot of the key [None] is not touched. *)
Theorem process_caches_what_it_answers apis text now now_save stamp system r s q d :
  parse_query text = Ok r -> sport r = Some s -> query_type r = Some q ->
  _execute_query apis r = PDict d ->
  (forall slot, dict_get s (cache_data (cache system)) = Some slot ->
     exists m, slot = PDict m) ->
  let key := QueryCache._generate_cache_key q (parameters r) in
  exists cache',
    answers text r (PDict d) (Some key) stamp cache'
      (process_query_text apis text now now_save stamp system) /\
    QueryCache.get_query_result (cache_data cache') s key
    = Some (QueryCache.make_entry q (parameters r) d text now) /\
    unnamed cache' = unnamed (cache system).
Proof.
  intros Hr Hs Hq Hd Hslot. cbn zeta.
  assert (Hrec : ~ nothing_recognised r).
  { intros (H & _). congruence. }
  destruct (parse_query_fields text r Hr) as (_ & _ & _ & Hsport).
  assert (Hmeta : s <> "metadata").
  { destruct (Hsport s Hs) as [->|[->| ->]]; discriminate. }
  pose proof (store_query_result_run s q (parameters r) d text now now_save
                (cache_data (cache system))) as Hrun.
  cbn zeta in Hrun.
  set (key := QueryCache._generate_cache_key q (parameters r)) in *.
  set (entry := QueryCache.make_entry q (parameters r) d text now) in *.
  assert (Hstore : exists m,
    QueryCache.store_query_result s q (parameters r) d text now now_save
      (cache_data (cache system))
    = (Ok (Some key),
       stamped now_save (with_domain s (dict_set key entry m) (cache_data (cache system))))).
  { rewrite Hrun. destruct (dict_get s (cache_data (cache system))) as [slot|] eqn:E.
    - destruct (Hslot slot eq_refl) as [m ->]. now exists m.
    - now exists []. }
  destruct Hstore as [m Hstore].
  eexists. split; [|split].
  - rewrite <- Hd. apply process_run; [exact Hr | exact Hrec|].
    unfold store_result. rewrite Hq, Hd, Hs, Hstore. reflexivity.
  - cbn [cache_data]. rewrite get_query_result_run, stamped_other by exact Hmeta.
    unfold with_domain. rewrite dict_get_set_eq. apply dict_get_set_eq.
  - reflexivity.
Qed.

(** X26 (no query type, no entry).  When something was recognised but no
    query type, or when the data is not a dictionary, the query is still
    answered, but [store_query_result] fails inside: the reply carries no
    key and the cache is left as it was. *)
Theorem nothing_is_cached_without_a_query_type apis text now now_save stamp system r :
  parse_query text = Ok r -> ~ nothing_recognised r ->
  query_type r = None \/ (forall d, _execute_query apis r <> PDict d) ->
  answers text r (_execute_query apis r) None stamp (cache system)
    (process_query_text apis text now now_save stamp system).
Proof.
  intros Hr Hrec Hcase. apply process_run; [exact Hr | exact Hrec|].
  unfold store_result. destruct Hcase as [Hq|Hd].
  - now rewrite Hq.
  - destruct (query_type r); [|reflexivity].
    destruct (_execute_query apis r) as [| | | | |d] eqn:E; try reflexivity.
    now destruct (Hd d).
Qed.

(** X27 (a query without a sport).  When the parse gives a query type but no
    sport, [_execute_query] calls no backend and gives the failure
    [不支持的体育项目: None]; [process_query_text] reports success with it
    as data, and the failure is stored in the cache under the key [None],
    in a mapping of its own; the named domains are left alone, the
    metadata is stamped. *)
Theorem unsupported_query_is_cached_under_none apis text now now_save stamp system r q :
  parse_query text = Ok r -> sport r = None -> query_type r = Some q ->
  (forall slot, unnamed (cache system) = Some slot -> exists m, slot = PDict m) ->
  let data := [("success", PBool false); ("error", PStr "不支持的体育项目: None")] in
  let key := QueryCache._generate_cache_key q (parameters r) in
  _execute_query apis r = PDict data /\
  exists cache' m',
    answers text r (PDict data) (Some key) stamp cache'
      (process_query_text apis text now now_save stamp system) /\
    unnamed cache' = Some (PDict m') /\
    dict_get key m' = Some (QueryCache.make_entry q (parameters r) data text now) /\
    cache_data cache' = stamped now_save (cache_data (cache system)).
Proof.
  intros Hr Hs Hq Hslot. cbn zeta.
  assert (Hd : _execute_query apis r
               = PDict [("success", PBool false); ("error", PStr "不支持的体育项目: None")]).
  { unfold _execute_query. rewrite Hs. reflexivity. }
  split; [exact Hd|].
  assert (Hrec : ~ nothing_recognised r).
  { intros (_ & H & _). congruence. }
  set (key := QueryCache._generate_cache_key q (parameters r)).
  set (entry := QueryCache.make_entry q (parameters r)
                  [("success", PBool false); ("error", PStr "不支持的体育项目: None")]
                  text now).
  assert (Hm : exists m,
    match unnamed (cache system) with
    | None => Ok (PDict [])
    | Some slot => Ok slot
    end = @Ok pyval (PDict m)).
  { destruct (unnamed (cache system)) as [slot|] eqn:E.
    - destruct (Hslot slot eq_refl) as [m ->]. now exists m.
    - now exists []. }
  destruct Hm as [m Hm].
  exists (mkCache (Some (PDict (dict_set key entry m)))
            (stamped now_save (cache_data (cache system)))),
         (dict_set key entry m).
  split; [|split; [reflexivity|split; [apply dict_get_set_eq | reflexivity]]].
  rewrite <- Hd. apply process_run; [exact Hr | exact Hrec|].
  unfold store_result. rewrite Hq, Hd, Hs, Hm. cbn [bind py_setitem].
  fold key. fold entry. now rewrite save_cache_run.
Qed.

(** The theorem at [2024年F1车手积分榜], asked of a new cache. *)
Lemma process_caches_what_it_answers_witness :
  let r := parsed "2024年F1车手积分榜" in
  let d := [("success", PBool true); ("method", PStr "drivers")] in
  let key := QueryCache._generate_cache_key "standings" (parameters r) in
  exists cache',
    answers "2024年F1车手积分榜" r (PDict d) (Some key) "2024-05-01T12:00:02" cache'
      (process_query_text ex_backends "2024年F1车手积分榜" "2024-05-01T12:00:00"
         "2024-05-01T12:00:01" "2024-05-01T12:00:02" ex_system) /\
    QueryCache.get_query_result (cache_data cache') "f1" key
    = Some (QueryCache.make_entry "standings" (parameters r) d "2024年F1车手积分榜"
              "2024-05-01T12:00:00") /\
    unnamed cache' = unnamed (cache ex_system).
Proof.
  cbn zeta.
  apply (process_caches_what_it_answers ex_backends "2024年F1车手积分榜"
           "2024-05-01T12:00:00" "2024-05-01T12:00:01" "2024-05-01T12:00:02" ex_system
           (parsed "2024年F1车手积分榜") "f1" "standings"
           [("success", PBool true); ("method", PStr "drivers")]).
  - vm_compute. reflexivity.
  - vm_compute. reflexivity.
  - vm_compute. reflexivity.
  - vm_compute. reflexivity.
  - intros slot H. vm_compute in H. injection H as <-. eauto.
Defined.

(** The theorem at [NBA]: a sport and nothing else. *)
Lemma nothing_is_cached_without_a_query_type_witness :
  answers "NBA" (parsed "NBA") (_execute_query ex_backends (parsed "NBA")) None
    "2024-05-01T12:00:02" (cache ex_system)
    (process_query_text ex_backends "NBA" "2024-05-01T12:00:00"
       "2024-05-01T12:00:01" "2024-05-01T12:00:02" ex_system).
Proof.
  apply (nothing_is_cached_without_a_query_type ex_backends "NBA").
  - vm_compute. reflexivity.
  - intros (H & _). vm_compute in H. discriminate.
  - left. vm_compute. reflexivity.
Defined.

(** The theorem at [今天]: a query type and no sport. *)
Lemma unsupported_query_is_cached_under_none_witness :
  let r := parsed "今天" in
  let data := [("success", PBool false); ("error", PStr "不支持的体育项目: None")] in
  let key := QueryCache._generate_cache_key "today" (parameters r) in
  _execute_query ex_backends r = PDict data /\
  exists cache' m',
    answers "今天" r (PDict data) (Some key) "2024-05-01T12:00:02" cache'
      (process_query_text ex_backends "今天" "2024-05-01T12:00:00"
         "2024-05-01T12:00:01" "2024-05-01T12:00:02" ex_system) /\
    unnamed cache' = Some (PDict m') /\
    dict_get key m'
    = Some (QueryCache.make_entry "today" (parameters r) data "今天" "2024-05-01T12:00:00") /\
    cache_data cache' = stamped "2024-05-01T12:00:01" (cache_data (cache ex_system)).
Proof.
  cbn zeta.
  apply (unsupported_query_is_cached_under_none ex_backends "今天"
           "2024-05-01T12:00:00" "2024-05-01T12:00:01" "2024-05-01T12:00:02" ex_system
           (parsed "今天") "today").
  - vm_compute. reflexivity.
  - vm_compute. reflexivity.
  - vm_compute. reflexivity.
  - intros slot H. discriminate.
Defined.

End SystemFacts.

(* ================================================================== *)
(** ** Facts about the table of the teams *)
(* ================================================================== *)

Module TeamFacts.
Import Py NbaTeamIds.

Ltac each_entry H tac :=
  cbn [In] in H;
  repeat (destruct H as [H|H]; [injection H as <- <-; tac|]);
  destruct H.

(** X28 (the teams of the parser are teams of the table).  Each English name
    that [QueryParser] gives for an alias of an nba team is resolved by
    [get_team_id], and to the team that the table of Chinese names gives
    for the alias itself. *)
Theorem parser_team_names_resolve team_cn v :
  In (team_cn, v) (RuleSpec.table_of (Some "nba") QueryParser.team_names) ->
  exists team_en id,
    v = PStr team_en /\
    get_team_id team_en = Ok id /\
    get_team_id team_cn = Ok id.
Proof.
  intros H. cbn [RuleSpec.table_of QueryParser.team_names dict_get String.eqb Ascii.eqb
                 Bool.eqb] in H.
  each_entry H ltac:(eexists; eexists; split; [reflexivity|];
                     split; vm_compute; reflexivity).
Qed.

(** The theorem at [湖人队], which the parser turns into [Lakers]. *)
Lemma parser_team_names_resolve_witness :
  exists team_en id,
    PStr "Lakers" = PStr team_en /\
    get_team_id team_en = Ok id /\
    get_team_id "湖人队" = Ok id.
Proof.
  apply (parser_team_names_resolve "湖人队" (PStr "Lakers")).
  cbn. tauto.
Defined.

(** X29 (the tables of the teams agree).  Every team of [ESPN_TEAM_IDS] has a
    full name and an abbreviation; [get_team_id] finds its id from its
    key, from its full name and from its abbreviation, and
    [get_team_name] gives the full name back from the id.  Every Chinese
    name leads to a team of the table.  [list_all_teams] does not raise
    and lists the teams in the order of [ESPN_TEAM_IDS]. *)
Theorem team_names_round_trip :
  (forall team_key id, In (team_key, id) ESPN_TEAM_IDS ->
     exists full_name abbreviation,
       dict_get team_key TEAM_FULL_NAMES = Some full_name /\
       dict_get team_key TEAM_ABBREVIATIONS = Some abbreviation /\
       get_team_id team_key = Ok id /\
       get_team_id full_name = Ok id /\
       get_team_id abbreviation = Ok id /\
       get_team_name id = Ok full_name) /\
  (forall team_cn team_key, In (team_cn, team_key) CHINESE_TEAM_NAMES ->
     exists id, dict_get team_key ESPN_TEAM_IDS = Some id /\ get_team_id team_cn = Ok id) /\
  (exists teams, list_all_teams = Ok teams /\ keys teams = keys ESPN_TEAM_IDS).
Proof.
  split; [|split].
  - intros team_key id H. unfold ESPN_TEAM_IDS in H.
    each_entry H ltac:(eexists; eexists; split; [reflexivity|]; split; [reflexivity|];
                       repeat split; vm_compute; reflexivity).
  - intros team_cn team_key H. unfold CHINESE_TEAM_NAMES in H.
    each_entry H ltac:(eexists; split; vm_compute; reflexivity).
  - eexists. split; vm_compute; reflexivity.
Qed.

(** X30 (nicknames, and the one that goes astray).  The last word of the full
    name of a team is resolved to that team, except [Hornets], which is
    resolved to the Brooklyn Nets: the loop of lines 263-274 takes the
    first team whose last word occurs in the name given, and [nets]
    occurs in [hornets]. *)
Theorem nicknames_resolve_but_one team_key full_name :
  In (team_key, full_name) TEAM_FULL_NAMES ->
  get_team_id (nickname full_name)
  = if String.eqb team_key "charlotte_hornets" then team_id "brooklyn_nets"
    else team_id team_key.
Proof.
  intros H. unfold TEAM_FULL_NAMES in H.
  each_entry H ltac:(vm_compute; reflexivity).
Qed.

(** The theorem at the Charlotte Hornets. *)
Lemma nicknames_resolve_but_one_witness :
  get_team_id (nickname "Charlotte Hornets") = team_id "brooklyn_nets".
Proof.
  apply (nicknames_resolve_but_one "charlotte_hornets" "Charlotte Hornets").
  cbn. tauto.
Defined.

End TeamFacts.
